(** * BidDeed.AI lien discovery: a shallow embedding and its properties

    The development follows two source files:
    - [src/integrations/firecrawl_client.py]: [FirecrawlClient.scrape],
      [AcclaimWebClient.search_liens], [_parse_liens], [_parse_amount],
      [analyze_lien_priority];
    - [src/workflows/integrated_lien_discovery.py]:
      [IntegratedLienDiscovery._combine_results].

    Modelling conventions.
    - A Python [str] is a [string]; each [ascii] is one code point.  The
      case mapping [upper] is the ASCII one (a-z), so the model speaks about
      ASCII text.
    - A Python number holding a monetary amount is modelled at two
      levels.  In the modules [Firecrawl], [Workflow] and [Discovery] it is
      an exact rational of [Q]; these modules carry the statements about
      parsing, ordering, buckets, warnings and control flow, and equalities
      between amounts are stated there with [Qeq].  In the modules
      [Binary64], [Firecrawl64] and [Workflow64] it is an IEEE 754 binary64
      value, a [spec_float] with the operations of [SpecFloat] at precision
      53, rounded to nearest as Python rounds them, with its infinities and
      nan; these modules carry the statements in which the rounding of a
      sum, a difference or a product matters.
    - A call that may raise returns a [result]: [Ret v] or [Raise e], where
      [e] ranges over the classes derived from Python's [Exception].
    - A dict with a fixed set of keys is a record; a key read with [.get]
      is an [option] field. *)

From Stdlib Require Import ZArith QArith Qminmax Bool List String Ascii Lia.
From Stdlib Require Import DecimalString Permutation Sorted SpecFloat.
Import ListNotations.

Local Close Scope Q_scope.
Local Open Scope string_scope.
Local Open Scope list_scope.
Local Open Scope nat_scope.

(** ** The Python runtime the code relies on *)

Module Py.

(** Exceptions derived from [Exception] that the modelled code can meet. *)
Inductive exn : Type :=
| ValueError (msg : string)
| AttributeError (msg : string)
| KeyError (key : string)
| IndexError (msg : string)
| TypeError (msg : string)
| HTTPError (msg : string)
| RequestException (msg : string)
| OtherException (msg : string).

(** [str(e)] *)
Definition str_of_exn (e : exn) : string :=
  match e with
  | ValueError m | AttributeError m | IndexError m | TypeError m
  | HTTPError m | RequestException m | OtherException m => m
  | KeyError k => "'" ++ k ++ "'"
  end.

Definition is_ValueError (e : exn) : bool :=
  match e with ValueError _ => true | _ => false end.

Definition is_AttributeError (e : exn) : bool :=
  match e with AttributeError _ => true | _ => false end.

Inductive result (A : Type) : Type :=
| Ret (v : A)
| Raise (e : exn).
Arguments Ret {A} v.
Arguments Raise {A} e.

Definition bind {A B} (m : result A) (k : A -> result B) : result B :=
  match m with
  | Ret v => k v
  | Raise e => Raise e
  end.

(** [try: body except <classes>: handler] *)
Definition try_except {A} (body : result A) (catches : exn -> bool)
    (handler : exn -> result A) : result A :=
  match body with
  | Ret v => Ret v
  | Raise e => if catches e then handler e else Raise e
  end.

Fixpoint mapM {A B} (f : A -> result B) (l : list A) : result (list B) :=
  match l with
  | [] => Ret []
  | x :: l' =>
      bind (f x) (fun y => bind (mapM f l') (fun ys => Ret (y :: ys)))
  end.

(** *** Characters *)

Definition code (c : ascii) : nat := nat_of_ascii c.

Definition is_digit (c : ascii) : bool :=
  (48 <=? code c)%nat && (code c <=? 57)%nat.

(** [str.isspace] on the code points below 256; it is also the class [\s]
    of the [re] module. *)
Definition is_space (c : ascii) : bool :=
  let n := code c in
  ((9 <=? n)%nat && (n <=? 13)%nat) || ((28 <=? n)%nat && (n <=? 32)%nat)
  || (n =? 133)%nat || (n =? 160)%nat.

Definition is_lower (c : ascii) : bool :=
  (97 <=? code c)%nat && (code c <=? 122)%nat.

Definition upper_char (c : ascii) : ascii :=
  if is_lower c then ascii_of_nat (code c - 32) else c.

(** *** Strings *)

(** [s.upper()] *)
Fixpoint upper (s : string) : string :=
  match s with
  | EmptyString => EmptyString
  | String c s' => String (upper_char c) (upper s')
  end.

(** [s.replace(c, '')] for a one-character [c] *)
Fixpoint replace_char_empty (c : ascii) (s : string) : string :=
  match s with
  | EmptyString => EmptyString
  | String d s' =>
      if Ascii.eqb d c then replace_char_empty c s'
      else String d (replace_char_empty c s')
  end.

(** [s.lstrip()] *)
Fixpoint lstrip (s : string) : string :=
  match s with
  | EmptyString => EmptyString
  | String c s' => if is_space c then lstrip s' else s
  end.

(** [s.rstrip()] *)
Fixpoint rstrip (s : string) : string :=
  match s with
  | EmptyString => EmptyString
  | String c s' =>
      match rstrip s' with
      | EmptyString => if is_space c then EmptyString else String c EmptyString
      | r => String c r
      end
  end.

(** [s.strip()] *)
Definition strip (s : string) : string := rstrip (lstrip s).

(** [kw in s] *)
Fixpoint contains (kw s : string) : bool :=
  String.prefix kw s
  || match s with
     | EmptyString => false
     | String _ s' => contains kw s'
     end.

(** [c in s] for a one-character [c] *)
Fixpoint has_char (c : ascii) (s : string) : bool :=
  match s with
  | EmptyString => false
  | String d s' => Ascii.eqb d c || has_char c s'
  end.

(** [s.split('\n')] *)
Fixpoint split_lines_aux (s : string) (cur : string) : list string :=
  match s with
  | EmptyString => [cur]
  | String c s' =>
      if Ascii.eqb c "010"%char then cur :: split_lines_aux s' EmptyString
      else split_lines_aux s' (cur ++ String c EmptyString)
  end.

Definition split_lines (s : string) : list string :=
  split_lines_aux s EmptyString.

(** [str(n)] for a non-negative integer *)
Definition str_of_nat (n : nat) : string :=
  NilEmpty.string_of_uint (Nat.to_uint n).

(** *** [float(s)] on decimal literals

    The accepted grammar is the one of the builtin for finite decimal
    values: surrounding whitespace, an optional sign, digits with single
    underscores between them, an optional fraction and an optional
    exponent.  Any other text raises [ValueError]; the texts [inf],
    [infinity] and [nan], which the builtin turns into non-finite values,
    are outside the model. *)

Definition digit_val (c : ascii) : Z := Z.of_nat (code c - 48).

(** the rest of a digit part, after its first digit *)
Fixpoint digitpart_rest (s : string) : list ascii * string :=
  match s with
  | EmptyString => ([], EmptyString)
  | String c s' =>
      if is_digit c then
        let (ds, r) := digitpart_rest s' in (c :: ds, r)
      else if Ascii.eqb c "_"%char then
        match s' with
        | String c2 _ =>
            if is_digit c2 then digitpart_rest s' else ([], s)
        | EmptyString => ([], s)
        end
      else ([], s)
  end.

(** a digit part: a digit, then digits with optional single underscores *)
Definition digitpart (s : string) : option (list ascii * string) :=
  match s with
  | String c s' =>
      if is_digit c then
        let (ds, r) := digitpart_rest s' in Some (c :: ds, r)
      else None
  | EmptyString => None
  end.

Definition digits_value (ds : list ascii) : Z :=
  fold_left (fun acc c => acc * 10 + digit_val c)%Z ds 0%Z.

Definition sign_of (s : string) : bool * string :=
  match s with
  | String "-"%char s' => (true, s')
  | String "+"%char s' => (false, s')
  | _ => (false, s)
  end.

(** an optional exponent; [None] when the text is not a valid tail *)
Definition exponent (s : string) : option Z :=
  match s with
  | EmptyString => Some 0%Z
  | String c s' =>
      if Ascii.eqb c "e"%char || Ascii.eqb c "E"%char then
        let (neg, s'') := sign_of s' in
        match digitpart s'' with
        | Some (ds, EmptyString) =>
            Some (if neg then - digits_value ds else digits_value ds)%Z
        | _ => None
        end
      else None
  end.

(** [m * 10^e] *)
Definition scale10 (m : Z) (e : Z) : Q :=
  if (0 <=? e)%Z then inject_Z (m * 10 ^ e)
  else Qmake m (Z.to_pos (10 ^ (- e))).

Definition float_literal (s : string) : option Q :=
  let (neg, s1) := sign_of s in
  let mant :=
    match digitpart s1 with
    | Some (ip, String "."%char s2) =>
        match digitpart s2 with
        | Some (fp, s3) => Some (ip ++ fp, List.length fp, s3)
        | None => Some (ip, 0%nat, s2)
        end
    | Some (ip, s2) => Some (ip, 0%nat, s2)
    | None =>
        match s1 with
        | String "."%char s2 =>
            match digitpart s2 with
            | Some (fp, s3) => Some (fp, List.length fp, s3)
            | None => None
            end
        | _ => None
        end
    end in
  match mant with
  | Some (ds, nfrac, tail) =>
      match exponent tail with
      | Some e =>
          let m := digits_value ds in
          Some (scale10 (if neg then - m else m)%Z (e - Z.of_nat nfrac))
      | None => None
      end
  | None => None
  end.

Definition float (s : string) : result Q :=
  match float_literal (strip s) with
  | Some q => Ret q
  | None =>
      Raise (ValueError ("could not convert string to float: '" ++ s ++ "'"))
  end.

(** *** Numbers *)

(** [x < y] *)
Definition Qltb (x y : Q) : bool := negb (Qle_bool y x).

(** [max(a, b)]: the first argument unless the second is greater *)
Definition max2 (a b : Q) : Q := if Qltb a b then b else a.

(** [sum(xs)]: starts from 0 and adds from the left *)
Definition sum (xs : list Q) : Q := fold_left Qplus xs 0%Q.

(** a value read with [d.get(key, default)] *)
Definition get {A} (field : option A) (default : A) : A :=
  match field with
  | Some v => v
  | None => default
  end.

(** the truth value of [d.get(key)] for a boolean entry *)
Definition truthy (field : option bool) : bool := get field false.

(** *** [list.sort(key=...)]

    The keys are computed first, one call per element and in list order,
    so a key that raises aborts the sort.  The sort is stable; its result
    is computed here by insertion, comparing keys with [<] only. *)

Section Sort.
Context {K A : Type} (ltb : K -> K -> bool).

Fixpoint insert (x : K * A) (l : list (K * A)) : list (K * A) :=
  match l with
  | [] => [x]
  | y :: l' =>
      if ltb (fst y) (fst x) then y :: insert x l' else x :: y :: l'
  end.

Definition sort_keyed (l : list (K * A)) : list (K * A) :=
  fold_right insert [] l.

Definition decorate (key : A -> result K) (l : list A)
    : result (list (K * A)) :=
  mapM (fun x => bind (key x) (fun k => Ret (k, x))) l.

Definition sort_by (key : A -> result K) (l : list A) : result (list A) :=
  bind (decorate key l) (fun kl => Ret (map snd (sort_keyed kl))).
End Sort.

(** *** [datetime.strptime(s, '%m/%d/%Y')]

    The model reads the shape that group 7 of [lien_pattern] yields, two
    digits, two digits and four digits; the call is made on such texts
    only.  A month, day or year out of range raises [ValueError]. *)

Record date : Type := { year : nat; month : nat; day : nat }.

(** [d1 < d2] *)
Definition date_ltb (d1 d2 : date) : bool :=
  ((year d1 <? year d2)
   || ((year d1 =? year d2)
       && ((month d1 <? month d2)
           || ((month d1 =? month d2) && (day d1 <? day d2)))))%nat.

Definition is_leap (y : nat) : bool :=
  (((y mod 4 =? 0) && negb (y mod 100 =? 0)) || (y mod 400 =? 0))%nat.

Definition days_in_month (y m : nat) : nat :=
  match m with
  | 2 => if is_leap y then 29 else 28
  | 4 | 6 | 9 | 11 => 30
  | _ => 31
  end.

Definition digit_nat (c : ascii) : nat := code c - 48.

Definition strptime_mdY (s : string) : result date :=
  let bad :=
    Raise (ValueError
             ("time data '" ++ s ++ "' does not match format '%m/%d/%Y'")) in
  match s with
  | String m1 (String m2 (String "/" (String d1 (String d2 (String "/"
      (String y1 (String y2 (String y3 (String y4 EmptyString))))))))) =>
      if forallb is_digit [m1; m2; d1; d2; y1; y2; y3; y4] then
        let mo := 10 * digit_nat m1 + digit_nat m2 in
        let dy := 10 * digit_nat d1 + digit_nat d2 in
        let yr := 1000 * digit_nat y1 + 100 * digit_nat y2
                  + 10 * digit_nat y3 + digit_nat y4 in
        if ((1 <=? mo) && (mo <=? 12) && (1 <=? yr)
            && (1 <=? dy) && (dy <=? days_in_month yr mo))%nat
        then Ret {| year := yr; month := mo; day := dy |}
        else bad
      else bad
  | _ => bad
  end.

End Py.

Notation "x <- m ;; k" := (Py.bind m (fun x => k))
  (at level 61, m at next level, right associativity).

Import Py.

(** ** The fragment of [re] that [lien_pattern] uses

    A pattern is a sequence of atoms: literals, an alternation of literals,
    a greedy bounded repetition of a character class, and the two ends of a
    capture group.  Matching backtracks as [re] does: a repetition first
    takes the longest run and gives characters back one at a time, and the
    alternatives are tried in order. *)

Module Re.

Inductive atom : Type :=
| Lit (s : string)
| Alt (alts : list string)
| Rep (p : ascii -> bool) (lo : nat) (hi : option nat)
| Open (g : nat)
| Close (g : nat).

Definition pattern := list atom.

(** the span [(start, stop)] of each group that took part in the match *)
Definition spans := list (nat * (nat * nat)).

Definition set_start (g pos : nat) (cs : spans) : spans :=
  (g, (pos, pos)) :: cs.

Fixpoint set_stop (g pos : nat) (cs : spans) : spans :=
  match cs with
  | [] => []
  | (g', (a, b)) :: cs' =>
      if (g' =? g)%nat then (g', (a, pos)) :: cs'
      else (g', (a, b)) :: set_stop g pos cs'
  end.

Fixpoint strip_prefix (l s : string) : option string :=
  match l, s with
  | EmptyString, _ => Some s
  | String a l', String b s' =>
      if Ascii.eqb a b then strip_prefix l' s' else None
  | String _ _, EmptyString => None
  end.

Fixpoint drop (n : nat) (s : string) : string :=
  match n, s with
  | O, _ => s
  | S n', String _ s' => drop n' s'
  | S _, EmptyString => EmptyString
  end.

(** length of the longest run of [p] at the head of [s], capped by [hi] *)
Fixpoint run_length (p : ascii -> bool) (hi : option nat) (s : string) : nat :=
  match s with
  | EmptyString => O
  | String c s' =>
      match hi with
      | Some O => O
      | Some (S h) => if p c then S (run_length p (Some h) s') else O
      | None => if p c then S (run_length p None s') else O
      end
  end.

(** tries the counts [n], [n - 1], ..., [lo] in this order *)
Fixpoint try_down {A} (k : nat -> option A) (lo n : nat) : option A :=
  match k n with
  | Some r => Some r
  | None =>
      match n with
      | O => None
      | S n' => if (lo <=? n')%nat then try_down k lo n' else None
      end
  end.

Fixpoint first_some {A B} (f : A -> option B) (l : list A) : option B :=
  match l with
  | [] => None
  | x :: l' =>
      match f x with
      | Some r => Some r
      | None => first_some f l'
      end
  end.

(** a match of [pat] that starts exactly at the head of [s], which sits at
    offset [pos] of the searched line *)
Fixpoint match_here (pat : pattern) (s : string) (pos : nat) (cs : spans)
    : option spans :=
  match pat with
  | [] => Some cs
  | Lit l :: rest =>
      match strip_prefix l s with
      | Some s' => match_here rest s' (pos + String.length l) cs
      | None => None
      end
  | Alt alts :: rest =>
      first_some
        (fun l =>
           match strip_prefix l s with
           | Some s' => match_here rest s' (pos + String.length l) cs
           | None => None
           end) alts
  | Rep p lo hi :: rest =>
      let n := run_length p hi s in
      if (n <? lo)%nat then None
      else try_down (fun k => match_here rest (drop k s) (pos + k) cs) lo n
  | Open g :: rest => match_here rest s pos (set_start g pos cs)
  | Close g :: rest => match_here rest s pos (set_stop g pos cs)
  end.

Fixpoint search_from (pat : pattern) (s : string) (pos : nat)
    : option spans :=
  match match_here pat s pos [] with
  | Some r => Some r
  | None =>
      match s with
      | EmptyString => None
      | String _ s' => search_from pat s' (S pos)
      end
  end.

(** a match object: the searched text and the spans of its groups *)
Record match_object : Type := { text : string; groups : spans }.

(** [pattern.search(line)] *)
Definition search (pat : pattern) (line : string) : option match_object :=
  match search_from pat line 0 with
  | Some cs => Some {| text := line; groups := cs |}
  | None => None
  end.

Fixpoint span_of (g : nat) (cs : spans) : option (nat * nat) :=
  match cs with
  | [] => None
  | (g', sp) :: cs' => if (g' =? g)%nat then Some sp else span_of g cs'
  end.

(** [m.group(g)] for a group that took part in the match *)
Definition group (m : match_object) (g : nat) : string :=
  match span_of g (groups m) with
  | Some (a, b) => String.substring a (b - a) (text m)
  | None => EmptyString
  end.

Definition star (p : ascii -> bool) : atom := Rep p 0 None.
Definition plus (p : ascii -> bool) : atom := Rep p 1 None.
Definition exactly (n : nat) (p : ascii -> bool) : atom := Rep p n (Some n).
Definition opt_char (c : ascii) : atom := Rep (Ascii.eqb c) 0 (Some 1).

End Re.

(** ** firecrawl_client.py *)

Module Firecrawl.

(** A lien dict as [_parse_liens] builds it.  [is_hoa], [warning] and
    [priority_position] are the keys added later; [analyze_lien_priority]
    reads [is_hoa] with [.get]. *)
Record lien : Type := mk_lien {
  type : string;
  instrument_number : string;
  book : string;
  page : string;
  grantor : string;
  grantee : string;
  recorded_date : string;
  amount : Q;
  is_hoa : option bool;
  warning : option string;
  priority_position : option nat
}.

(** [AcclaimWebClient._parse_amount], with the conversion [float] it calls
    left open so that statements can range over every behaviour of the
    builtin. *)
Definition _parse_amount_with (float : string -> result Q)
    (amount_str : string) : result Q :=
  try_except
    (let cleaned :=
       strip (replace_char_empty "$"%char
                (replace_char_empty ","%char amount_str)) in
     float cleaned)
    (fun e => is_ValueError e || is_AttributeError e)
    (fun _ => Ret 0%Q).

Definition _parse_amount : string -> result Q := _parse_amount_with Py.float.

(** [lien_pattern] of [_parse_liens] *)
Definition not_pipe (c : ascii) : bool := negb (Ascii.eqb c "|"%char).
Definition digit_or_comma (c : ascii) : bool :=
  is_digit c || Ascii.eqb c ","%char.

Definition lien_pattern : Re.pattern :=
  let ws := Re.star is_space in
  let bar := [ws; Re.Lit "|"; ws] in
  [Re.Open 1; Re.Alt ["MTG"; "LIEN"; "JUDG"]; Re.Close 1] ++ bar ++
  [Re.Open 2; Re.exactly 4 is_digit; Re.Lit "-"; Re.plus is_digit; Re.Close 2]
    ++ bar ++
  [Re.Lit "Book"; ws; Re.Open 3; Re.plus is_digit; Re.Close 3; ws;
   Re.Lit "Page"; ws; Re.Open 4; Re.plus is_digit; Re.Close 4] ++ bar ++
  [Re.Open 5; Re.plus not_pipe; Re.Close 5; Re.Lit "|"; ws] ++
  [Re.Open 6; Re.plus not_pipe; Re.Close 6; Re.Lit "|"; ws] ++
  [Re.Open 7; Re.exactly 2 is_digit; Re.Lit "/"; Re.exactly 2 is_digit;
   Re.Lit "/"; Re.exactly 4 is_digit; Re.Close 7] ++ bar ++
  [Re.opt_char "$"; Re.Open 8; Re.plus digit_or_comma; Re.Close 8].

(** the dict built for one matching line *)
Definition lien_of_match (m : Re.match_object) : result lien :=
  a <- _parse_amount (Re.group m 8) ;;
  Ret {| type := Re.group m 1;
         instrument_number := Re.group m 2;
         book := Re.group m 3;
         page := Re.group m 4;
         grantor := strip (Re.group m 5);
         grantee := strip (Re.group m 6);
         recorded_date := Re.group m 7;
         amount := a;
         is_hoa := None;
         warning := None;
         priority_position := None |}.

(** the first loop of [_parse_liens]: one lien per matching line *)
Fixpoint extract_liens (lines : list string) : result (list lien) :=
  match lines with
  | [] => Ret []
  | line :: lines' =>
      match Re.search lien_pattern line with
      | Some m =>
          l <- lien_of_match m ;;
          ls <- extract_liens lines' ;;
          Ret (l :: ls)
      | None => extract_liens lines'
      end
  end.

(** the keyword list of the HOA detection *)
Definition hoa_keywords : list string :=
  ["HOMEOWNER"; "HOA"; "ASSOCIATION"; "CONDO"; "COMMUNITY"].

(** [any(keyword in grantor.upper() for keyword in [...])] *)
Definition hoa_match (grantor : string) : bool :=
  existsb (fun keyword => contains keyword (upper grantor)) hoa_keywords.

(** the body of the second loop of [_parse_liens] *)
Definition detect_hoa (l : lien) : lien :=
  if hoa_match (grantor l) then
    {| type := type l; instrument_number := instrument_number l;
       book := book l; page := page l; grantor := grantor l;
       grantee := grantee l; recorded_date := recorded_date l;
       amount := amount l;
       is_hoa := Some true;
       warning := Some "HOA lien may wipe senior mortgages if foreclosed";
       priority_position := priority_position l |}
  else
    {| type := type l; instrument_number := instrument_number l;
       book := book l; page := page l; grantor := grantor l;
       grantee := grantee l; recorded_date := recorded_date l;
       amount := amount l;
       is_hoa := Some false;
       warning := warning l;
       priority_position := priority_position l |}.

(** [liens.sort(key=lambda x: datetime.strptime(x['recorded_date'],
    '%m/%d/%Y'))] *)
Definition sort_by_recorded_date (liens : list lien) : result (list lien) :=
  sort_by date_ltb (fun x => strptime_mdY (recorded_date x)) liens.

(** [AcclaimWebClient._parse_liens] *)
Definition _parse_liens (markdown : string) : result (list lien) :=
  liens <- extract_liens (split_lines markdown) ;;
  sort_by_recorded_date (map detect_hoa liens).

(** *** [analyze_lien_priority] *)

(** the warning dicts, by their ["type"] entry *)
Inductive warning_dict : Type :=
| HOA_FORECLOSURE_RISK (message : string) (l : lien)
| MULTIPLE_MORTGAGES (message : string) (count : nat).

Record summary : Type := {
  total : Q;
  first_mortgage : Q;
  other_liens : Q
}.

Record analysis : Type := mk_analysis {
  total_liens : nat;
  total_encumbrance : Q;
  first_position : option lien;
  hoa_liens : list lien;
  mortgages : list lien;
  judgments : list lien;
  warnings : list warning_dict;
  encumbrance_summary : option summary
}.

(** [lien['priority_position'] = n] *)
Definition set_priority_position (l : lien) (n : nat) : lien :=
  {| type := type l; instrument_number := instrument_number l;
     book := book l; page := page l; grantor := grantor l;
     grantee := grantee l; recorded_date := recorded_date l;
     amount := amount l; is_hoa := is_hoa l; warning := warning l;
     priority_position := Some n |}.

Definition set_first_position (a : analysis) (l : lien) : analysis :=
  mk_analysis (total_liens a) (total_encumbrance a) (Some l) (hoa_liens a)
    (mortgages a) (judgments a) (warnings a) (encumbrance_summary a).

Definition append_mortgage (a : analysis) (l : lien) : analysis :=
  mk_analysis (total_liens a) (total_encumbrance a) (first_position a)
    (hoa_liens a) (mortgages a ++ [l]) (judgments a) (warnings a)
    (encumbrance_summary a).

Definition append_hoa_lien (a : analysis) (l : lien) : analysis :=
  mk_analysis (total_liens a) (total_encumbrance a) (first_position a)
    (hoa_liens a ++ [l]) (mortgages a) (judgments a) (warnings a)
    (encumbrance_summary a).

Definition append_judgment (a : analysis) (l : lien) : analysis :=
  mk_analysis (total_liens a) (total_encumbrance a) (first_position a)
    (hoa_liens a) (mortgages a) (judgments a ++ [l]) (warnings a)
    (encumbrance_summary a).

Definition append_warning (a : analysis) (w : warning_dict) : analysis :=
  mk_analysis (total_liens a) (total_encumbrance a) (first_position a)
    (hoa_liens a) (mortgages a) (judgments a) (warnings a ++ [w])
    (encumbrance_summary a).

Definition set_encumbrance_summary (a : analysis) (s : summary) : analysis :=
  mk_analysis (total_liens a) (total_encumbrance a) (first_position a)
    (hoa_liens a) (mortgages a) (judgments a) (warnings a) (Some s).

Definition hoa_warning (l : lien) : warning_dict :=
  HOA_FORECLOSURE_RISK
    ("HOA lien detected: " ++ grantor l ++ " - may wipe senior mortgages") l.

Definition multiple_mortgages_warning (n : nat) : warning_dict :=
  MULTIPLE_MORTGAGES
    (str_of_nat n ++ " mortgages detected - complex title") n.

(** The state of the categorising loop: the dicts of the input list as the
    loop has left them so far (each gets its [priority_position] written in
    place) and the analysis under construction.  The buckets hold the very
    dicts of the list, so they show the position too.  The input list is
    taken to hold distinct dicts, as [_parse_liens] builds them. *)
Definition loop_state : Type := list lien * analysis.

(** one iteration of [for idx, lien in enumerate(liens)] *)
Definition categorize (st : loop_state) (item : nat * lien) : loop_state :=
  let (seen, a) := st in
  let (idx, l0) := item in
  let l := set_priority_position l0 (idx + 1) in
  let a' :=
    if String.eqb (type l) "MTG" then
      let a1 := append_mortgage a l in
      if (idx =? 0)%nat then set_first_position a1 l else a1
    else if String.eqb (type l) "LIEN" then
      if truthy (is_hoa l) then
        append_warning (append_hoa_lien a l) (hoa_warning l)
      else a
    else if String.eqb (type l) "JUDG" then append_judgment a l
    else a in
  (seen ++ [l], a').

(** [enumerate(liens)] *)
Definition enumerate {A} (l : list A) : list (nat * A) :=
  combine (seq 0 (List.length l)) l.

Definition initial_analysis (liens : list lien) : analysis :=
  {| total_liens := List.length liens;
     total_encumbrance := sum (map amount liens);
     first_position := None;
     hoa_liens := [];
     mortgages := [];
     judgments := [];
     warnings := [];
     encumbrance_summary := None |}.

Definition first_position_amount (a : analysis) : Q :=
  match first_position a with
  | Some l => amount l
  | None => 0%Q
  end.

(** [AcclaimWebClient.analyze_lien_priority]: the list as the call leaves
    it, and the returned analysis *)
Definition analyze_lien_priority_state (liens : list lien) : loop_state :=
  let (seen, a) :=
    fold_left categorize (enumerate liens) ([], initial_analysis liens) in
  let a :=
    if 2 <? List.length (mortgages a) then
      append_warning a (multiple_mortgages_warning (List.length (mortgages a)))
    else a in
  let a :=
    if Qltb 0 (total_encumbrance a) then
      set_encumbrance_summary a
        {| total := total_encumbrance a;
           first_mortgage := first_position_amount a;
           other_liens :=
             (total_encumbrance a - first_position_amount a)%Q |}
    else a in
  (seen, a).

Definition analyze_lien_priority (liens : list lien) : analysis :=
  snd (analyze_lien_priority_state liens).

(** the input list after the call *)
Definition liens_after_analysis (liens : list lien) : list lien :=
  fst (analyze_lien_priority_state liens).

(** *** [FirecrawlClient.scrape] and [AcclaimWebClient.search_liens] *)

(** browser actions, by their ["type"] entry *)
Inductive action : Type :=
| ActWait (milliseconds : N)
| ActClick (selector : string)
| ActWrite (selector : string) (text : string)
| ActScreenshot.

(** the part of the Firecrawl answer that the code reads *)
Record actions_json : Type := {
  screenshots : option (list (option string))
}.

Record scrape_data : Type := {
  markdown : option string;
  actions : option actions_json
}.

Record scrape_json : Type := {
  success : option bool;
  error : option string;
  data : option scrape_data
}.

(** a [requests] response; [json] is the outcome of [response.json()],
    which raises on a body that is not JSON *)
Record http_response : Type := {
  status_code : nat;
  reason : string;
  url : string;
  json : result scrape_json;
  body_text : string
}.

Record payload : Type := {
  p_url : string;
  p_formats : list string;
  p_waitFor : N;
  p_maxAge : N;
  p_actions : option (list action)
}.

(** [response.raise_for_status()] *)
Definition raise_for_status (r : http_response) : result unit :=
  let msg (kind : string) : string :=
    (str_of_nat (status_code r) ++ " " ++ kind ++ " Error: " ++ reason r
     ++ " for url: " ++ url r)%string in
  if ((400 <=? status_code r) && (status_code r <? 500))%nat then
    Raise (HTTPError (msg "Client"))
  else if ((500 <=? status_code r) && (status_code r <? 600))%nat then
    Raise (HTTPError (msg "Server"))
  else Ret tt.

Section Scrape.
(** [requests.post(url, json=payload, headers=...)] *)
Variable post : string -> payload -> result http_response.

Definition base_url : string := "https://api.firecrawl.dev/v2".

(** [FirecrawlClient.scrape]; [None] is the value of a call that falls
    off the end of the function. *)
Definition scrape (target : string) (formats : list string)
    (acts : option (list action)) (wait_for max_age : N)
    : result (option scrape_json) :=
  let p := {| p_url := target; p_formats := formats; p_waitFor := wait_for;
              p_maxAge := max_age;
              p_actions := match acts with
                           | Some (_ :: _) => acts
                           | _ => None
                           end |} in
  response <- post (base_url ++ "/scrape") p ;;
  if (status_code response =? 200)%nat then
    d <- json response ;;
    Ret (Some d)
  else
    _ <- raise_for_status response ;;
    Ret None.

(** the method [scrape] as [search_liens] calls it, with the defaults
    [wait_for=5000] and [max_age=600000] *)
Definition scrape_method (url : string) (formats : list string)
    (acts : list action) : result (option scrape_json) :=
  scrape url formats (Some acts) 5000%N 600000%N.
End Scrape.

(** the two dicts [search_liens] returns *)
Inductive search_result : Type :=
| SearchFound (address : string) (parcel_id : option string)
    (liens : list lien) (total_liens : nat) (screenshot : option string)
    (raw_markdown : string) (search_timestamp : string)
| SearchFailed (error : string) (address : string).

Definition search_success (r : search_result) : bool :=
  match r with
  | SearchFound _ _ _ _ _ _ _ => true
  | SearchFailed _ _ => false
  end.

Definition search_address (r : search_result) : string :=
  match r with
  | SearchFound a _ _ _ _ _ _ => a
  | SearchFailed _ a => a
  end.

Section SearchLiens.
(** [self.firecrawl.scrape(url=..., formats=..., actions=...)] *)
Variable firecrawl_scrape :
  string -> list string -> list action -> result (option scrape_json).
(** [datetime.utcnow().isoformat()] *)
Variable utcnow : string.

Definition acclaim_url : string := "https://or.brevardclerk.us/AcclaimWeb".

Definition select_type (include : bool) (value : string) : list action :=
  if include then
    [ActClick ("input[value='" ++ value ++ "']"); ActWait 500%N]
  else [].

(** [parcel_id if parcel_id else address] *)
Definition search_text (address : string) (parcel_id : option string)
    : string :=
  match parcel_id with
  | Some (String c p) => String c p
  | _ => address
  end.

Definition build_actions (address : string) (parcel_id : option string)
    (include_mortgages include_liens include_judgments : bool)
    : list action :=
  [ActWait 3000%N]
  ++ select_type include_mortgages "MTG"
  ++ select_type include_liens "LIEN"
  ++ select_type include_judgments "JUDG"
  ++ [ActWrite "input[name='NameSearchModel.SearchCriteria']"
        (search_text address parcel_id);
      ActWait 1000%N;
      ActClick "button[type='submit']";
      ActWait 5000%N;
      ActScreenshot].

(** [result['data']['markdown']] *)
Definition read_markdown (r : scrape_json) : result string :=
  match data r with
  | None => Raise (KeyError "data")
  | Some d =>
      match markdown d with
      | None => Raise (KeyError "markdown")
      | Some m => Ret m
      end
  end.

(** [result['data'].get('actions', {}).get('screenshots', [None])[0]] *)
Definition read_screenshot (r : scrape_json) : result (option string) :=
  match data r with
  | None => Raise (KeyError "data")
  | Some d =>
      let shots :=
        match actions d with
        | None => [None]
        | Some a => get (screenshots a) [None]
        end in
      match shots with
      | [] => Raise (IndexError "list index out of range")
      | x :: _ => Ret x
      end
  end.

(** the body of the [try] block *)
Definition search_body (address : string) (parcel_id : option string)
    (acts : list action) : result search_result :=
  result <- firecrawl_scrape
              (acclaim_url ++ "/search/SearchTypeName?SearchType=Image")
              ["markdown"] acts ;;
  match result with
  | None =>
      Raise (AttributeError "'NoneType' object has no attribute 'get'")
  | Some r =>
      if truthy (success r) then
        md <- read_markdown r ;;
        shot <- read_screenshot r ;;
        liens <- _parse_liens md ;;
        Ret (SearchFound address parcel_id liens (List.length liens) shot
               md utcnow)
      else
        Ret (SearchFailed (get (error r) "Unknown error") address)
  end.

(** [AcclaimWebClient.search_liens] *)
Definition search_liens (address : string) (parcel_id : option string)
    (include_mortgages include_liens include_judgments : bool)
    : result search_result :=
  let acts := build_actions address parcel_id include_mortgages
                include_liens include_judgments in
  try_except (search_body address parcel_id acts)
    (fun _ => true)
    (fun e => Ret (SearchFailed (str_of_exn e) address)).
End SearchLiens.

End Firecrawl.

(** ** integrated_lien_discovery.py *)

Module Workflow.

(** a document of the agent output; [document_type] is read with
    [lien['document_type']], [amount] and [hoa_lien] with [.get] *)
Record document : Type := {
  document_type : string;
  instrument_number : option string;
  grantor : option string;
  recorded_date : option string;
  amount : option Q;
  hoa_lien : option bool
}.

Record agent_output : Type := {
  documents : option (list document)
}.

Record acclaimweb_result : Type := {
  success : bool;
  error : option string;
  agent_result : option agent_output;
  credits_used : option string
}.

(** the dict [_get_owner_from_bcpao] returns on success *)
Record bcpao_data : Type := {
  parcel_id : string;
  owner_name : string;
  address : string;
  assessed_value : option Q;
  just_value : option Q;
  living_area : option Q;
  year_built : option Q
}.

(** the warning dicts, by their ["type"] entry.  The message of
    [INSUFFICIENT_EQUITY] ends with the equity printed with two decimals;
    the model keeps the number next to the fixed part of the text. *)
Inductive warning_dict : Type :=
| HOA_FORECLOSURE_RISK (severity message : string) (hoa_liens : list document)
| COMPLEX_TITLE (severity message : string)
| INSUFFICIENT_EQUITY (severity message : string) (equity : Q).

Record property : Type := {
  p_parcel_id : string;
  p_address : string;
  p_owner_name : string;
  p_assessed_value : Q;
  p_just_value : Q;
  p_living_area : Q;
  p_year_built : Q
}.

Record lien_analysis : Type := {
  total_liens : nat;
  total_encumbrance : Q;
  mortgages : nat;
  other_liens : nat;
  judgments : nat;
  hoa_liens : nat;
  first_position : option document
}.

Record investment_analysis : Type := {
  arv : Q;
  max_bid_equity_70pct : Q;
  recommendation : string;
  reason : string;
  warnings : list warning_dict
}.

Record metadata : Type := {
  bcpao_source : string;
  acclaimweb_source : string;
  m_credits_used : string
}.

Record report : Type := {
  timestamp : string;
  r_property : property;
  r_lien_analysis : lien_analysis;
  liens : list document;
  r_investment_analysis : investment_analysis;
  r_metadata : metadata
}.

(** the two dicts [_combine_results] returns *)
Inductive combined : Type :=
| CombineFailed (error : string) (bcpao : bcpao_data)
    (acclaimweb_error : option string)
| Combined (r : report).

(** [[lien for lien in liens if lien['document_type'] == t]] *)
Definition of_type (t : string) (docs : list document) : list document :=
  filter (fun lien => String.eqb (document_type lien) t) docs.

(** [mortgages[0] if mortgages else None] *)
Definition first_or_none {A} (l : list A) : option A :=
  match l with
  | [] => None
  | x :: _ => Some x
  end.

(** the truth value of a list *)
Definition nonempty {A} (l : list A) : bool :=
  match l with
  | [] => false
  | _ :: _ => true
  end.

Definition when {A} (c : bool) (x : A) : list A := if c then [x] else [].

(** [acclaimweb_result.get('agent_result', {}).get('documents', [])] *)
Definition documents_of (acclaimweb : acclaimweb_result) : list document :=
  get (documents (get (agent_result acclaimweb) {| documents := None |})) [].

(** the block "Build warnings" *)
Definition build_warnings (hoa_liens mortgages : list document)
    (max_bid_equity : Q) : list warning_dict :=
  when (nonempty hoa_liens)
    (HOA_FORECLOSURE_RISK "CRITICAL"
       (str_of_nat (List.length hoa_liens) ++
        " HOA lien(s) detected - may extinguish senior mortgages in Florida!")
       hoa_liens)
  ++ when (2 <? List.length mortgages)
       (COMPLEX_TITLE "MEDIUM"
          (str_of_nat (List.length mortgages) ++
           " mortgages detected - complex title structure"))
  ++ when (Qltb max_bid_equity 10000)
       (INSUFFICIENT_EQUITY "HIGH" "Insufficient equity after liens: $"
          max_bid_equity).

(** the block "Investment recommendation": [(recommendation, reason)] *)
Definition recommend (hoa_liens mortgages : list document)
    (max_bid_equity : Q) : string * string :=
  if nonempty hoa_liens then
    ("SKIP", "HOA foreclosure risk - may wipe senior mortgages")
  else if Qltb max_bid_equity 10000 then
    ("SKIP", "Insufficient equity after liens")
  else if 2 <? List.length mortgages then
    ("REVIEW", "Complex title - verify lien priority with attorney")
  else
    ("BID", "Acceptable lien structure and equity position").

Section Combine.
(** [datetime.utcnow().isoformat()] *)
Variable utcnow : string.

(** [IntegratedLienDiscovery._combine_results] *)
Definition _combine_results (bcpao : bcpao_data)
    (acclaimweb : acclaimweb_result) : combined :=
  if negb (success acclaimweb) then
    CombineFailed "AcclaimWeb search failed" bcpao (error acclaimweb)
  else
    let liens := documents_of acclaimweb in
    let total_liens := List.length liens in
    let hoa_liens := filter (fun lien => truthy (hoa_lien lien)) liens in
    let total_encumbrance :=
      sum (map (fun lien => get (amount lien) 0%Q) liens) in
    let mortgages := of_type "MTG" liens in
    let other_liens := of_type "LIEN" liens in
    let judgments := of_type "JUDG" liens in
    let first_position := first_or_none mortgages in
    let assessed_value := get (assessed_value bcpao) 0%Q in
    let just_value := get (just_value bcpao) 0%Q in
    let arv := max2 assessed_value just_value in
    let max_bid_equity :=
      ((arv * (7 # 10)) - total_encumbrance - 10000)%Q in
    let warnings := build_warnings hoa_liens mortgages max_bid_equity in
    let (recommendation, reason) :=
      recommend hoa_liens mortgages max_bid_equity in
    Combined
      {| timestamp := utcnow;
         r_property :=
           {| p_parcel_id := parcel_id bcpao;
              p_address := address bcpao;
              p_owner_name := owner_name bcpao;
              p_assessed_value := assessed_value;
              p_just_value := just_value;
              p_living_area := get (living_area bcpao) 0%Q;
              p_year_built := get (year_built bcpao) 0%Q |};
         r_lien_analysis :=
           {| total_liens := total_liens;
              total_encumbrance := total_encumbrance;
              mortgages := List.length mortgages;
              other_liens := List.length other_liens;
              judgments := List.length judgments;
              hoa_liens := List.length hoa_liens;
              first_position := first_position |};
         liens := liens;
         r_investment_analysis :=
           {| arv := arv;
              max_bid_equity_70pct := max_bid_equity;
              recommendation := recommendation;
              reason := reason;
              warnings := warnings |};
         r_metadata :=
           {| bcpao_source := "Direct API (FREE)";
              acclaimweb_source := "Firecrawl Agent";
              m_credits_used := get (credits_used acclaimweb) "unknown" |}
      |}.
End Combine.

End Workflow.

Import Firecrawl.

(** ** Notions used in the statements *)

(** [lien['type'] == t] *)
Definition is_type (t : string) (l : lien) : bool := String.eqb (type l) t.

(** the records for which [analyze_lien_priority] raises an HOA warning *)
Definition hoa_risk (l : lien) : bool :=
  is_type "LIEN" l && truthy (is_hoa l).

(** the dicts of a list once positions [n + 1], [n + 2], ... are written *)
Definition rank_from (n : nat) (liens : list lien) : list lien :=
  map (fun p => set_priority_position (snd p) (fst p + 1))
    (combine (seq n (List.length liens)) liens).

(** the categorising loop started at index [n] *)
Definition loop_from (n : nat) (liens : list lien) (st : loop_state)
    : loop_state :=
  fold_left categorize (combine (seq n (List.length liens)) liens) st.

(** the mathematical sum of a list of amounts *)
Definition Qsum (xs : list Q) : Q := fold_right Qplus 0%Q xs.

(** ** The specification's wording

    Definitions that follow the text of the specification, to be compared
    with the ones taken from the code. *)

Module Spec.

Inductive Recommendation : Type := Bid | Review | Skip.

Definition fixed_closing_cost : Q := 10000%Q.
Definition equity_floor : Q := 10000%Q.

(** "equity_estimate := arv * 0.70 - total_encumbrance - fixed_closing_cost" *)
Definition equity_estimate (arv total_encumbrance : Q) : Q :=
  (arv * (7 # 10) - total_encumbrance - fixed_closing_cost)%Q.

(** the decision table, top to bottom, first match wins *)
Definition decision_table (priority_risk_count : nat) (equity : Q)
    (mortgage_count : nat) : Recommendation :=
  if 0 <? priority_risk_count then Skip
  else if Qltb equity equity_floor then Skip
  else if 2 <? mortgage_count then Review
  else Bid.

Inductive Severity : Type := Critical | Medium | High.

(** a warning with its severity and what it carries *)
Inductive Warning (R : Type) : Type :=
| PriorityRisk (severity : Severity) (record : R)
| ComplexTitle (severity : Severity) (mortgage_count : nat).
Arguments PriorityRisk {R} severity record.
Arguments ComplexTitle {R} severity mortgage_count.

(** "one PriorityRisk warning per record with is_priority_risk == true,
    severity Critical, carrying the record reference; one ComplexTitle
    warning, severity Medium, if the Mortgage bucket has more than 2
    entries, carrying the mortgage count" *)
Definition warnings {R} (is_priority_risk is_mortgage : R -> bool)
    (records : list R) : list (Warning R) :=
  map (PriorityRisk Critical) (filter is_priority_risk records)
  ++ (if 2 <? List.length (filter is_mortgage records)
      then [ComplexTitle Medium (List.length (filter is_mortgage records))]
      else []).

End Spec.

(** how the dicts of the code read as the specification's values *)
Definition label (r : Spec.Recommendation) : string :=
  match r with
  | Spec.Bid => "BID"
  | Spec.Review => "REVIEW"
  | Spec.Skip => "SKIP"
  end.

Definition severity_label (s : Spec.Severity) : string :=
  match s with
  | Spec.Critical => "CRITICAL"
  | Spec.Medium => "MEDIUM"
  | Spec.High => "HIGH"
  end.

(** a warning of [analyze_lien_priority] read as a warning of the
    specification; the dicts have no severity entry, the reading grants
    the severity the specification asks for *)
Definition as_spec_warning (w : warning_dict) : Spec.Warning lien :=
  match w with
  | HOA_FORECLOSURE_RISK _ l => Spec.PriorityRisk Spec.Critical l
  | MULTIPLE_MORTGAGES _ n => Spec.ComplexTitle Spec.Medium n
  end.

(** the number of warnings of [_combine_results] that report HOA risk *)
Definition hoa_warning_count (ws : list Workflow.warning_dict) : nat :=
  List.length
    (filter (fun w => match w with
                      | Workflow.HOA_FORECLOSURE_RISK _ _ _ => true
                      | _ => false
                      end) ws).

(** example records *)
Definition a_lien (t creditor date : string) (amt : Q) (hoa : option bool)
    : lien :=
  {| type := t; instrument_number := "2023-00001"; book := "1";
     page := "1"; grantor := creditor; grantee := "JOHN DOE";
     recorded_date := date; amount := amt; is_hoa := hoa;
     warning := None; priority_position := None |}.

Definition a_document (t : string) (amt : Q) (hoa : bool)
    : Workflow.document :=
  {| Workflow.document_type := t; Workflow.instrument_number := None;
     Workflow.grantor := None; Workflow.recorded_date := None;
     Workflow.amount := Some amt; Workflow.hoa_lien := Some hoa |}.

Definition a_valuation (assessed just : option Q) : Workflow.bcpao_data :=
  {| Workflow.parcel_id := "2517790"; Workflow.owner_name := "JOHN DOE";
     Workflow.address := "4127 ARLINGTON AVE";
     Workflow.assessed_value := assessed; Workflow.just_value := just;
     Workflow.living_area := None; Workflow.year_built := None |}.

Definition agent_found (docs : list Workflow.document)
    : Workflow.acclaimweb_result :=
  {| Workflow.success := true; Workflow.error := None;
     Workflow.agent_result := Some {| Workflow.documents := Some docs |};
     Workflow.credits_used := None |}.

(** the report of a successful [_combine_results] *)
Definition report_of (c : Workflow.combined) : option Workflow.report :=
  match c with
  | Workflow.Combined r => Some r
  | Workflow.CombineFailed _ _ _ => None
  end.

(** the order of recording dates, as the statements use it *)
Definition date_eqb (d1 d2 : date) : bool :=
  (year d1 =? year d2) && (month d1 =? month d2) && (day d1 =? day d2).

(** the record was recorded on [d] *)
Definition recorded_on (d : date) (l : lien) : bool :=
  match strptime_mdY (recorded_date l) with
  | Ret d' => date_eqb d d'
  | Raise _ => false
  end.

(** both dates parse and [a] was not recorded after [b] *)
Definition not_after (a b : lien) : Prop :=
  exists da db,
    strptime_mdY (recorded_date a) = Ret da
    /\ strptime_mdY (recorded_date b) = Ret db
    /\ date_ltb db da = false.

(** three scraped lines: two records of the same day, then an older one *)
Definition tied_markdown : string :=
  "MTG | 2023-12345 | Book 1234 Page 567 | WELLS FARGO BANK | JOHN DOE | 03/15/2023 | $250,000"
  ++ String "010"
  "LIEN | 2023-45678 | Book 1235 Page 890 | SUNSET HOMEOWNERS ASSOCIATION | JOHN DOE | 03/15/2023 | $5,000"
  ++ String "010"
  "JUDG | 2021-00077 | Book 1100 Page 12 | IRS | JOHN DOE | 11/02/2021 | $15,000".

(** what [_parse_liens] returns on [tied_markdown] *)
Definition tied_liens : list lien :=
  Eval vm_compute in
    match _parse_liens tied_markdown with
    | Ret l => l
    | Raise _ => []
    end.

(** [lien.get('amount', 0)] *)
Definition amount_or_zero (d : Workflow.document) : Q :=
  get (Workflow.amount d) 0%Q.

(** two scraped lines: an association lien recorded before a mortgage *)
Definition lien_before_mortgage_markdown : string :=
  "LIEN | 2022-45678 | Book 1235 Page 890 | SUNSET HOMEOWNERS ASSOCIATION | JOHN DOE | 02/20/2022 | $5,000"
  ++ String "010"
  "MTG | 2023-12345 | Book 1234 Page 567 | WELLS FARGO BANK | JOHN DOE | 01/15/2023 | $250,000".

(** [x] does not come after [y] in the order of the keys *)
Definition key_le {K A : Type} (ltb : K -> K -> bool) (x y : K * A) : Prop :=
  ltb (fst y) (fst x) = false.

(** a Firecrawl service that answers every request with status 503 *)
Definition unavailable (url : string) (p : payload) : result http_response :=
  Ret {| status_code := 503; reason := "Service Unavailable"; url := url;
         json := Raise (ValueError "Expecting value");
         body_text := "" |}.

(** what a pass of the loop from index [n] over [liens] does to each
    component of the state *)
Record loop_effect (n : nat) (liens : list lien) (st st' : loop_state)
    : Prop := {
  eff_seen : fst st' = fst st ++ rank_from n liens;
  eff_mortgages :
    mortgages (snd st')
    = mortgages (snd st) ++ filter (is_type "MTG") (rank_from n liens);
  eff_hoa_liens :
    hoa_liens (snd st')
    = hoa_liens (snd st) ++ filter hoa_risk (rank_from n liens);
  eff_judgments :
    judgments (snd st')
    = judgments (snd st) ++ filter (is_type "JUDG") (rank_from n liens);
  eff_warnings :
    warnings (snd st')
    = warnings (snd st) ++ map hoa_warning (filter hoa_risk (rank_from n liens));
  eff_first_position :
    first_position (snd st')
    = match rank_from n liens with
      | l :: _ =>
          if (n =? 0) && is_type "MTG" l then Some l
          else first_position (snd st)
      | [] => first_position (snd st)
      end;
  eff_total_liens : total_liens (snd st') = total_liens (snd st);
  eff_total_encumbrance :
    total_encumbrance (snd st') = total_encumbrance (snd st);
  eff_summary : encumbrance_summary (snd st') = encumbrance_summary (snd st)
}.

(** inputs of tests/integrations/test_firecrawl_client.py *)
Definition test_markdown : string :=
  String "010" "        MTG | 2023-12345 | Book 1234 Page 567 | WELLS FARGO BANK | JOHN DOE | 01/15/2023 | $250,000"
  ++ String "010" "        LIEN | 2023-45678 | Book 1235 Page 890 | SUNSET HOMEOWNERS ASSOCIATION | JOHN DOE | 02/20/2023 | $5,000"
  ++ String "010" "        ".

Definition test_liens : list lien :=
  [a_lien "MTG" "WELLS FARGO" "01/15/2023" 250000 (Some false);
   a_lien "LIEN" "SUNSET HOA" "02/20/2023" 5000 (Some true)].

Definition test_three_mortgages : list lien :=
  [a_lien "MTG" "BANK A" "" 200000 (Some false);
   a_lien "MTG" "BANK B" "" 50000 (Some false);
   a_lien "MTG" "BANK C" "" 25000 (Some false)].

(** a mocked scrape that answers with [md] and the screenshots [shots] *)
Definition mock_scrape (md : string) (shots : list (option string))
    (url : string) (formats : list string) (acts : list action)
    : result (option scrape_json) :=
  Ret (Some {| success := Some true; error := None;
               data := Some {| markdown := Some md;
                               actions :=
                                 Some {| screenshots := Some shots |} |} |}).

(** a mortgage whose creditor text matches an HOA keyword, flagged *)
Definition flagged_mortgage : lien :=
  a_lien "MTG" "SUNSET HOMEOWNERS ASSOCIATION" "01/15/2023" 250000
    (Some true).

(** a judgment whose creditor text matches an HOA keyword, flagged *)
Definition flagged_judgment : lien :=
  a_lien "JUDG" "PARKVIEW HOA" "02/20/2023" 5000 (Some true).

Definition flagged_document : Workflow.document :=
  a_document "LIEN" 5000 true.

Definition irs_judgment : lien :=
  a_lien "JUDG" "IRS" "03/01/2023" (1234.56)%Q None.

(** ** What a match of a pattern means

    The texts that a pattern without groups accepts, and the groups that a
    pattern mentions.  They give the statements about the records that
    [lien_pattern] extracts. *)

Fixpoint all_chars (p : ascii -> bool) (s : string) : bool :=
  match s with
  | EmptyString => true
  | String c s' => p c && all_chars p s'
  end.

(** [n] respects the upper bound of a repetition *)
Definition within (hi : option nat) (n : nat) : Prop :=
  match hi with
  | Some h => n <= h
  | None => True
  end.

Inductive accepts : Re.pattern -> string -> Prop :=
| accepts_nil : accepts [] EmptyString
| accepts_lit l rest w :
    accepts rest w -> accepts (Re.Lit l :: rest) (l ++ w)%string
| accepts_alt alts l rest w :
    In l alts -> accepts rest w -> accepts (Re.Alt alts :: rest) (l ++ w)%string
| accepts_rep p lo hi u rest w :
    all_chars p u = true -> lo <= String.length u ->
    within hi (String.length u) -> accepts rest w ->
    accepts (Re.Rep p lo hi :: rest) (u ++ w)%string.

Fixpoint no_groups (pat : Re.pattern) : bool :=
  match pat with
  | [] => true
  | (Re.Open _ | Re.Close _) :: _ => false
  | _ :: rest => no_groups rest
  end.

(** the pattern has no end of group [g] *)
Fixpoint group_free (g : nat) (pat : Re.pattern) : bool :=
  match pat with
  | [] => true
  | (Re.Open g' | Re.Close g') :: rest =>
      negb (g' =? g) && group_free g rest
  | _ :: rest => group_free g rest
  end.

(** [lien_pattern.search(line)] finds a match *)
Definition line_matches (line : string) : bool :=
  match Re.search lien_pattern line with
  | Some _ => true
  | None => false
  end.

(** the text is two digits, two digits and four digits between slashes *)
Definition date_shaped (s : string) : Prop :=
  exists m1 m2 d1 d2 y1 y2 y3 y4,
    s = String m1 (String m2 (String "/" (String d1 (String d2 (String "/"
          (String y1 (String y2 (String y3 (String y4 EmptyString)))))))))
    /\ forallb is_digit [m1; m2; d1; d2; y1; y2; y3; y4] = true.

(** scraped lines, the second with a date that is no calendar date *)
Definition bad_date_markdown : string :=
  "MTG | 2023-12345 | Book 1234 Page 567 | WELLS FARGO BANK | JOHN DOE | 01/15/2023 | $250,000"
  ++ String "010"
  "LIEN | 2023-45678 | Book 1235 Page 890 | SUNSET HOA | JOHN DOE | 02/30/2023 | $5,000".

(** the chars of a string *)
Fixpoint chars (s : string) : list ascii :=
  match s with
  | EmptyString => []
  | String c s' => c :: chars s'
  end.

(** what the extraction guarantees of a record: a known type, a date of
    the expected shape and an amount that is a natural number *)
Definition well_formed (l : lien) : Prop :=
  In (type l) ["MTG"; "LIEN"; "JUDG"]
  /\ date_shaped (recorded_date l)
  /\ exists n : Z, (0 <= n)%Z /\ amount l = inject_Z n.

(** the ranked records that [analyze_lien_priority] files in no bucket *)
Definition unbucketed (l : lien) : bool :=
  negb (is_type "MTG" l || hoa_risk l || is_type "JUDG" l).

(** a record without its priority position *)
Definition unranked (l : lien) : lien :=
  {| type := type l; instrument_number := instrument_number l;
     book := book l; page := page l; grantor := grantor l;
     grantee := grantee l; recorded_date := recorded_date l;
     amount := amount l; is_hoa := is_hoa l; warning := warning l;
     priority_position := None |}.

(** an IRS lien, flagged as no HOA lien *)
Definition irs_lien : lien :=
  a_lien "LIEN" "IRS" "02/20/2023" 15000 (Some false).

(** the action types in the text field *)
Definition is_write (a : action) : bool :=
  match a with
  | ActWrite _ _ => true
  | _ => false
  end.

(** the clicks on a document type checkbox *)
Definition is_type_click (a : action) : bool :=
  match a with
  | ActClick sel => String.prefix "input[value='" sel
  | _ => false
  end.

Definition count_true (bs : list bool) : nat :=
  List.length (filter (fun b => b) bs).

(** a successful scrape answer with a markdown and a screenshots entry *)
Definition answer (md : string) (shots : option (list (option string)))
    : scrape_json :=
  {| success := Some true; error := None;
     data := Some {| markdown := Some md;
                     actions := Some {| screenshots := shots |} |} |}.

(** a Firecrawl service that answers every request with status 204 *)
Definition no_content (url : string) (p : payload) : result http_response :=
  Ret {| status_code := 204; reason := "No Content"; url := url;
         json := Raise (ValueError "Expecting value");
         body_text := "" |}.

(** the warnings of [_combine_results] that go with a SKIP *)
Definition is_skip_warning (w : Workflow.warning_dict) : bool :=
  match w with
  | Workflow.HOA_FORECLOSURE_RISK _ _ _ => true
  | Workflow.INSUFFICIENT_EQUITY _ _ _ => true
  | Workflow.COMPLEX_TITLE _ _ => false
  end.

(** how favourable a recommendation is *)
Definition standing (recommendation : string) : nat :=
  if String.eqb recommendation "BID" then 2
  else if String.eqb recommendation "REVIEW" then 1
  else 0.

(** a document whose type is none of MTG, LIEN and JUDG *)
Definition untyped_document (d : Workflow.document) : bool :=
  negb (String.eqb (Workflow.document_type d) "MTG"
        || String.eqb (Workflow.document_type d) "LIEN"
        || String.eqb (Workflow.document_type d) "JUDG").

(** the value taken for the property *)
Definition valuation_arv (bcpao : Workflow.bcpao_data) : Q :=
  max2 (get (Workflow.assessed_value bcpao) 0%Q)
       (get (Workflow.just_value bcpao) 0%Q).

(** an agent answer without documents *)
Definition agent_silent : Workflow.acclaimweb_result :=
  {| Workflow.success := true; Workflow.error := None;
     Workflow.agent_result := Some {| Workflow.documents := None |};
     Workflow.credits_used := None |}.

(** ** integrated_lien_discovery.py: the lookups and [discover_liens] *)

Module Discovery.

(** the classes that [except requests.exceptions.RequestException] catches *)
Definition is_RequestException (e : exn) : bool :=
  match e with
  | RequestException _ | HTTPError _ => true
  | _ => false
  end.

(** the part of the BCPAO answer that the code reads *)
Record bcpao_json : Type := {
  ownerName : option string;
  propertyAddress : option string;
  assessedValue : option Q;
  justValue : option Q;
  livingArea : option Q;
  yearBuilt : option Q
}.

Record bcpao_response : Type := {
  b_status_code : nat;
  b_json : result bcpao_json
}.

(** the two dicts [_get_owner_from_bcpao] returns *)
Inductive owner_lookup : Type :=
| OwnerFound (d : Workflow.bcpao_data) (raw_data : bcpao_json)
| OwnerFailed (error : string).

(** The prompt sent to the agent is a fixed text with three holes; the
    model keeps what fills them. *)
Record agent_prompt : Type := {
  prompt_address : string;
  prompt_owner_name : string;
  prompt_doc_types : string
}.

Record agent_request : Type := {
  prompt : agent_prompt;
  max_steps : nat;
  output_format : string
}.

Record agent_metadata : Type := { creditsUsed : option string }.

Record agent_data : Type := {
  output : option Workflow.agent_output;
  metadata : option agent_metadata
}.

Record agent_json : Type := { a_data : option agent_data }.

Record agent_response : Type := {
  a_status_code : nat;
  a_text : string;
  a_json : result agent_json
}.

(** the two dicts [discover_liens] returns itself, and the one it passes
    on from [_combine_results] *)
Inductive discovery : Type :=
| DiscoveryFailed (error : string) (details : string)
| Discovered (c : Workflow.combined).

(** [sep.join(l)] *)
Fixpoint join (sep : string) (l : list string) : string :=
  match l with
  | [] => EmptyString
  | [x] => x
  | x :: l' => (x ++ sep ++ join sep l')%string
  end.

Definition doc_types (include_mortgages include_liens include_judgments : bool)
    : list string :=
  (if include_mortgages then ["MTG (Mortgage)"] else [])
  ++ (if include_liens then ["LIEN (Lien)"] else [])
  ++ (if include_judgments then ["JUDG (Judgment)"] else []).

Definition bcpao_base_url : string := "https://www.bcpao.us/api/v1/search".
Definition firecrawl_base_url : string := "https://api.firecrawl.dev/v2".

Definition failed_search (error : string) : Workflow.acclaimweb_result :=
  {| Workflow.success := false; Workflow.error := Some error;
     Workflow.agent_result := None; Workflow.credits_used := None |}.

Section Discover.
(** [requests.get(url, params={"accountNumber": parcel_id}, timeout=10)] *)
Variable requests_get : string -> string -> result bcpao_response.
(** [requests.post(url, headers=..., json=..., timeout=120)] *)
Variable requests_post : string -> agent_request -> result agent_response.
(** [datetime.utcnow().isoformat()] *)
Variable utcnow : string.

(** [IntegratedLienDiscovery._get_owner_from_bcpao] *)
Definition _get_owner_from_bcpao (parcel_id : string) : result owner_lookup :=
  try_except
    (response <- requests_get bcpao_base_url parcel_id ;;
     if negb (b_status_code response =? 200) then
       Ret (OwnerFailed ("BCPAO API returned status "
                         ++ str_of_nat (b_status_code response)))
     else
       data <- b_json response ;;
       let owner_name := strip (get (ownerName data) "") in
       let address := strip (get (propertyAddress data) "") in
       if String.eqb owner_name "" then
         Ret (OwnerFailed "Owner name not found in BCPAO data")
       else
         Ret (OwnerFound
                {| Workflow.parcel_id := parcel_id;
                   Workflow.owner_name := owner_name;
                   Workflow.address := address;
                   Workflow.assessed_value :=
                     Some (get (assessedValue data) 0%Q);
                   Workflow.just_value := Some (get (justValue data) 0%Q);
                   Workflow.living_area := Some (get (livingArea data) 0%Q);
                   Workflow.year_built := Some (get (yearBuilt data) 0%Q) |}
                data))
    is_RequestException
    (fun e => Ret (OwnerFailed ("BCPAO API request failed: "
                                ++ str_of_exn e))).

(** the request of [_search_acclaimweb] *)
Definition agent_request_for (owner_name address : string)
    (include_mortgages include_liens include_judgments : bool)
    : agent_request :=
  {| prompt :=
       {| prompt_address := address;
          prompt_owner_name := owner_name;
          prompt_doc_types :=
            join ", " (doc_types include_mortgages include_liens
                         include_judgments) |};
     max_steps := 20;
     output_format := "json" |}.

(** [result.get('data', {}).get('output', {})] *)
Definition agent_output_of (result : agent_json) : Workflow.agent_output :=
  match a_data result with
  | Some d => get (output d) {| Workflow.documents := None |}
  | None => {| Workflow.documents := None |}
  end.

(** [result.get('data', {}).get('metadata', {}).get('creditsUsed',
    'unknown')] *)
Definition credits_of (result : agent_json) : string :=
  match a_data result with
  | Some d =>
      match metadata d with
      | Some m => get (creditsUsed m) "unknown"
      | None => "unknown"
      end
  | None => "unknown"
  end.

(** [IntegratedLienDiscovery._search_acclaimweb]; of the dicts it returns
    the model keeps the keys that [_combine_results] reads *)
Definition _search_acclaimweb (owner_name address : string)
    (include_mortgages include_liens include_judgments : bool)
    : result Workflow.acclaimweb_result :=
  try_except
    (response <- requests_post (firecrawl_base_url ++ "/agent")
                   (agent_request_for owner_name address include_mortgages
                      include_liens include_judgments) ;;
     if negb (a_status_code response =? 200) then
       Ret (failed_search ("Firecrawl Agent returned status "
                           ++ str_of_nat (a_status_code response)))
     else
       result <- a_json response ;;
       Ret {| Workflow.success := true; Workflow.error := None;
              Workflow.agent_result := Some (agent_output_of result);
              Workflow.credits_used := Some (credits_of result) |})
    is_RequestException
    (fun e => Ret (failed_search ("Firecrawl Agent request failed: "
                                  ++ str_of_exn e))).

(** [IntegratedLienDiscovery.discover_liens] *)
Definition discover_liens (parcel_id : string)
    (include_mortgages include_liens include_judgments : bool)
    : result discovery :=
  bcpao_data <- _get_owner_from_bcpao parcel_id ;;
  match bcpao_data with
  | OwnerFailed error =>
      Ret (DiscoveryFailed "Failed to get property owner from BCPAO" error)
  | OwnerFound d _ =>
      acclaimweb_result <-
        _search_acclaimweb (Workflow.owner_name d) (Workflow.address d)
          include_mortgages include_liens include_judgments ;;
      Ret (Discovered (Workflow._combine_results utcnow d acclaimweb_result))
  end.
End Discover.

End Discovery.

(** a BCPAO answer for the parcel of the examples *)
Definition bcpao_answer : Discovery.bcpao_json :=
  {| Discovery.ownerName := Some "  JOHN DOE ";
     Discovery.propertyAddress := Some "4127 ARLINGTON AVE ";
     Discovery.assessedValue := Some 300000%Q;
     Discovery.justValue := None;
     Discovery.livingArea := None;
     Discovery.yearBuilt := None |}.

Definition bcpao_ok (url parcel_id : string)
    : result Discovery.bcpao_response :=
  Ret {| Discovery.b_status_code := 200;
         Discovery.b_json := Ret bcpao_answer |}.

Definition bcpao_not_found (url parcel_id : string)
    : result Discovery.bcpao_response :=
  Ret {| Discovery.b_status_code := 404;
         Discovery.b_json := Raise (ValueError "Expecting value") |}.

(** a BCPAO service whose answer is no JSON, decoded by a library that
    raises a plain [ValueError] *)
Definition bcpao_garbled (url parcel_id : string)
    : result Discovery.bcpao_response :=
  Ret {| Discovery.b_status_code := 200;
         Discovery.b_json := Raise (ValueError "Expecting value") |}.

Definition agent_answer (docs : list Workflow.document)
    : Discovery.agent_json :=
  {| Discovery.a_data :=
       Some {| Discovery.output :=
                 Some {| Workflow.documents := Some docs |};
               Discovery.metadata := None |} |}.

Definition agent_ok (docs : list Workflow.document) (url : string)
    (req : Discovery.agent_request) : result Discovery.agent_response :=
  Ret {| Discovery.a_status_code := 200; Discovery.a_text := "";
         Discovery.a_json := Ret (agent_answer docs) |}.

Definition agent_down (url : string) (req : Discovery.agent_request)
    : result Discovery.agent_response :=
  Raise (RequestException "Connection refused").

(** * Amounts as binary64 values

    Python holds an amount with cents as a [float], an IEEE 754 binary64
    value, and rounds the result of every operation on floats to the
    nearest such value.  The modules of this part repeat
    [analyze_lien_priority] and [_combine_results] with the amounts as
    binary64 values, for the statements that speak about the value of a
    total or of the equity. *)

Module Binary64.

Definition prec : Z := 53.
Definition emax : Z := 1024.

(** a Python [float]: a zero, an infinity, nan, or the finite value
    [(-1)^s * m * 2^e] *)
Definition float : Type := spec_float.

(** [0.0]; the [int] [0] takes this value where it meets a float *)
Definition zero : float := S754_zero false.

(** [x + y], [x - y], [x * y], [x / y] on floats: the exact result rounded
    to the nearest binary64 value, ties to the even mantissa *)
Definition add : float -> float -> float := SFadd prec emax.
Definition sub : float -> float -> float := SFsub prec emax.
Definition mul : float -> float -> float := SFmul prec emax.
Definition div : float -> float -> float := SFdiv prec emax.

(** [x < y]; false when either side is nan *)
Definition ltb : float -> float -> bool := SFltb.

(** [float(z)]: the conversion an [int] undergoes where it meets a float.
    The model holds every number as the float it converts to, the same
    value for an [int] of magnitude up to 2^53. *)
Definition of_Z (z : Z) : float := binary_normalize prec emax z 0 false.

(** the literal [0.70]: the binary64 value nearest to 7/10 *)
Definition seven_tenths : float := S754_finite false 6305039478318694 (-53).

(** the float that a decimal text with two places denotes, as the JSON
    decoder and [float] read it: [of_cents 880933] for [8809.33] *)
Definition of_cents (n : Z) : float := div (of_Z n) (of_Z 100).

(** [max(a, b)]: [b] when [b > a], else [a] *)
Definition max (a b : float) : float := if ltb a b then b else a.

(** [sum(xs)]: the additions of floats, left to right from the [int] [0],
    as CPython carries them out up to version 3.11 *)
Definition sum (xs : list float) : float := fold_left add xs zero.

(** the rational number that a finite float is, in lowest terms *)
Definition exact (x : float) : option Q :=
  match x with
  | S754_zero _ => Some 0%Q
  | S754_finite s m e =>
      let n := if s then Zneg m else Zpos m in
      Some (Qred (match e with
                  | Z0 => n # 1
                  | Zpos k => (n * 2 ^ Zpos k) # 1
                  | Zneg k => n # (2 ^ k)
                  end))%Q
  | S754_infinity _ | S754_nan => None
  end.

End Binary64.

(** ** [analyze_lien_priority] on binary64 amounts *)

Module Firecrawl64.

(** the lien dict of [Firecrawl.lien], its amount a float *)
Record lien : Type := mk_lien {
  type : string;
  instrument_number : string;
  book : string;
  page : string;
  grantor : string;
  grantee : string;
  recorded_date : string;
  amount : Binary64.float;
  is_hoa : option bool;
  warning : option string;
  priority_position : option nat
}.

Inductive warning_dict : Type :=
| HOA_FORECLOSURE_RISK (message : string) (l : lien)
| MULTIPLE_MORTGAGES (message : string) (count : nat).

Record summary : Type := {
  total : Binary64.float;
  first_mortgage : Binary64.float;
  other_liens : Binary64.float
}.

Record analysis : Type := mk_analysis {
  total_liens : nat;
  total_encumbrance : Binary64.float;
  first_position : option lien;
  hoa_liens : list lien;
  mortgages : list lien;
  judgments : list lien;
  warnings : list warning_dict;
  encumbrance_summary : option summary
}.

(** [lien['priority_position'] = n] *)
Definition set_priority_position (l : lien) (n : nat) : lien :=
  {| type := type l; instrument_number := instrument_number l;
     book := book l; page := page l; grantor := grantor l;
     grantee := grantee l; recorded_date := recorded_date l;
     amount := amount l; is_hoa := is_hoa l; warning := warning l;
     priority_position := Some n |}.

Definition set_first_position (a : analysis) (l : lien) : analysis :=
  mk_analysis (total_liens a) (total_encumbrance a) (Some l) (hoa_liens a)
    (mortgages a) (judgments a) (warnings a) (encumbrance_summary a).

Definition append_mortgage (a : analysis) (l : lien) : analysis :=
  mk_analysis (total_liens a) (total_encumbrance a) (first_position a)
    (hoa_liens a) (mortgages a ++ [l]) (judgments a) (warnings a)
    (encumbrance_summary a).

Definition append_hoa_lien (a : analysis) (l : lien) : analysis :=
  mk_analysis (total_liens a) (total_encumbrance a) (first_position a)
    (hoa_liens a ++ [l]) (mortgages a) (judgments a) (warnings a)
    (encumbrance_summary a).

Definition append_judgment (a : analysis) (l : lien) : analysis :=
  mk_analysis (total_liens a) (total_encumbrance a) (first_position a)
    (hoa_liens a) (mortgages a) (judgments a ++ [l]) (warnings a)
    (encumbrance_summary a).

Definition append_warning (a : analysis) (w : warning_dict) : analysis :=
  mk_analysis (total_liens a) (total_encumbrance a) (first_position a)
    (hoa_liens a) (mortgages a) (judgments a) (warnings a ++ [w])
    (encumbrance_summary a).

Definition set_encumbrance_summary (a : analysis) (s : summary) : analysis :=
  mk_analysis (total_liens a) (total_encumbrance a) (first_position a)
    (hoa_liens a) (mortgages a) (judgments a) (warnings a) (Some s).

Definition hoa_warning (l : lien) : warning_dict :=
  HOA_FORECLOSURE_RISK
    ("HOA lien detected: " ++ grantor l ++ " - may wipe senior mortgages") l.

Definition multiple_mortgages_warning (n : nat) : warning_dict :=
  MULTIPLE_MORTGAGES
    (str_of_nat n ++ " mortgages detected - complex title") n.

(** the dicts of the list as the loop has left them so far, and the
    analysis under construction *)
Definition loop_state : Type := list lien * analysis.

(** one iteration of [for idx, lien in enumerate(liens)] *)
Definition categorize (st : loop_state) (item : nat * lien) : loop_state :=
  let (seen, a) := st in
  let (idx, l0) := item in
  let l := set_priority_position l0 (idx + 1) in
  let a' :=
    if String.eqb (type l) "MTG" then
      let a1 := append_mortgage a l in
      if (idx =? 0)%nat then set_first_position a1 l else a1
    else if String.eqb (type l) "LIEN" then
      if truthy (is_hoa l) then
        append_warning (append_hoa_lien a l) (hoa_warning l)
      else a
    else if String.eqb (type l) "JUDG" then append_judgment a l
    else a in
  (seen ++ [l], a').

Definition initial_analysis (liens : list lien) : analysis :=
  {| total_liens := List.length liens;
     total_encumbrance := Binary64.sum (map amount liens);
     first_position := None;
     hoa_liens := [];
     mortgages := [];
     judgments := [];
     warnings := [];
     encumbrance_summary := None |}.

(** [analysis['first_position']['amount'] if analysis['first_position']
    else 0] *)
Definition first_position_amount (a : analysis) : Binary64.float :=
  match first_position a with
  | Some l => amount l
  | None => Binary64.zero
  end.

(** [AcclaimWebClient.analyze_lien_priority]: the list as the call leaves
    it, and the returned analysis *)
Definition analyze_lien_priority_state (liens : list lien) : loop_state :=
  let (seen, a) :=
    fold_left categorize (Firecrawl.enumerate liens)
      ([], initial_analysis liens) in
  let a :=
    if 2 <? List.length (mortgages a) then
      append_warning a (multiple_mortgages_warning (List.length (mortgages a)))
    else a in
  let a :=
    if Binary64.ltb Binary64.zero (total_encumbrance a) then
      set_encumbrance_summary a
        {| total := total_encumbrance a;
           first_mortgage := first_position_amount a;
           other_liens :=
             Binary64.sub (total_encumbrance a) (first_position_amount a) |}
    else a in
  (seen, a).

Definition analyze_lien_priority (liens : list lien) : analysis :=
  snd (analyze_lien_priority_state liens).

End Firecrawl64.

(** ** [_combine_results] on binary64 amounts *)

Module Workflow64.

(** the records of [Workflow], their numbers floats *)
Record document : Type := {
  document_type : string;
  instrument_number : option string;
  grantor : option string;
  recorded_date : option string;
  amount : option Binary64.float;
  hoa_lien : option bool
}.

Record agent_output : Type := {
  documents : option (list document)
}.

Record acclaimweb_result : Type := {
  success : bool;
  error : option string;
  agent_result : option agent_output;
  credits_used : option string
}.

Record bcpao_data : Type := {
  parcel_id : string;
  owner_name : string;
  address : string;
  assessed_value : option Binary64.float;
  just_value : option Binary64.float;
  living_area : option Binary64.float;
  year_built : option Binary64.float
}.

Inductive warning_dict : Type :=
| HOA_FORECLOSURE_RISK (severity message : string) (hoa_liens : list document)
| COMPLEX_TITLE (severity message : string)
| INSUFFICIENT_EQUITY (severity message : string) (equity : Binary64.float).

Record property : Type := {
  p_parcel_id : string;
  p_address : string;
  p_owner_name : string;
  p_assessed_value : Binary64.float;
  p_just_value : Binary64.float;
  p_living_area : Binary64.float;
  p_year_built : Binary64.float
}.

Record lien_analysis : Type := {
  total_liens : nat;
  total_encumbrance : Binary64.float;
  mortgages : nat;
  other_liens : nat;
  judgments : nat;
  hoa_liens : nat;
  first_position : option document
}.

Record investment_analysis : Type := {
  arv : Binary64.float;
  max_bid_equity_70pct : Binary64.float;
  recommendation : string;
  reason : string;
  warnings : list warning_dict
}.

Record report : Type := {
  timestamp : string;
  r_property : property;
  r_lien_analysis : lien_analysis;
  liens : list document;
  r_investment_analysis : investment_analysis;
  r_metadata : Workflow.metadata
}.

Inductive combined : Type :=
| CombineFailed (error : string) (bcpao : bcpao_data)
    (acclaimweb_error : option string)
| Combined (r : report).

(** [[lien for lien in liens if lien['document_type'] == t]] *)
Definition of_type (t : string) (docs : list document) : list document :=
  filter (fun lien => String.eqb (document_type lien) t) docs.

(** [acclaimweb_result.get('agent_result', {}).get('documents', [])] *)
Definition documents_of (acclaimweb : acclaimweb_result) : list document :=
  get (documents (get (agent_result acclaimweb) {| documents := None |})) [].

(** the block "Build warnings" *)
Definition build_warnings (hoa_liens mortgages : list document)
    (max_bid_equity : Binary64.float) : list warning_dict :=
  Workflow.when (Workflow.nonempty hoa_liens)
    (HOA_FORECLOSURE_RISK "CRITICAL"
       (str_of_nat (List.length hoa_liens) ++
        " HOA lien(s) detected - may extinguish senior mortgages in Florida!")
       hoa_liens)
  ++ Workflow.when (2 <? List.length mortgages)
       (COMPLEX_TITLE "MEDIUM"
          (str_of_nat (List.length mortgages) ++
           " mortgages detected - complex title structure"))
  ++ Workflow.when (Binary64.ltb max_bid_equity (Binary64.of_Z 10000))
       (INSUFFICIENT_EQUITY "HIGH" "Insufficient equity after liens: $"
          max_bid_equity).

(** the block "Investment recommendation": [(recommendation, reason)] *)
Definition recommend (hoa_liens mortgages : list document)
    (max_bid_equity : Binary64.float) : string * string :=
  if Workflow.nonempty hoa_liens then
    ("SKIP", "HOA foreclosure risk - may wipe senior mortgages")
  else if Binary64.ltb max_bid_equity (Binary64.of_Z 10000) then
    ("SKIP", "Insufficient equity after liens")
  else if 2 <? List.length mortgages then
    ("REVIEW", "Complex title - verify lien priority with attorney")
  else
    ("BID", "Acceptable lien structure and equity position").

Section Combine.
(** [datetime.utcnow().isoformat()] *)
Variable utcnow : string.

(** [IntegratedLienDiscovery._combine_results] *)
Definition _combine_results (bcpao : bcpao_data)
    (acclaimweb : acclaimweb_result) : combined :=
  if negb (success acclaimweb) then
    CombineFailed "AcclaimWeb search failed" bcpao (error acclaimweb)
  else
    let liens := documents_of acclaimweb in
    let total_liens := List.length liens in
    let hoa_liens := filter (fun lien => truthy (hoa_lien lien)) liens in
    let total_encumbrance :=
      Binary64.sum (map (fun lien => get (amount lien) Binary64.zero) liens) in
    let mortgages := of_type "MTG" liens in
    let other_liens := of_type "LIEN" liens in
    let judgments := of_type "JUDG" liens in
    let first_position := Workflow.first_or_none mortgages in
    let assessed_value := get (assessed_value bcpao) Binary64.zero in
    let just_value := get (just_value bcpao) Binary64.zero in
    let arv := Binary64.max assessed_value just_value in
    let max_bid_equity :=
      Binary64.sub
        (Binary64.sub (Binary64.mul arv Binary64.seven_tenths)
           total_encumbrance)
        (Binary64.of_Z 10000) in
    let warnings := build_warnings hoa_liens mortgages max_bid_equity in
    let (recommendation, reason) :=
      recommend hoa_liens mortgages max_bid_equity in
    Combined
      {| timestamp := utcnow;
         r_property :=
           {| p_parcel_id := parcel_id bcpao;
              p_address := address bcpao;
              p_owner_name := owner_name bcpao;
              p_assessed_value := assessed_value;
              p_just_value := just_value;
              p_living_area := get (living_area bcpao) Binary64.zero;
              p_year_built := get (year_built bcpao) Binary64.zero |};
         r_lien_analysis :=
           {| total_liens := total_liens;
              total_encumbrance := total_encumbrance;
              mortgages := List.length mortgages;
              other_liens := List.length other_liens;
              judgments := List.length judgments;
              hoa_liens := List.length hoa_liens;
              first_position := first_position |};
         liens := liens;
         r_investment_analysis :=
           {| arv := arv;
              max_bid_equity_70pct := max_bid_equity;
              recommendation := recommendation;
              reason := reason;
              warnings := warnings |};
         r_metadata :=
           {| Workflow.bcpao_source := "Direct API (FREE)";
              Workflow.acclaimweb_source := "Firecrawl Agent";
              Workflow.m_credits_used :=
                get (credits_used acclaimweb) "unknown" |}
      |}.
End Combine.

End Workflow64.

(** ** Notions used in the statements on binary64 amounts *)

(** the equity formula with each operation rounded as the code rounds it *)
Definition equity_estimate_binary64 (arv total_encumbrance : Binary64.float)
    : Binary64.float :=
  Binary64.sub
    (Binary64.sub (Binary64.mul arv Binary64.seven_tenths) total_encumbrance)
    (Binary64.of_Z 10000).

(** the decision table of the specification, its equity test the
    comparison of floats *)
Definition decision_table_binary64 (priority_risk_count : nat)
    (equity : Binary64.float) (mortgage_count : nat) : Spec.Recommendation :=
  if 0 <? priority_risk_count then Spec.Skip
  else if Binary64.ltb equity (Binary64.of_Z 10000) then Spec.Skip
  else if 2 <? mortgage_count then Spec.Review
  else Spec.Bid.

(** the sum of a list of integers *)
Definition Zsum (ns : list Z) : Z := fold_right Z.add 0%Z ns.

(** amounts that are whole and not negative: the floats of [ns] *)
Definition whole_amounts (amounts : list Binary64.float) (ns : list Z)
    : Prop :=
  amounts = map Binary64.of_Z ns /\ Forall (fun n => (0 <= n)%Z) ns.

(** the binary64 value of a positive integer of at most 53 bits *)
Definition canon (v : positive) : Binary64.float :=
  S754_finite false
    (Pos.shiftl v (Z.to_N (53 - Zpos (digits2_pos v))))
    (Zpos (digits2_pos v) - 53).

(** the amount of the first record when it is a mortgage, else 0 *)
Definition leading_mortgage_amount64 (liens : list Firecrawl64.lien)
    : Binary64.float :=
  match liens with
  | l :: _ =>
      if String.eqb (Firecrawl64.type l) "MTG" then Firecrawl64.amount l
      else Binary64.zero
  | [] => Binary64.zero
  end.

Definition amount_or_zero64 (d : Workflow64.document) : Binary64.float :=
  get (Workflow64.amount d) Binary64.zero.

(** example records with binary64 amounts *)
Definition a_lien64 (t : string) (amt : Binary64.float)
    : Firecrawl64.lien :=
  {| Firecrawl64.type := t; Firecrawl64.instrument_number := "2023-00001";
     Firecrawl64.book := "1"; Firecrawl64.page := "1";
     Firecrawl64.grantor := "FIRST BANK"; Firecrawl64.grantee := "JOHN DOE";
     Firecrawl64.recorded_date := "01/15/2023"; Firecrawl64.amount := amt;
     Firecrawl64.is_hoa := Some false; Firecrawl64.warning := None;
     Firecrawl64.priority_position := None |}.

Definition a_document64 (t : string) (amt : Binary64.float)
    : Workflow64.document :=
  {| Workflow64.document_type := t; Workflow64.instrument_number := None;
     Workflow64.grantor := None; Workflow64.recorded_date := None;
     Workflow64.amount := Some amt; Workflow64.hoa_lien := Some false |}.

Definition a_valuation64 (assessed just : option Binary64.float)
    : Workflow64.bcpao_data :=
  {| Workflow64.parcel_id := "2517790"; Workflow64.owner_name := "JOHN DOE";
     Workflow64.address := "4127 ARLINGTON AVE";
     Workflow64.assessed_value := assessed; Workflow64.just_value := just;
     Workflow64.living_area := None; Workflow64.year_built := None |}.

Definition agent_found64 (docs : list Workflow64.document)
    : Workflow64.acclaimweb_result :=
  {| Workflow64.success := true; Workflow64.error := None;
     Workflow64.agent_result := Some {| Workflow64.documents := Some docs |};
     Workflow64.credits_used := None |}.


Definition cents_liens : list Firecrawl64.lien :=
  [a_lien64 "MTG" (Binary64.of_cents 15236440);
   a_lien64 "LIEN" (Binary64.of_cents 27306450);
   a_lien64 "JUDG" (Binary64.of_cents 5703593)].

(** whole amounts *)
Definition whole_liens : list Firecrawl64.lien :=
  [a_lien64 "MTG" (Binary64.of_Z 250000);
   a_lien64 "LIEN" (Binary64.of_Z 15000);
   a_lien64 "JUDG" (Binary64.of_Z 7500)].


(** * Properties *)

(** ** The categorising loop in closed form *)

Section Loop.

Lemma is_type_set_priority_position t l n :
  is_type t (set_priority_position l n) = is_type t l.
Proof. reflexivity. Qed.

Lemma type_mtg_not_lien l :
  is_type "MTG" l = true -> is_type "LIEN" l = false.
Proof.
  unfold is_type. intros H. apply String.eqb_eq in H. now rewrite H.
Qed.

Lemma type_mtg_not_judg l :
  is_type "MTG" l = true -> is_type "JUDG" l = false.
Proof.
  unfold is_type. intros H. apply String.eqb_eq in H. now rewrite H.
Qed.

Lemma type_lien_not_judg l :
  is_type "LIEN" l = true -> is_type "JUDG" l = false.
Proof.
  unfold is_type. intros H. apply String.eqb_eq in H. now rewrite H.
Qed.

Lemma rank_from_cons n l ls :
  rank_from n (l :: ls) = set_priority_position l (n + 1) :: rank_from (S n) ls.
Proof. reflexivity. Qed.

Lemma loop_from_cons n l ls st :
  loop_from n (l :: ls) st = loop_from (S n) ls (categorize st (n, l)).
Proof. reflexivity. Qed.

Lemma loop_from_effect liens :
  forall n st, loop_effect n liens st (loop_from n liens st).
Proof.
  induction liens as [|l ls IH]; intros n [seen a].
  - constructor; cbn; now rewrite ?app_nil_r.
  - rewrite loop_from_cons.
    destruct (IH (S n) (categorize (seen, a) (n, l)))
      as [Hs Hm Hh Hj Hw Hf Htl Hte Hsum].
    set (r := set_priority_position l (n + 1)) in *.
    assert (Hfirst :
      first_position (snd (loop_from (S n) ls (categorize (seen, a) (n, l))))
      = first_position (snd (categorize (seen, a) (n, l)))).
    { rewrite Hf. destruct (rank_from (S n) ls); reflexivity. }
    clear Hf.
    constructor; rewrite ?rank_from_cons; fold r;
      try rewrite Hs; try rewrite Hm; try rewrite Hh; try rewrite Hj;
      try rewrite Hw; try rewrite Hfirst; try rewrite Htl; try rewrite Hte;
      try rewrite Hsum;
      cbn [categorize fst snd filter map]; fold r;
      change (String.eqb (type r) "MTG") with (is_type "MTG" r);
      change (String.eqb (type r) "LIEN") with (is_type "LIEN" r);
      change (String.eqb (type r) "JUDG") with (is_type "JUDG" r);
      unfold hoa_risk;
      (destruct (is_type "MTG" r) eqn:Em;
       [ rewrite ?(type_mtg_not_lien r Em), ?(type_mtg_not_judg r Em)
       | destruct (is_type "LIEN" r) eqn:El;
         [ rewrite ?(type_lien_not_judg r El); destruct (truthy (is_hoa r))
         | destruct (is_type "JUDG" r) ] ]);
      destruct (n =? 0); cbn; rewrite <- ?app_assoc; reflexivity.
Qed.

End Loop.

(** ** [analyze_lien_priority] in closed form *)

Section Analysis.

Variable liens : list lien.

Let ranked := rank_from 0 liens.
Let a := analyze_lien_priority liens.

Lemma analyze_state_loop :
  exists st,
    st = loop_from 0 liens ([], initial_analysis liens)
    /\ liens_after_analysis liens = fst st
    /\ total_liens a = total_liens (snd st)
    /\ total_encumbrance a = total_encumbrance (snd st)
    /\ first_position a = first_position (snd st)
    /\ hoa_liens a = hoa_liens (snd st)
    /\ mortgages a = mortgages (snd st)
    /\ judgments a = judgments (snd st)
    /\ warnings a
       = warnings (snd st)
         ++ (if 2 <? List.length (mortgages (snd st))
             then [multiple_mortgages_warning (List.length (mortgages (snd st)))]
             else []).
Proof.
  exists (loop_from 0 liens ([], initial_analysis liens)).
  subst a. unfold analyze_lien_priority, liens_after_analysis,
    analyze_lien_priority_state, loop_from, enumerate.
  destruct (fold_left categorize _ _) as [seen a0]. cbn [fst snd].
  destruct (2 <? List.length (mortgages a0));
    cbn [append_warning mortgages total_encumbrance];
    match goal with |- context [Qltb ?x ?y] => destruct (Qltb x y) end;
    cbn; rewrite ?app_nil_r; repeat split; reflexivity.
Qed.

Lemma liens_after_analysis_ranked : liens_after_analysis liens = ranked.
Proof.
  destruct analyze_state_loop as (st & -> & H & _).
  rewrite H. now rewrite (eff_seen _ _ _ _ (loop_from_effect liens 0 _)).
Qed.

Lemma mortgages_closed : mortgages a = filter (is_type "MTG") ranked.
Proof.
  destruct analyze_state_loop as (st & -> & _ & _ & _ & _ & _ & H & _).
  rewrite H. now rewrite (eff_mortgages _ _ _ _ (loop_from_effect liens 0 _)).
Qed.

Lemma hoa_liens_closed : hoa_liens a = filter hoa_risk ranked.
Proof.
  destruct analyze_state_loop as (st & -> & _ & _ & _ & _ & H & _).
  rewrite H. now rewrite (eff_hoa_liens _ _ _ _ (loop_from_effect liens 0 _)).
Qed.

Lemma judgments_closed : judgments a = filter (is_type "JUDG") ranked.
Proof.
  destruct analyze_state_loop as (st & -> & _ & _ & _ & _ & _ & _ & H & _).
  rewrite H. now rewrite (eff_judgments _ _ _ _ (loop_from_effect liens 0 _)).
Qed.

Lemma warnings_closed :
  warnings a
  = map hoa_warning (filter hoa_risk ranked)
    ++ (if 2 <? List.length (filter (is_type "MTG") ranked)
        then [multiple_mortgages_warning
                (List.length (filter (is_type "MTG") ranked))]
        else []).
Proof.
  destruct analyze_state_loop as (st & -> & _ & _ & _ & _ & _ & _ & _ & H).
  rewrite H.
  rewrite (eff_warnings _ _ _ _ (loop_from_effect liens 0 _)).
  now rewrite (eff_mortgages _ _ _ _ (loop_from_effect liens 0 _)).
Qed.

Lemma first_position_closed :
  first_position a
  = match ranked with
    | l :: _ => if is_type "MTG" l then Some l else None
    | [] => None
    end.
Proof.
  destruct analyze_state_loop as (st & -> & _ & _ & _ & H & _).
  rewrite H.
  now rewrite (eff_first_position _ _ _ _ (loop_from_effect liens 0 _)).
Qed.

Lemma total_liens_closed : total_liens a = List.length liens.
Proof.
  destruct analyze_state_loop as (st & -> & _ & H & _).
  rewrite H. now rewrite (eff_total_liens _ _ _ _ (loop_from_effect liens 0 _)).
Qed.

Lemma total_encumbrance_closed :
  total_encumbrance a = sum (map amount liens).
Proof.
  destruct analyze_state_loop as (st & -> & _ & _ & H & _).
  rewrite H.
  now rewrite (eff_total_encumbrance _ _ _ _ (loop_from_effect liens 0 _)).
Qed.

End Analysis.

(** ** Facts on ranked lists *)

Lemma rank_from_length n liens :
  List.length (rank_from n liens) = List.length liens.
Proof.
  revert n. induction liens as [|l ls IH]; intros n; [reflexivity|].
  rewrite rank_from_cons. cbn. now rewrite IH.
Qed.

Lemma rank_from_positions n liens :
  map priority_position (rank_from n liens)
  = map Some (seq (n + 1) (List.length liens)).
Proof.
  revert n. induction liens as [|l ls IH]; intros n; [reflexivity|].
  rewrite rank_from_cons. cbn [map List.length seq]. now rewrite IH.
Qed.

Lemma rank_from_In n liens r :
  In r (rank_from n liens) ->
  exists l k, In l liens /\ n + 1 <= k <= n + List.length liens
              /\ r = set_priority_position l k.
Proof.
  revert n. induction liens as [|l ls IH]; intros n; [now intros []|].
  rewrite rank_from_cons. intros [<- | H].
  - exists l, (n + 1). cbn. repeat split; auto; lia.
  - destruct (IH _ H) as (l' & k & Hin & Hk & ->).
    exists l', k. cbn. repeat split; auto; lia.
Qed.

(** ** HOA risk and record types *)

Lemma hoa_risk_spec l :
  hoa_risk l = true <-> type l = "LIEN" /\ is_hoa l = Some true.
Proof.
  unfold hoa_risk, is_type, truthy, get.
  rewrite andb_true_iff, String.eqb_eq.
  destruct (is_hoa l) as [[|]|]; intuition congruence.
Qed.

Lemma hoa_warning_inv msg l l' :
  hoa_warning l' = HOA_FORECLOSURE_RISK msg l -> l' = l.
Proof. unfold hoa_warning. now intros [= _ ->]. Qed.

Lemma In_hoa_warning liens msg l :
  In (HOA_FORECLOSURE_RISK msg l) (warnings (analyze_lien_priority liens)) ->
  In l (hoa_liens (analyze_lien_priority liens)).
Proof.
  rewrite warnings_closed, hoa_liens_closed, in_app_iff.
  intros [H | H].
  - apply in_map_iff in H as (l' & Hw & Hin).
    now rewrite <- (hoa_warning_inv _ _ _ Hw).
  - destruct (2 <? _); [destruct H as [H | []]; discriminate H | destruct H].
Qed.

(** C10. In [analyze_lien_priority] a record of type MTG or JUDG never
    enters the [hoa_liens] bucket and never raises an HOA-risk warning,
    whatever its creditor text and its [is_hoa] flag; the bucket and the
    HOA-risk warnings hold records of type LIEN with a true flag only. *)
Theorem hoa_risk_only_from_lien_type :
  (forall (liens : list lien) (l : lien),
      In l (hoa_liens (analyze_lien_priority liens)) ->
      type l = "LIEN" /\ is_hoa l = Some true)
  /\ (forall (liens : list lien) (msg : string) (l : lien),
         In (HOA_FORECLOSURE_RISK msg l)
            (warnings (analyze_lien_priority liens)) ->
         type l = "LIEN" /\ is_hoa l = Some true)
  /\ (forall (liens : list lien) (l : lien),
         type l = "MTG" \/ type l = "JUDG" ->
         ~ In l (hoa_liens (analyze_lien_priority liens))
         /\ forall msg, ~ In (HOA_FORECLOSURE_RISK msg l)
                          (warnings (analyze_lien_priority liens)))
  /\ (hoa_match (grantor flagged_mortgage) = true
      /\ hoa_match (grantor flagged_judgment) = true
      /\ hoa_liens
           (analyze_lien_priority [flagged_mortgage; flagged_judgment]) = []
      /\ warnings
           (analyze_lien_priority [flagged_mortgage; flagged_judgment]) = []).
Proof.
  assert (B : forall liens l,
             In l (hoa_liens (analyze_lien_priority liens)) ->
             type l = "LIEN" /\ is_hoa l = Some true).
  { intros liens l. rewrite hoa_liens_closed, filter_In.
    intros [_ H]. now apply hoa_risk_spec. }
  split; [exact B|]. split; [|split].
  - intros liens msg l H. apply (B liens), (In_hoa_warning _ msg), H.
  - intros liens l Ht. split.
    + intros H. apply B in H as [H _]. rewrite H in Ht.
      destruct Ht; discriminate.
    + intros msg H. apply In_hoa_warning, B in H as [H _]. rewrite H in Ht.
      destruct Ht; discriminate.
  - repeat split; reflexivity.
Qed.

(** ** [_combine_results] on a successful search *)

Section Combined.

Variable utcnow : string.
Variable bcpao : Workflow.bcpao_data.
Variable acclaimweb : Workflow.acclaimweb_result.
Hypothesis found : Workflow.success acclaimweb = true.

Let docs := Workflow.documents_of acclaimweb.
Let flagged := filter (fun d => truthy (Workflow.hoa_lien d)) docs.
Let mtgs := Workflow.of_type "MTG" docs.
Let encumbrance :=
  sum (map (fun d => get (Workflow.amount d) 0%Q) docs).
Let value :=
  max2 (get (Workflow.assessed_value bcpao) 0%Q)
       (get (Workflow.just_value bcpao) 0%Q).
Let equity := (value * (7 # 10) - encumbrance - 10000)%Q.

Lemma combine_results_report :
  exists r,
    Workflow._combine_results utcnow bcpao acclaimweb = Workflow.Combined r
    /\ Workflow.liens r = docs
    /\ Workflow.total_liens (Workflow.r_lien_analysis r) = List.length docs
    /\ Workflow.total_encumbrance (Workflow.r_lien_analysis r) = encumbrance
    /\ Workflow.mortgages (Workflow.r_lien_analysis r) = List.length mtgs
    /\ Workflow.other_liens (Workflow.r_lien_analysis r)
       = List.length (Workflow.of_type "LIEN" docs)
    /\ Workflow.judgments (Workflow.r_lien_analysis r)
       = List.length (Workflow.of_type "JUDG" docs)
    /\ Workflow.hoa_liens (Workflow.r_lien_analysis r) = List.length flagged
    /\ Workflow.first_position (Workflow.r_lien_analysis r)
       = Workflow.first_or_none mtgs
    /\ Workflow.arv (Workflow.r_investment_analysis r) = value
    /\ Workflow.max_bid_equity_70pct (Workflow.r_investment_analysis r)
       = equity
    /\ Workflow.recommendation (Workflow.r_investment_analysis r)
       = fst (Workflow.recommend flagged mtgs equity)
    /\ Workflow.reason (Workflow.r_investment_analysis r)
       = snd (Workflow.recommend flagged mtgs equity)
    /\ Workflow.warnings (Workflow.r_investment_analysis r)
       = Workflow.build_warnings flagged mtgs equity.
Proof.
  unfold Workflow._combine_results. rewrite found. cbn [negb].
  fold docs. fold flagged. fold mtgs. fold encumbrance. fold value.
  fold equity.
  destruct (Workflow.recommend flagged mtgs equity) as [rec rsn].
  eexists. split; [reflexivity|]. cbn. repeat split; reflexivity.
Qed.

End Combined.

(** ** The recommendation *)

Lemma nonempty_length {A} (l : list A) :
  Workflow.nonempty l = (0 <? List.length l).
Proof. now destruct l. Qed.

Lemma recommend_decision_table flagged mtgs equity :
  fst (Workflow.recommend flagged mtgs equity)
  = label (Spec.decision_table (List.length flagged) equity
             (List.length mtgs)).
Proof.
  unfold Workflow.recommend, Spec.decision_table, Spec.equity_floor.
  rewrite nonempty_length.
  destruct (0 <? List.length flagged); [reflexivity|].
  destruct (Qltb equity 10000); [reflexivity|].
  now destruct (2 <? List.length mtgs).
Qed.

(** ** First position *)

Lemma first_or_none_filter {A} (P : A -> bool) (l : list A) (d : A) :
  Workflow.first_or_none (filter P l) = Some d ->
  exists before after,
    l = before ++ d :: after /\ P d = true
    /\ forall x, In x before -> P x = false.
Proof.
  induction l as [|x l IH]; cbn; [discriminate|].
  destruct (P x) eqn:E.
  - intros [= <-]. exists [], l. now repeat split.
  - intros H. destruct (IH H) as (b & a & -> & Hd & Hb).
    exists (x :: b), a. repeat split; auto.
    intros y [<- | Hy]; auto.
Qed.

Lemma first_or_none_defined {A} (P : A -> bool) (l : list A) :
  Workflow.first_or_none (filter P l) <> None
  <-> exists d, In d l /\ P d = true.
Proof.
  split.
  - destruct (Workflow.first_or_none (filter P l)) as [d|] eqn:E;
      [|congruence].
    intros _. destruct (first_or_none_filter P l d E) as (b & a & -> & H & _).
    exists d. split; [apply in_elt | exact H].
  - intros (d & Hin & Hd) E.
    assert (Hf : In d (filter P l)) by now apply filter_In.
    destruct (filter P l); [destruct Hf | discriminate].
Qed.

(** What the two functions take for the first position.
    [_combine_results] defines it exactly when a document of type MTG
    exists, as the first such document of the list.
    [analyze_lien_priority] defines it exactly when the first record of
    the list is of type MTG, as that record. *)
Lemma first_position_characterised :
  forall (utcnow : string) (bcpao : Workflow.bcpao_data)
         (acclaimweb : Workflow.acclaimweb_result),
    Workflow.success acclaimweb = true ->
    (exists r,
        Workflow._combine_results utcnow bcpao acclaimweb
        = Workflow.Combined r
        /\ let fp := Workflow.first_position (Workflow.r_lien_analysis r) in
           (fp <> None
            <-> exists d, In d (Workflow.documents_of acclaimweb)
                          /\ Workflow.document_type d = "MTG")
           /\ forall d, fp = Some d ->
                exists before after,
                  Workflow.documents_of acclaimweb = before ++ d :: after
                  /\ Workflow.document_type d = "MTG"
                  /\ forall x, In x before ->
                               Workflow.document_type x <> "MTG")
    /\ forall (liens : list lien),
         let a := analyze_lien_priority liens in
         (first_position a <> None
          <-> exists l rest, liens = l :: rest /\ type l = "MTG")
         /\ forall fp, first_position a = Some fp ->
              type fp = "MTG" /\ priority_position fp = Some 1
              /\ In fp (mortgages a)
              /\ forall m, In m (mortgages a) ->
                   exists k, priority_position m = Some k /\ 1 <= k.
Proof.
  intros utcnow bcpao acclaimweb Hs. split.
  - destruct (combine_results_report utcnow bcpao acclaimweb Hs)
      as (r & Hr & _ & _ & _ & _ & _ & _ & _ & Hfp & _).
    exists r. split; [exact Hr|]. cbv zeta. rewrite Hfp.
    unfold Workflow.of_type. split.
    + rewrite first_or_none_defined. split.
      * intros (d & Hin & Hd). exists d. split; [exact Hin|].
        now apply String.eqb_eq.
      * intros (d & Hin & Hd). exists d. split; [exact Hin|].
        now apply String.eqb_eq.
    + intros d Hd.
      destruct (first_or_none_filter _ _ _ Hd) as (b & a & Hl & Hm & Hb).
      exists b, a. split; [exact Hl|]. split; [now apply String.eqb_eq|].
      intros x Hx E. apply Hb in Hx. apply String.eqb_eq in E. congruence.
  - intros liens a. subst a. rewrite first_position_closed, mortgages_closed.
    split.
    + destruct liens as [|l rest]; cbn.
      * split; [congruence | intros (l & rest & [=] & _)].
      * change (String.eqb (type l) "MTG") with (is_type "MTG" l).
        destruct (is_type "MTG" l) eqn:E.
        -- split; [|congruence]. intros _. exists l, rest.
           split; [reflexivity | now apply String.eqb_eq].
        -- split; [congruence|]. intros (l' & rest' & [= <- <-] & Ht).
           apply String.eqb_eq in Ht. unfold is_type in E. congruence.
    + intros fp.
      destruct liens as [|l rest]; [discriminate|].
      rewrite rank_from_cons.
      destruct (is_type "MTG" (set_priority_position l (0 + 1))) eqn:E;
        [|discriminate].
      intros [= <-]. split; [now apply String.eqb_eq|].
      split; [reflexivity|]. split.
      * cbn [filter]. rewrite E. now left.
      * intros m Hm. apply filter_In in Hm as [Hm _].
        rewrite <- rank_from_cons in Hm.
        destruct (rank_from_In _ _ _ Hm) as (l' & k & _ & Hk & ->).
        exists k. split; [reflexivity | lia].
Qed.

(** C2. The claim holds of [_combine_results] and fails of
    [analyze_lien_priority]: for two scraped lines, an association lien
    recorded in 2022 and a mortgage recorded in 2023, the analysis files
    the mortgage in its bucket at position 2 and leaves [first_position]
    undefined (the summary reports a first mortgage of 0), while
    [_combine_results] on the same two records takes the mortgage. *)
Theorem first_position_missed_behind_earlier_lien :
  exists (liens : list lien) (h m : lien),
    _parse_liens lien_before_mortgage_markdown = Ret liens
    /\ liens_after_analysis liens = [h; m]
    /\ type h = "LIEN" /\ priority_position h = Some 1
    /\ type m = "MTG" /\ priority_position m = Some 2
    /\ mortgages (analyze_lien_priority liens) = [m]
    /\ first_position (analyze_lien_priority liens) = None
    /\ option_map first_mortgage
         (encumbrance_summary (analyze_lien_priority liens)) = Some 0%Q
    /\ ~ (first_position (analyze_lien_priority liens) <> None
          <-> exists l, In l liens /\ type l = "MTG")
    /\ exists r,
         Workflow._combine_results "2025-01-07T12:00:00"
           (a_valuation None (Some 300000%Q))
           (agent_found [a_document "LIEN" 5000 true;
                         a_document "MTG" 250000 false])
         = Workflow.Combined r
         /\ Workflow.first_position (Workflow.r_lien_analysis r)
            = Some (a_document "MTG" 250000 false).
Proof.
  eexists _, _, _. split; [vm_compute; reflexivity|].
  split; [vm_compute; reflexivity|].
  do 7 (split; [reflexivity|]). split.
  - intros [_ H]. apply H; [|reflexivity].
    eexists. split; [right; left; reflexivity | reflexivity].
  - eexists. split; reflexivity.
Qed.

(** ** Warnings *)

(** C4, as stated, fails: [analyze_lien_priority] raises no warning for a
    flagged record of type MTG, and [_combine_results] raises one HOA
    warning for two flagged documents. *)
Lemma warnings_counterexample :
  map as_spec_warning (warnings (analyze_lien_priority [flagged_mortgage]))
  <> Spec.warnings (fun l => truthy (is_hoa l)) (is_type "MTG")
       (liens_after_analysis [flagged_mortgage])
  /\ exists r,
       Workflow._combine_results "2025-01-07T12:00:00"
         (a_valuation None (Some 200000%Q))
         (agent_found [flagged_document; flagged_document])
       = Workflow.Combined r
       /\ List.length
            (filter (fun x => truthy (Workflow.hoa_lien x))
               (Workflow.liens r)) = 2
       /\ hoa_warning_count
            (Workflow.warnings (Workflow.r_investment_analysis r)) = 1.
Proof.
  split.
  - vm_compute. discriminate.
  - eexists. split; [reflexivity|]. split; reflexivity.
Qed.

(** C4, amended. [analyze_lien_priority] raises one HOA_FORECLOSURE_RISK
    warning, carrying the record, for each record of type LIEN whose
    [is_hoa] flag is true, in list order, then one MULTIPLE_MORTGAGES
    warning carrying the mortgage count when there are more than two
    mortgages; these dicts have no severity.  [_combine_results] raises,
    in this order, one HOA_FORECLOSURE_RISK warning of severity CRITICAL
    carrying all flagged documents when there is at least one, one
    COMPLEX_TITLE warning of severity MEDIUM with more than two mortgages,
    and one INSUFFICIENT_EQUITY warning of severity HIGH when the equity
    is below 10000. *)
Theorem warnings_amended :
  forall (utcnow : string) (bcpao : Workflow.bcpao_data)
         (acclaimweb : Workflow.acclaimweb_result),
    Workflow.success acclaimweb = true ->
    (exists r,
        Workflow._combine_results utcnow bcpao acclaimweb
        = Workflow.Combined r
        /\ let la := Workflow.r_lien_analysis r in
           let ia := Workflow.r_investment_analysis r in
           let flagged :=
             filter (fun d => truthy (Workflow.hoa_lien d))
               (Workflow.documents_of acclaimweb) in
           Workflow.warnings ia
           = Workflow.when (0 <? Workflow.hoa_liens la)
               (Workflow.HOA_FORECLOSURE_RISK
                  (severity_label Spec.Critical)
                  (str_of_nat (Workflow.hoa_liens la) ++
                   " HOA lien(s) detected - may extinguish senior mortgages in Florida!")
                  flagged)
             ++ Workflow.when (2 <? Workflow.mortgages la)
                  (Workflow.COMPLEX_TITLE (severity_label Spec.Medium)
                     (str_of_nat (Workflow.mortgages la) ++
                      " mortgages detected - complex title structure"))
             ++ Workflow.when (Qltb (Workflow.max_bid_equity_70pct ia) 10000)
                  (Workflow.INSUFFICIENT_EQUITY (severity_label Spec.High)
                     "Insufficient equity after liens: $"
                     (Workflow.max_bid_equity_70pct ia)))
    /\ forall (liens : list lien),
         let a := analyze_lien_priority liens in
         let ranked := liens_after_analysis liens in
         warnings a
         = map hoa_warning (filter hoa_risk ranked)
           ++ (if 2 <? List.length (mortgages a)
               then [multiple_mortgages_warning (List.length (mortgages a))]
               else [])
         /\ map as_spec_warning (warnings a)
            = Spec.warnings hoa_risk (is_type "MTG") ranked.
Proof.
  intros utcnow bcpao acclaimweb Hs. split.
  - destruct (combine_results_report utcnow bcpao acclaimweb Hs)
      as (r & Hr & _ & _ & _ & Hm & _ & _ & Hh & _ & _ & Heq & _ & _ & Hw).
    exists r. split; [exact Hr|]. cbv zeta.
    rewrite Hw, Hm, Hh, Heq. unfold Workflow.build_warnings.
    now rewrite nonempty_length.
  - intros liens a ranked. subst a ranked.
    rewrite warnings_closed, mortgages_closed, liens_after_analysis_ranked.
    split; [reflexivity|].
    unfold Spec.warnings. rewrite map_app, map_map.
    f_equal. now destruct (2 <? _).
Qed.

Lemma warnings_amended_witness :
  warnings
    (analyze_lien_priority
       [a_lien "MTG" "BANK A" "01/01/2023" 200000 (Some false);
        a_lien "MTG" "BANK B" "02/01/2023" 50000 (Some false);
        a_lien "MTG" "BANK C" "03/01/2023" 25000 (Some false)])
  = [multiple_mortgages_warning 3].
Proof.
  rewrite (proj1 (proj2 (warnings_amended "2025-01-07T12:00:00"
                           (a_valuation None (Some 200000%Q))
                           (agent_found [a_document "LIEN" 5000 true])
                           eq_refl) _)).
  reflexivity.
Defined.

(** ** The stable sort *)

Section SortFacts.

Context {K A : Type} (ltb : K -> K -> bool).
Hypothesis ltb_asym : forall a b, ltb a b = true -> ltb b a = false.
Hypothesis leb_trans :
  forall a b c, ltb b a = false -> ltb c b = false -> ltb c a = false.

Lemma insert_perm (x : K * A) l : Permutation (insert ltb x l) (x :: l).
Proof.
  induction l as [|y l IH]; cbn; [reflexivity|].
  destruct (ltb (fst y) (fst x)); [|reflexivity].
  rewrite IH. apply perm_swap.
Qed.

Lemma sort_keyed_perm (l : list (K * A)) : Permutation (sort_keyed ltb l) l.
Proof.
  induction l as [|x l IH]; cbn; [reflexivity|].
  rewrite insert_perm. now constructor.
Qed.

Lemma insert_sorted (x : K * A) l :
  StronglySorted (key_le ltb) l -> StronglySorted (key_le ltb) (insert ltb x l).
Proof.
  induction 1 as [|y l Hs IH Hy]; cbn.
  - constructor; constructor.
  - destruct (ltb (fst y) (fst x)) eqn:E.
    + constructor; [exact IH|].
      rewrite (insert_perm x l). constructor; [|exact Hy].
      unfold key_le. now apply ltb_asym.
    + constructor; [now constructor|].
      constructor; [exact E|].
      eapply Forall_impl; [|exact Hy].
      intros z Hz. unfold key_le in *. now apply (leb_trans _ (fst y)).
Qed.

Lemma sort_keyed_sorted (l : list (K * A)) : StronglySorted (key_le ltb) (sort_keyed ltb l).
Proof.
  induction l as [|x l IH]; cbn; [constructor | now apply insert_sorted].
Qed.

Section Stable.

(** a class of elements that nothing of the class passes over *)
Variable P : K * A -> bool.
Hypothesis P_not_below :
  forall x y, ltb (fst y) (fst x) = true -> P x = true -> P y = false.

Lemma insert_filter x l : filter P (insert ltb x l) = filter P (x :: l).
Proof.
  induction l as [|y l IH]; [reflexivity|].
  cbn [insert]. destruct (ltb (fst y) (fst x)) eqn:E; [|reflexivity].
  cbn [filter] in *. rewrite IH.
  destruct (P x) eqn:Px; [|reflexivity].
  now rewrite (P_not_below x y E Px).
Qed.

Lemma sort_keyed_stable l : filter P (sort_keyed ltb l) = filter P l.
Proof.
  induction l as [|x l IH]; [reflexivity|].
  cbn [sort_keyed fold_right]. fold (sort_keyed ltb l).
  rewrite insert_filter. cbn [filter]. now rewrite IH.
Qed.

End Stable.

Lemma decorate_spec (key : A -> result K) l kl :
  decorate key l = Ret kl ->
  map snd kl = l /\ Forall (fun p => key (snd p) = Ret (fst p)) kl.
Proof.
  revert kl. induction l as [|x l IH]; cbn; intros kl.
  - intros [= <-]. split; constructor.
  - destruct (key x) as [k|e] eqn:Ek; cbn; [|discriminate].
    fold (decorate key l). destruct (decorate key l) as [kl'|e]; cbn;
      [|discriminate].
    intros [= <-]. destruct (IH kl' eq_refl) as [Hm Hf].
    split; [cbn; now rewrite Hm | constructor; [exact Ek | exact Hf]].
Qed.

Lemma sort_by_spec (key : A -> result K) l sorted :
  sort_by ltb key l = Ret sorted ->
  exists kl,
    decorate key l = Ret kl /\ sorted = map snd (sort_keyed ltb kl).
Proof.
  unfold sort_by. destruct (decorate key l) as [kl|e]; cbn; [|discriminate].
  intros [= <-]. now exists kl.
Qed.

End SortFacts.

(** ** Recording dates *)

Lemma date_ltb_spec d1 d2 :
  date_ltb d1 d2 = true
  <-> year d1 < year d2
      \/ (year d1 = year d2
          /\ (month d1 < month d2
              \/ (month d1 = month d2 /\ day d1 < day d2))).
Proof.
  unfold date_ltb.
  rewrite !orb_true_iff, !andb_true_iff, !orb_true_iff, !andb_true_iff,
    !Nat.ltb_lt, !Nat.eqb_eq.
  tauto.
Qed.

Lemma date_ltb_false d1 d2 :
  date_ltb d1 d2 = false
  <-> year d2 < year d1
      \/ (year d2 = year d1
          /\ (month d2 < month d1
              \/ (month d2 = month d1 /\ day d2 <= day d1))).
Proof.
  rewrite <- not_true_iff_false, date_ltb_spec. lia.
Qed.

Lemma date_ltb_asym a b : date_ltb a b = true -> date_ltb b a = false.
Proof. rewrite date_ltb_false, date_ltb_spec. lia. Qed.

Lemma date_leb_trans a b c :
  date_ltb b a = false -> date_ltb c b = false -> date_ltb c a = false.
Proof. rewrite !date_ltb_false. lia. Qed.

Lemma date_eqb_spec d1 d2 :
  date_eqb d1 d2 = true
  <-> year d1 = year d2 /\ month d1 = month d2 /\ day d1 = day d2.
Proof.
  unfold date_eqb. rewrite !andb_true_iff, !Nat.eqb_eq. tauto.
Qed.

Lemma date_eqb_not_below d x y :
  date_ltb y x = true -> date_eqb d x = true -> date_eqb d y = false.
Proof.
  rewrite date_ltb_spec, date_eqb_spec, <- not_true_iff_false, date_eqb_spec.
  lia.
Qed.

Lemma sorted_pairs_not_after (sk : list (date * lien)) :
  StronglySorted (key_le date_ltb) sk ->
  Forall (fun p => strptime_mdY (recorded_date (snd p)) = Ret (fst p)) sk ->
  StronglySorted not_after (map snd sk).
Proof.
  induction 1 as [|p sk Hs IH Hp]; intros Hk; cbn; [constructor|].
  inversion Hk as [|? ? Hkp Hksk]; subst.
  constructor; [now apply IH|].
  apply Forall_map. rewrite Forall_forall in *.
  intros q Hq. exists (fst p), (fst q).
  repeat split; [exact Hkp | now apply Hksk | now apply Hp].
Qed.

Lemma filter_recorded_on d (kl : list (date * lien)) :
  Forall (fun p => strptime_mdY (recorded_date (snd p)) = Ret (fst p)) kl ->
  filter (recorded_on d) (map snd kl)
  = map snd (filter (fun p => date_eqb d (fst p)) kl).
Proof.
  induction 1 as [|p kl Hp Hkl IH]; [reflexivity|].
  cbn [map filter]. unfold recorded_on at 1. rewrite Hp, IH.
  now destruct (date_eqb d (fst p)).
Qed.

Lemma sort_by_recorded_date_spec raw liens :
  sort_by_recorded_date raw = Ret liens ->
  Permutation liens raw
  /\ StronglySorted not_after liens
  /\ forall d, filter (recorded_on d) liens = filter (recorded_on d) raw.
Proof.
  intros H. apply sort_by_spec in H as (kl & Hd & ->).
  apply decorate_spec in Hd as [Hm Hk].
  assert (Hsk : Forall (fun p => strptime_mdY (recorded_date (snd p))
                                 = Ret (fst p)) (sort_keyed date_ltb kl)).
  { eapply Permutation_Forall; [|exact Hk].
    symmetry. apply sort_keyed_perm. }
  split; [|split].
  - rewrite <- Hm. apply Permutation_map, sort_keyed_perm.
  - apply sorted_pairs_not_after; [|exact Hsk].
    apply sort_keyed_sorted; [apply date_ltb_asym | apply date_leb_trans].
  - intros d. rewrite <- Hm, !filter_recorded_on by assumption.
    f_equal. apply sort_keyed_stable.
    intros x y. apply date_eqb_not_below.
Qed.

Lemma _parse_liens_spec markdown liens :
  _parse_liens markdown = Ret liens ->
  exists extracted,
    extract_liens (split_lines markdown) = Ret extracted
    /\ sort_by_recorded_date (map detect_hoa extracted) = Ret liens.
Proof.
  unfold _parse_liens.
  destruct (extract_liens (split_lines markdown)) as [ex|e]; cbn;
    [|discriminate].
  intros H. now exists ex.
Qed.

(** C3. For the records that [_parse_liens] hands to
    [analyze_lien_priority], the priority positions written are exactly
    1, 2, ..., N in list order, where the list is the extracted records
    rearranged by ascending recording date, records of the same date
    keeping the order of the input. *)
Theorem priority_positions_follow_recording_date :
  forall (markdown : string) (liens : list lien),
    _parse_liens markdown = Ret liens ->
    exists extracted,
      extract_liens (split_lines markdown) = Ret extracted
      /\ let input := map detect_hoa extracted in
         let ranked := liens_after_analysis liens in
         ranked = rank_from 0 liens
         /\ map priority_position ranked
            = map Some (seq 1 (List.length input))
         /\ Permutation liens input
         /\ StronglySorted not_after liens
         /\ forall d,
              filter (recorded_on d) liens = filter (recorded_on d) input.
Proof.
  intros markdown liens H.
  apply _parse_liens_spec in H as (ex & Hex & Hs).
  exists ex. split; [exact Hex|]. cbv zeta.
  apply sort_by_recorded_date_spec in Hs as (Hp & Hsorted & Hst).
  rewrite liens_after_analysis_ranked.
  split; [reflexivity|]. split; [|now repeat split].
  rewrite rank_from_positions. cbn [Nat.add].
  now rewrite (Permutation_length Hp).
Qed.

Lemma priority_positions_follow_recording_date_witness :
  _parse_liens tied_markdown = Ret tied_liens
  /\ map type tied_liens = ["JUDG"; "MTG"; "LIEN"]
  /\ map priority_position (liens_after_analysis tied_liens)
     = [Some 1; Some 2; Some 3].
Proof.
  assert (H : _parse_liens tied_markdown = Ret tied_liens)
    by (vm_compute; reflexivity).
  split; [exact H|]. split; [reflexivity|].
  destruct (priority_positions_follow_recording_date tied_markdown
              tied_liens H) as (ex & _ & _ & Hr & Hp & _).
  rewrite Hr, <- (Permutation_length Hp). reflexivity.
Defined.

(** ** Total encumbrance *)

Lemma fold_left_Qplus xs acc :
  (fold_left Qplus xs acc == acc + Qsum xs)%Q.
Proof.
  revert acc. induction xs as [|x xs IH]; intros acc;
    cbn [fold_left Qsum fold_right].
  - ring.
  - rewrite IH. fold (Qsum xs). ring.
Qed.

Lemma sum_Qsum xs : (sum xs == Qsum xs)%Q.
Proof. unfold sum. rewrite fold_left_Qplus. ring. Qed.

(** ** The HOA classifier *)

Lemma prefix_app kw s :
  String.prefix kw s = true <-> exists post, s = (kw ++ post)%string.
Proof.
  revert s. induction kw as [|a kw IH]; intros s.
  - split; [intros _; now exists s | intros _; now destruct s].
  - destruct s as [|b s]; cbn;
      [split; [discriminate | intros (p & [=])]|].
    destruct (ascii_dec a b) as [<- | Hn].
    + rewrite IH. split; intros (post & H); exists post; congruence.
    + split; [discriminate | intros (p & [= ? _]); congruence].
Qed.

Lemma contains_spec kw s :
  contains kw s = true
  <-> exists pre post, s = (pre ++ kw ++ post)%string.
Proof.
  induction s as [|c s IH]; cbn [contains]; rewrite orb_true_iff, prefix_app.
  - split.
    + intros [(post & H) | H]; [|discriminate]. now exists EmptyString, post.
    + intros (pre & post & H). left. destruct pre; [now exists post|].
      discriminate.
  - rewrite IH. split.
    + intros [(post & H) | (pre & post & H)].
      * now exists EmptyString, post.
      * exists (String c pre), post. cbn. now rewrite H.
    + intros (pre & post & H). destruct pre as [|d pre].
      * left. now exists post.
      * right. injection H as _ H. now exists pre, post.
Qed.

Lemma hoa_match_spec g :
  hoa_match g = true
  <-> exists keyword pre post,
        In keyword hoa_keywords
        /\ upper g = (pre ++ keyword ++ post)%string.
Proof.
  unfold hoa_match. rewrite existsb_exists. split.
  - intros (kw & Hin & H). apply contains_spec in H as (pre & post & H).
    now exists kw, pre, post.
  - intros (kw & pre & post & Hin & H). exists kw. split; [exact Hin|].
    apply contains_spec. now exists pre, post.
Qed.

Lemma upper_char_idem c : upper_char (upper_char c) = upper_char c.
Proof. destruct c as [[] [] [] [] [] [] [] []]; reflexivity. Qed.

Lemma upper_idem s : upper (upper s) = upper s.
Proof.
  induction s as [|c s IH]; cbn; [reflexivity|].
  now rewrite upper_char_idem, IH.
Qed.

Lemma detect_hoa_is_hoa l : is_hoa (detect_hoa l) = Some (hoa_match (grantor l)).
Proof. unfold detect_hoa. now destruct (hoa_match (grantor l)). Qed.

Lemma detect_hoa_grantor l : grantor (detect_hoa l) = grantor l.
Proof. unfold detect_hoa. now destruct (hoa_match (grantor l)). Qed.

(** C5. Every record that [_parse_liens] returns has its [is_hoa] flag set
    by a substring match of the fixed keywords in the upper-cased creditor
    text: the flag is a function of that text alone, the same for texts
    that differ by case only, whatever the other fields.  The two spellings
    of the Sunset association are flagged, Wells Fargo is not. *)
Theorem is_hoa_depends_on_creditor_text_only :
  forall (markdown : string) (liens : list lien) (l : lien),
    _parse_liens markdown = Ret liens ->
    In l liens ->
    is_hoa l = Some (hoa_match (grantor l))
    /\ (hoa_match (grantor l) = true
        <-> exists keyword pre post,
              In keyword hoa_keywords
              /\ upper (grantor l) = (pre ++ keyword ++ post)%string)
    /\ (forall l' : lien,
           upper (grantor l') = upper (grantor l) ->
           is_hoa (detect_hoa l') = is_hoa l)
    /\ hoa_match (upper (grantor l)) = hoa_match (grantor l)
    /\ hoa_match "sunset Homeowners association" = true
    /\ hoa_match "SUNSET HOMEOWNERS ASSOCIATION" = true
    /\ hoa_match "Wells Fargo Bank NA" = false.
Proof.
  intros markdown liens l H Hin.
  apply _parse_liens_spec in H as (ex & _ & Hs).
  apply sort_by_recorded_date_spec in Hs as (Hp & _).
  apply (Permutation_in _ Hp), in_map_iff in Hin as (l0 & <- & _).
  rewrite detect_hoa_is_hoa, detect_hoa_grantor.
  split; [reflexivity|]. split; [apply hoa_match_spec|].
  split; [|split; [|now repeat split]].
  - intros l' Hu. rewrite detect_hoa_is_hoa. unfold hoa_match.
    now rewrite Hu.
  - unfold hoa_match. now rewrite upper_idem.
Qed.

Lemma is_hoa_depends_on_creditor_text_only_witness :
  exists l,
    In l tied_liens
    /\ grantor l = "SUNSET HOMEOWNERS ASSOCIATION"
    /\ is_hoa l = Some true.
Proof.
  eexists. split; [right; right; left; reflexivity|].
  split; [reflexivity|].
  refine (proj1 (is_hoa_depends_on_creditor_text_only tied_markdown
                   tied_liens _ _ _)).
  - vm_compute; reflexivity.
  - right; right; left; reflexivity.
Defined.

(** ** Amount parsing *)

Lemma has_char_replace_same c s :
  has_char c (replace_char_empty c s) = false.
Proof.
  induction s as [|d s IH]; cbn; [reflexivity|].
  destruct (Ascii.eqb d c) eqn:E; [exact IH|]. cbn. now rewrite E.
Qed.

Lemma has_char_replace_other c d s :
  has_char c s = false -> has_char c (replace_char_empty d s) = false.
Proof.
  induction s as [|x s IH]; cbn; [reflexivity|].
  intros H. apply orb_false_iff in H as [Hx Hs].
  destruct (Ascii.eqb x d); [now apply IH|]. cbn. now rewrite Hx, IH.
Qed.

Lemma has_char_lstrip c s :
  has_char c s = false -> has_char c (lstrip s) = false.
Proof.
  induction s as [|x s IH]; cbn; [reflexivity|].
  intros H. destruct (is_space x); [|exact H].
  apply orb_false_iff in H as [_ Hs]. now apply IH.
Qed.

Lemma has_char_rstrip c s :
  has_char c s = false -> has_char c (rstrip s) = false.
Proof.
  induction s as [|x s IH]; cbn; [reflexivity|].
  intros H. apply orb_false_iff in H as [Hx Hs]. specialize (IH Hs).
  destruct (rstrip s) as [|y r].
  - destruct (is_space x); [reflexivity|]. cbn. now rewrite Hx.
  - cbn [has_char] in *. now rewrite Hx, IH.
Qed.

Lemma has_char_strip c s :
  has_char c s = false -> has_char c (strip s) = false.
Proof. intros H. now apply has_char_rstrip, has_char_lstrip. Qed.

Lemma float_raises_ValueError s e :
  Py.float s = Raise e -> is_ValueError e = true.
Proof.
  unfold Py.float. destruct (float_literal (strip s)); [discriminate|].
  now intros [= <-].
Qed.

(** C7. Whatever the amount text, [_parse_amount] removes every dollar
    sign and every comma before the conversion, returns the converted
    number when the conversion succeeds and 0 when it fails, and never
    raises; "$250,000" gives 250000 and "invalid" gives 0. *)
Theorem parse_amount_strips_and_never_raises :
  forall (float : string -> result Q) (amount_str : string),
    (forall s e, float s = Raise e -> is_ValueError e = true) ->
    let cleaned :=
      strip (replace_char_empty "$" (replace_char_empty "," amount_str)) in
    has_char "$" cleaned = false
    /\ has_char "," cleaned = false
    /\ _parse_amount_with float amount_str
       = match float cleaned with
         | Ret v => Ret v
         | Raise _ => Ret 0%Q
         end
    /\ (exists v, _parse_amount_with float amount_str = Ret v)
    /\ _parse_amount "$250,000" = Ret 250000%Q
    /\ _parse_amount "invalid" = Ret 0%Q.
Proof.
  intros float amount_str Hf cleaned.
  assert (E : _parse_amount_with float amount_str
              = match float cleaned with
                | Ret v => Ret v
                | Raise _ => Ret 0%Q
                end).
  { unfold _parse_amount_with, try_except. fold cleaned.
    destruct (float cleaned) as [v|e] eqn:Ef; [reflexivity|].
    now rewrite (Hf _ _ Ef). }
  split; [apply has_char_strip, has_char_replace_same|].
  split.
  { apply has_char_strip, has_char_replace_other, has_char_replace_same. }
  split; [exact E|]. split; [|split; reflexivity].
  rewrite E. destruct (float cleaned) as [v|e]; eauto.
Qed.

Lemma parse_amount_strips_and_never_raises_witness :
  _parse_amount "$1,234.56" = Ret (1234.56)%Q.
Proof.
  unfold _parse_amount.
  rewrite (proj1 (proj2 (proj2
             (parse_amount_strips_and_never_raises Py.float "$1,234.56"
                float_raises_ValueError)))).
  reflexivity.
Defined.

(** ** The empty record set *)

Lemma Qltb_false_iff x y : Qltb x y = false <-> (y <= x)%Q.
Proof.
  unfold Qltb. rewrite negb_false_iff. apply Qle_bool_iff.
Qed.

Lemma Qltb_true_iff x y : Qltb x y = true <-> (x < y)%Q.
Proof.
  unfold Qltb. rewrite negb_true_iff, <- not_true_iff_false, Qle_bool_iff.
  split; [apply Qnot_le_lt | apply Qlt_not_le].
Qed.

Lemma max2_eq a b v : (b == v)%Q -> (a <= v)%Q -> (max2 a b == v)%Q.
Proof.
  intros Hb Ha. unfold max2. destruct (Qltb a b) eqn:E; [exact Hb|].
  apply Qltb_false_iff in E. apply Qle_antisym; [exact Ha|].
  now rewrite <- Hb.
Qed.

(** C8. The empty list is a regular input: [analyze_lien_priority] returns
    zero counts, a zero total, no warning and no first position, and
    [_combine_results], for a search that found no document and a
    valuation of just value 50000 (the assessed value not above it),
    reports an equity of 25000, no warning and the recommendation BID. *)
Theorem empty_record_set_is_valid :
  forall (utcnow : string) (bcpao : Workflow.bcpao_data)
         (acclaimweb : Workflow.acclaimweb_result),
    Workflow.success acclaimweb = true ->
    Workflow.documents_of acclaimweb = [] ->
    (get (Workflow.just_value bcpao) 0 == 50000)%Q ->
    (get (Workflow.assessed_value bcpao) 0 <= 50000)%Q ->
    analyze_lien_priority []
    = {| total_liens := 0; total_encumbrance := 0%Q;
         first_position := None; hoa_liens := []; mortgages := [];
         judgments := []; warnings := []; encumbrance_summary := None |}
    /\ liens_after_analysis [] = []
    /\ _parse_liens "" = Ret []
    /\ exists r,
         Workflow._combine_results utcnow bcpao acclaimweb
         = Workflow.Combined r
         /\ let la := Workflow.r_lien_analysis r in
            let ia := Workflow.r_investment_analysis r in
            Workflow.total_liens la = 0
            /\ Workflow.mortgages la = 0
            /\ Workflow.other_liens la = 0
            /\ Workflow.judgments la = 0
            /\ Workflow.hoa_liens la = 0
            /\ Workflow.first_position la = None
            /\ Workflow.total_encumbrance la = 0%Q
            /\ (Workflow.arv ia == 50000)%Q
            /\ (Workflow.max_bid_equity_70pct ia == 25000)%Q
            /\ Workflow.warnings ia = []
            /\ Workflow.recommendation ia = "BID"
            /\ Workflow.reason ia
               = "Acceptable lien structure and equity position".
Proof.
  intros utcnow bcpao acclaimweb Hs Hd Hj Ha.
  split; [reflexivity|]. split; [reflexivity|]. split; [reflexivity|].
  destruct (combine_results_report utcnow bcpao acclaimweb Hs)
    as (r & Hr & _ & Htl & Hte & Hm & Ho & Hjd & Hh & Hfp & Harv & Heq
        & Hrec & Hrsn & Hw).
  exists r. split; [exact Hr|]. cbv zeta.
  rewrite Hd in *. cbn in Htl, Hte, Hm, Ho, Hjd, Hh, Hfp.
  assert (Hv : (Workflow.arv (Workflow.r_investment_analysis r)
                == 50000)%Q).
  { rewrite Harv. now apply max2_eq. }
  assert (He : (Workflow.max_bid_equity_70pct
                  (Workflow.r_investment_analysis r) == 25000)%Q).
  { rewrite Heq, <- Harv, Hv. reflexivity. }
  assert (Hlt : Qltb (Workflow.max_bid_equity_70pct
                        (Workflow.r_investment_analysis r)) 10000 = false).
  { apply Qltb_false_iff. rewrite He. discriminate. }
  rewrite Heq in Hlt.
  repeat (split; [assumption|]).
  unfold Workflow.build_warnings, Workflow.recommend in *.
  cbn [filter Workflow.of_type Workflow.nonempty List.length Nat.ltb
       Nat.leb Workflow.when app] in *.
  rewrite Hlt in *. now repeat split.
Qed.

Lemma empty_record_set_is_valid_witness :
  exists r,
    Workflow._combine_results "2025-01-07T12:00:00"
      (a_valuation None (Some 50000%Q)) (agent_found [])
    = Workflow.Combined r
    /\ (Workflow.max_bid_equity_70pct (Workflow.r_investment_analysis r)
        == 25000)%Q
    /\ Workflow.recommendation (Workflow.r_investment_analysis r) = "BID".
Proof.
  destruct (empty_record_set_is_valid "2025-01-07T12:00:00"
              (a_valuation None (Some 50000%Q)) (agent_found [])
              eq_refl eq_refl)
    as (_ & _ & _ & r & Hr & H).
  - reflexivity.
  - discriminate.
  - exists r. split; [exact Hr|]. split; apply H.
Defined.

(** ** [search_liens] *)

(** C9. [search_liens] returns a dict on every input and for every
    behaviour of the scrape: when the scrape raises, the dict reports the
    failure with the text of the exception and the queried address; when
    the scrape answers without success, it reports the failure with the
    error of the answer (or "Unknown error") and the queried address. *)
Theorem search_liens_never_raises :
  forall (firecrawl_scrape :
            string -> list string -> list action
            -> result (option scrape_json))
         (utcnow address : string) (parcel_id : option string)
         (include_mortgages include_liens include_judgments : bool),
    let outcome :=
      firecrawl_scrape
        (acclaim_url ++ "/search/SearchTypeName?SearchType=Image")%string
        ["markdown"]
        (build_actions address parcel_id include_mortgages include_liens
           include_judgments) in
    exists d,
      search_liens firecrawl_scrape utcnow address parcel_id
        include_mortgages include_liens include_judgments = Ret d
      /\ search_address d = address
      /\ (forall e, outcome = Raise e ->
            search_success d = false
            /\ d = SearchFailed (str_of_exn e) address)
      /\ (forall r, outcome = Ret (Some r) ->
            truthy (success r) = false ->
            search_success d = false
            /\ d = SearchFailed (get (error r) "Unknown error") address)
      /\ (outcome = Ret None -> search_success d = false).
Proof.
  intros scrape utcnow address parcel_id im il ij outcome.
  unfold search_liens, search_body, try_except. fold outcome.
  destruct outcome as [[r|]|e]; cbn [bind].
  - destruct (truthy (success r)) eqn:Es.
    + destruct (read_markdown r) as [md|e1]; cbn [bind];
        [destruct (read_screenshot r) as [shot|e2]; cbn [bind];
         [destruct (_parse_liens md) as [liens|e3]; cbn [bind]|]|];
        eexists; (split; [reflexivity|]); (split; [reflexivity|]);
        (split; [intros e [=]|]); (split; [|intros [=]]);
        intros r' [= <-] H; congruence.
    + eexists. split; [reflexivity|]. split; [reflexivity|].
      split; [intros e [=]|]. split; [|intros [=]].
      intros r' [= <-] _. now split.
  - eexists. split; [reflexivity|]. split; [reflexivity|].
    split; [intros e [=]|]. split; [intros r [=] | reflexivity].
  - eexists. split; [reflexivity|]. split; [reflexivity|].
    split; [intros e' [= <-]; now split|].
    split; [intros r [=] | intros [=]].
Qed.

Lemma search_liens_never_raises_witness :
  search_liens (scrape_method unavailable) "2025-01-07T12:00:00"
    "4127 ARLINGTON AVE" None true true true
  = Ret (SearchFailed
           "503 Server Error: Service Unavailable for url: https://api.firecrawl.dev/v2/scrape"
           "4127 ARLINGTON AVE").
Proof.
  destruct (search_liens_never_raises (scrape_method unavailable)
              "2025-01-07T12:00:00" "4127 ARLINGTON AVE" None true true true)
    as (d & Hd & _ & He & _).
  rewrite Hd. f_equal.
  exact (proj2 (He (HTTPError "503 Server Error: Service Unavailable for url: https://api.firecrawl.dev/v2/scrape") eq_refl)).
Defined.

(** ** The assertions of the repository's tests, on the model *)

Example test_parse_liens :
  exists l0 l1,
    _parse_liens test_markdown = Ret [l0; l1]
    /\ type l0 = "MTG" /\ amount l0 = 250000%Q
    /\ type l1 = "LIEN" /\ is_hoa l1 = Some true.
Proof. eexists _, _. split; [vm_compute; reflexivity|]. now repeat split. Qed.

Example test_analyze_lien_priority :
  let analysis := analyze_lien_priority test_liens in
  total_liens analysis = 2
  /\ total_encumbrance analysis = 255000%Q
  /\ option_map grantor (first_position analysis) = Some "WELLS FARGO"
  /\ List.length (hoa_liens analysis) = 1
  /\ exists msg l rest,
       warnings analysis = HOA_FORECLOSURE_RISK msg l :: rest.
Proof. cbv zeta. do 4 (split; [reflexivity|]). now eexists _, _, _. Qed.

Example test_hoa_detection :
  forallb hoa_match
    ["SUNSET HOMEOWNERS ASSOCIATION"; "PARKVIEW HOA";
     "BEACHSIDE CONDOMINIUM ASSOCIATION"; "RIVERSIDE COMMUNITY ASSOCIATION"]
  = true.
Proof. reflexivity. Qed.

Example test_parse_amount :
  map _parse_amount ["$250,000"; "250000"; "$1,234.56"; "invalid"]
  = [Ret 250000%Q; Ret 250000%Q; Ret (1234.56)%Q; Ret 0%Q].
Proof. reflexivity. Qed.

Example test_multiple_mortgages_warning :
  let analysis := analyze_lien_priority test_three_mortgages in
  List.length (mortgages analysis) = 3
  /\ In (multiple_mortgages_warning 3) (warnings analysis).
Proof. split; [reflexivity | now left]. Qed.

Example test_search_liens_success :
  exists liens shot md now,
    search_liens
      (mock_scrape test_markdown [Some "https://example.com/screenshot.png"])
      "2025-01-07T12:00:00" "123 Main St" None true true true
    = Ret (SearchFound "123 Main St" None liens 2 shot md now)
    /\ List.length liens = 2.
Proof. eexists _, _, _, _. split; [vm_compute; reflexivity | reflexivity]. Qed.

Example test_search_with_parcel_id :
  In (ActWrite "input[name='NameSearchModel.SearchCriteria']" "2517790")
     (build_actions "123 Main St" (Some "2517790") true true true).
Proof. cbn. tauto. Qed.

(** * Further properties of the code *)

(** ** Soundness of the matcher *)

Lemma strip_prefix_app l s s' :
  Re.strip_prefix l s = Some s' -> s = (l ++ s')%string.
Proof.
  revert s. induction l as [|a l IH]; intros s; cbn.
  - now intros [= ->].
  - destruct s as [|b s]; [discriminate|].
    destruct (Ascii.eqb_spec a b) as [<- | _]; [|discriminate].
    intros H. now rewrite (IH _ H).
Qed.

Lemma first_some_In {A B} (f : A -> option B) l r :
  Re.first_some f l = Some r -> exists x, In x l /\ f x = Some r.
Proof.
  induction l as [|x l IH]; cbn; [discriminate|].
  destruct (f x) as [y|] eqn:E.
  - intros [= <-]. exists x. auto.
  - intros H. destruct (IH H) as (z & Hin & Hz). exists z. auto.
Qed.

Lemma try_down_some {A} (k : nat -> option A) lo n r :
  Re.try_down k lo n = Some r ->
  exists j, j <= n /\ (lo <= j \/ j = n) /\ k j = Some r.
Proof.
  induction n as [|n IH]; cbn.
  - destruct (k 0) eqn:E; [|discriminate].
    intros [= <-]. exists 0. auto.
  - destruct (k (S n)) eqn:E.
    + intros [= <-]. exists (S n). auto.
    + destruct (lo <=? n) eqn:El; [|discriminate].
      intros H. destruct (IH H) as (j & Hj & Hlo & Hk).
      exists j. split; [lia|]. split; [|exact Hk].
      left. destruct Hlo as [Hlo | ->]; [exact Hlo|].
      now apply Nat.leb_le.
Qed.

Lemma drop_app l s : Re.drop (String.length l) (l ++ s) = s.
Proof. induction l as [|a l IH]; [now destruct s | exact IH]. Qed.

Lemma drop_drop a b s : Re.drop b (Re.drop a s) = Re.drop (a + b) s.
Proof.
  revert s. induction a as [|a IH]; intros s; [reflexivity|].
  destruct s as [|c s]; cbn; [now destruct b | apply IH].
Qed.

Lemma string_length_app (u w : string) :
  String.length (u ++ w) = String.length u + String.length w.
Proof. induction u as [|a u IH]; cbn; [reflexivity | now rewrite IH]. Qed.

Lemma string_app_assoc (u v w : string) :
  ((u ++ v) ++ w = u ++ (v ++ w))%string.
Proof. induction u as [|a u IH]; cbn; [reflexivity | now rewrite IH]. Qed.

(** a prefix of a run of [p] *)
Lemma run_length_split p hi s j :
  j <= Re.run_length p hi s ->
  exists u s',
    s = (u ++ s')%string /\ String.length u = j
    /\ all_chars p u = true /\ within hi j.
Proof.
  revert hi j. induction s as [|c s IH]; intros hi j; cbn.
  - intros Hj. assert (j = 0) as -> by lia.
    exists EmptyString, EmptyString. repeat split. destruct hi; cbn; lia.
  - destruct j as [|j].
    + intros _. exists EmptyString, (String c s). repeat split.
      destruct hi; cbn; lia.
    + destruct hi as [[|h]|]; try (intros Hj; lia).
      * destruct (p c) eqn:Hp; [|intros Hj; lia].
        intros Hj. destruct (IH (Some h) j) as (u & s' & -> & Hl & Ha & Hw);
          [lia|].
        exists (String c u), s'. cbn in *. rewrite Hp, Ha.
        repeat split; lia.
      * destruct (p c) eqn:Hp; [|intros Hj; lia].
        intros Hj. destruct (IH None j) as (u & s' & -> & Hl & Ha & Hw);
          [lia|].
        exists (String c u), s'. cbn. rewrite Hp, Ha. repeat split. lia.
Qed.

(** a pattern without groups in front of a continuation: it takes an
    accepted text off the subject and leaves the spans alone *)
Lemma match_here_body body :
  forall k s pos cs cs',
    no_groups body = true ->
    Re.match_here (body ++ k) s pos cs = Some cs' ->
    exists w s',
      s = (w ++ s')%string /\ accepts body w
      /\ Re.match_here k s' (pos + String.length w) cs = Some cs'.
Proof.
  induction body as [|a body IH]; intros k s pos cs cs' Hg H.
  - exists EmptyString, s. cbn. rewrite Nat.add_0_r.
    repeat split; [constructor | exact H].
  - destruct a as [l|alts|p lo hi|g|g]; cbn in Hg; try discriminate;
      cbn [app Re.match_here] in H.
    + destruct (Re.strip_prefix l s) as [s1|] eqn:E; [|discriminate].
      apply strip_prefix_app in E as ->.
      destruct (IH _ _ _ _ _ Hg H) as (w & s' & -> & Hw & Hk).
      exists (l ++ w)%string, s'. rewrite string_app_assoc.
      split; [reflexivity|]. split; [now constructor|].
      now rewrite string_length_app, Nat.add_assoc.
    + apply first_some_In in H as (l & Hin & H).
      destruct (Re.strip_prefix l s) as [s1|] eqn:E; [|discriminate].
      apply strip_prefix_app in E as ->.
      destruct (IH _ _ _ _ _ Hg H) as (w & s' & -> & Hw & Hk).
      exists (l ++ w)%string, s'. rewrite string_app_assoc.
      split; [reflexivity|]. split; [now constructor|].
      now rewrite string_length_app, Nat.add_assoc.
    + destruct (Re.run_length p hi s <? lo) eqn:El; [discriminate|].
      apply Nat.ltb_ge in El.
      apply try_down_some in H as (j & Hj & Hlo & H).
      assert (Hlo' : lo <= j) by (destruct Hlo; lia).
      destruct (run_length_split p hi s j Hj) as (u & s1 & -> & Hl & Ha & Hw).
      rewrite <- Hl, drop_app in H.
      destruct (IH _ _ _ _ _ Hg H) as (w & s' & -> & Hacc & Hk).
      exists (u ++ w)%string, s'. rewrite string_app_assoc.
      split; [reflexivity|].
      split; [constructor; auto; now rewrite Hl|].
      now rewrite string_length_app, Nat.add_assoc.
Qed.

(** any pattern in front of a continuation: the continuation runs on a
    suffix of the subject, at the matching offset *)
Lemma match_here_pre pre :
  forall k s pos cs cs',
    Re.match_here (pre ++ k) s pos cs = Some cs' ->
    exists n cs1,
      Re.match_here k (Re.drop n s) (pos + n) cs1 = Some cs'.
Proof.
  induction pre as [|a pre IH]; intros k s pos cs cs' H.
  - exists 0, cs. cbn. now rewrite Nat.add_0_r.
  - destruct a as [l|alts|p lo hi|g|g]; cbn [app Re.match_here] in H.
    + destruct (Re.strip_prefix l s) as [s1|] eqn:E; [|discriminate].
      apply strip_prefix_app in E as ->.
      destruct (IH _ _ _ _ _ H) as (n & cs1 & Hk).
      exists (String.length l + n), cs1.
      now rewrite <- drop_drop, drop_app, Nat.add_assoc.
    + apply first_some_In in H as (l & Hin & H).
      destruct (Re.strip_prefix l s) as [s1|] eqn:E; [|discriminate].
      apply strip_prefix_app in E as ->.
      destruct (IH _ _ _ _ _ H) as (n & cs1 & Hk).
      exists (String.length l + n), cs1.
      now rewrite <- drop_drop, drop_app, Nat.add_assoc.
    + destruct (Re.run_length p hi s <? lo); [discriminate|].
      apply try_down_some in H as (j & _ & _ & H).
      destruct (IH _ _ _ _ _ H) as (n & cs1 & Hk).
      exists (j + n), cs1. now rewrite <- drop_drop, Nat.add_assoc.
    + apply (IH _ _ _ _ _ H).
    + apply (IH _ _ _ _ _ H).
Qed.

Lemma span_of_set_stop_other g g' pos cs :
  g' <> g -> Re.span_of g (Re.set_stop g' pos cs) = Re.span_of g cs.
Proof.
  intros Hn. induction cs as [|[h [a b]] cs IH]; [reflexivity|].
  cbn. destruct (h =? g') eqn:E; cbn.
  - apply Nat.eqb_eq in E as ->.
    destruct (g' =? g) eqn:E'; [apply Nat.eqb_eq in E'; contradiction|].
    reflexivity.
  - destruct (h =? g); [reflexivity | exact IH].
Qed.

(** a pattern that does not mention [g] leaves the span of [g] alone *)
Lemma match_here_frame g post :
  forall s pos cs cs',
    group_free g post = true ->
    Re.match_here post s pos cs = Some cs' ->
    Re.span_of g cs' = Re.span_of g cs.
Proof.
  induction post as [|a post IH]; intros s pos cs cs' Hg H.
  - cbn in H. now injection H as <-.
  - destruct a as [l|alts|p lo hi|g'|g']; cbn in Hg; cbn [Re.match_here] in H.
    + destruct (Re.strip_prefix l s); [|discriminate]. eauto.
    + apply first_some_In in H as (l & _ & H).
      destruct (Re.strip_prefix l s); [|discriminate]. eauto.
    + destruct (Re.run_length p hi s <? lo); [discriminate|].
      apply try_down_some in H as (j & _ & _ & H). eauto.
    + apply andb_true_iff in Hg as [Hn Hg]. apply negb_true_iff in Hn.
      rewrite (IH _ _ _ _ Hg H). cbn. now rewrite Hn.
    + apply andb_true_iff in Hg as [Hn Hg].
      apply negb_true_iff, Nat.eqb_neq in Hn.
      rewrite (IH _ _ _ _ Hg H). now apply span_of_set_stop_other.
Qed.

Lemma search_from_match pat s :
  forall pos cs,
    Re.search_from pat s pos = Some cs ->
    exists k, Re.match_here pat (Re.drop k s) (pos + k) [] = Some cs.
Proof.
  induction s as [|c s IH]; intros pos cs; cbn [Re.search_from].
  - destruct (Re.match_here pat EmptyString pos []) eqn:E; [|discriminate].
    intros [= <-]. exists 0. cbn. now rewrite Nat.add_0_r.
  - destruct (Re.match_here pat (String c s) pos []) eqn:E.
    + intros [= <-]. exists 0. cbn. now rewrite Nat.add_0_r.
    + intros H. destruct (IH _ _ H) as (k & Hk).
      exists (S k). cbn. now rewrite Nat.add_succ_r.
Qed.

Lemma substring_drop a w s' t :
  Re.drop a t = (w ++ s')%string -> String.substring a (String.length w) t = w.
Proof.
  revert t. induction a as [|a IH]; intros t; cbn.
  - intros ->. clear. induction w as [|c w IH]; cbn; [now destruct s'|].
    now rewrite IH.
  - destruct t as [|c t]; cbn.
    + destruct w; [reflexivity | discriminate].
    + apply IH.
Qed.

(** The text of a group of a found match is accepted by the body of the
    group. *)
Lemma search_group pre g body post line m :
  no_groups body = true ->
  group_free g post = true ->
  Re.search (pre ++ Re.Open g :: body ++ Re.Close g :: post) line = Some m ->
  Re.text m = line /\ accepts body (Re.group m g).
Proof.
  intros Hb Hp. unfold Re.search.
  destruct (Re.search_from _ line 0) as [cs|] eqn:E; [|discriminate].
  intros [= <-]. split; [reflexivity|].
  apply search_from_match in E as (k & E).
  apply match_here_pre in E as (n & cs1 & E).
  cbn [Re.match_here] in E.
  apply (match_here_body body) in E as (w & s' & Hs & Hw & E); [|exact Hb].
  cbn [Re.match_here] in E.
  apply (match_here_frame g) in E; [|exact Hp].
  unfold Re.group. cbn [Re.groups Re.text]. rewrite E.
  cbn [Re.set_start Re.set_stop Re.span_of]. rewrite Nat.eqb_refl.
  cbn [Re.span_of]. rewrite Nat.eqb_refl.
  replace (0 + k + n + String.length w - (0 + k + n)) with (String.length w)
    by lia.
  rewrite drop_drop in Hs. cbn [Nat.add].
  now rewrite (substring_drop _ _ _ _ Hs).
Qed.

(** ** The groups of [lien_pattern] *)

Lemma string_app_empty (s : string) : (s ++ "")%string = s.
Proof. induction s as [|c s IH]; cbn; [reflexivity | now rewrite IH]. Qed.

Lemma accepts_nil_inv w : accepts [] w -> w = EmptyString.
Proof. now inversion 1. Qed.

Lemma accepts_lit_inv l rest w :
  accepts (Re.Lit l :: rest) w ->
  exists w', w = (l ++ w')%string /\ accepts rest w'.
Proof. inversion 1; subst. eauto. Qed.

Lemma accepts_alt_inv alts rest w :
  accepts (Re.Alt alts :: rest) w ->
  exists l w', w = (l ++ w')%string /\ In l alts /\ accepts rest w'.
Proof. inversion 1; subst. eauto. Qed.

Lemma accepts_rep_inv p lo hi rest w :
  accepts (Re.Rep p lo hi :: rest) w ->
  exists u w',
    w = (u ++ w')%string /\ all_chars p u = true
    /\ lo <= String.length u /\ within hi (String.length u)
    /\ accepts rest w'.
Proof. inversion 1; subst. eauto 8. Qed.

Lemma lien_pattern_type line m :
  Re.search lien_pattern line = Some m ->
  In (Re.group m 1) ["MTG"; "LIEN"; "JUDG"].
Proof.
  intros H.
  change lien_pattern
    with ([] ++ Re.Open 1 :: [Re.Alt ["MTG"; "LIEN"; "JUDG"]]
             ++ Re.Close 1 :: skipn 3 lien_pattern) in H.
  apply search_group in H; [|reflexivity..]. destruct H as [_ H].
  apply accepts_alt_inv in H as (l & w & -> & Hin & Hw).
  apply accepts_nil_inv in Hw as ->. now rewrite string_app_empty.
Qed.

Lemma two_chars p u :
  all_chars p u = true -> 2 <= String.length u -> within (Some 2) (String.length u) ->
  exists a b, u = String a (String b EmptyString) /\ p a = true /\ p b = true.
Proof.
  destruct u as [|a [|b [|c u]]]; cbn; try lia.
  rewrite !andb_true_iff. intros (Ha & Hb & _) _ _. now exists a, b.
Qed.

Lemma four_chars p u :
  all_chars p u = true -> 4 <= String.length u -> within (Some 4) (String.length u) ->
  exists a b c d,
    u = String a (String b (String c (String d EmptyString)))
    /\ p a = true /\ p b = true /\ p c = true /\ p d = true.
Proof.
  destruct u as [|a [|b [|c [|d [|e u]]]]]; cbn; try lia.
  rewrite !andb_true_iff. intros (Ha & Hb & Hc & Hd & _) _ _.
  now exists a, b, c, d.
Qed.

Lemma lien_pattern_date line m :
  Re.search lien_pattern line = Some m -> date_shaped (Re.group m 7).
Proof.
  intros H.
  change lien_pattern
    with (firstn 38 lien_pattern
          ++ Re.Open 7
             :: [Re.exactly 2 is_digit; Re.Lit "/"; Re.exactly 2 is_digit;
                 Re.Lit "/"; Re.exactly 4 is_digit]
                ++ Re.Close 7 :: skipn 45 lien_pattern) in H.
  apply search_group in H; [|reflexivity..]. destruct H as [_ H].
  apply accepts_rep_inv in H as (u1 & w1 & -> & Hu1 & Hl1 & Hh1 & H).
  apply accepts_lit_inv in H as (w2 & -> & H).
  apply accepts_rep_inv in H as (u2 & w3 & -> & Hu2 & Hl2 & Hh2 & H).
  apply accepts_lit_inv in H as (w4 & -> & H).
  apply accepts_rep_inv in H as (u3 & w5 & -> & Hu3 & Hl3 & Hh3 & H).
  apply accepts_nil_inv in H as ->.
  destruct (two_chars _ _ Hu1 Hl1 Hh1) as (m1 & m2 & -> & ? & ?).
  destruct (two_chars _ _ Hu2 Hl2 Hh2) as (d1 & d2 & -> & ? & ?).
  destruct (four_chars _ _ Hu3 Hl3 Hh3) as (y1 & y2 & y3 & y4 & -> & ? & ? & ? & ?).
  exists m1, m2, d1, d2, y1, y2, y3, y4. split; [reflexivity|].
  cbn [forallb].
  repeat match goal with
         | Hd : is_digit _ = true |- _ => rewrite Hd; clear Hd
         end.
  reflexivity.
Qed.

Lemma lien_pattern_amount line m :
  Re.search lien_pattern line = Some m ->
  all_chars digit_or_comma (Re.group m 8) = true.
Proof.
  intros H.
  change lien_pattern
    with (firstn 49 lien_pattern
          ++ Re.Open 8 :: [Re.plus digit_or_comma] ++ Re.Close 8 :: []) in H.
  apply search_group in H; [|reflexivity..]. destruct H as [_ H].
  apply accepts_rep_inv in H as (u & w & -> & Hu & _ & _ & H).
  apply accepts_nil_inv in H as ->. now rewrite string_app_empty.
Qed.

(** ** Amounts of digits and commas *)

Lemma is_digit_not_space c : is_digit c = true -> is_space c = false.
Proof.
  destruct c as [[] [] [] [] [] [] [] []]; intros H;
    try discriminate H; reflexivity.
Qed.

Lemma is_digit_not_dollar c : is_digit c = true -> Ascii.eqb c "$" = false.
Proof.
  destruct c as [[] [] [] [] [] [] [] []]; intros H;
    try discriminate H; reflexivity.
Qed.

Lemma is_digit_sign c s :
  is_digit c = true -> sign_of (String c s) = (false, String c s).
Proof.
  destruct c as [[] [] [] [] [] [] [] []]; intros H;
    try discriminate H; reflexivity.
Qed.

Lemma replace_comma_digits w :
  all_chars digit_or_comma w = true ->
  all_chars is_digit (replace_char_empty "," w) = true.
Proof.
  induction w as [|c w IH]; cbn; [reflexivity|].
  intros H. apply andb_true_iff in H as [Hc Hw]. unfold digit_or_comma in Hc.
  destruct (Ascii.eqb c ",") eqn:E; [now apply IH|].
  rewrite orb_false_r in Hc. cbn. now rewrite Hc, IH.
Qed.

Lemma replace_dollar_digits d :
  all_chars is_digit d = true -> replace_char_empty "$" d = d.
Proof.
  induction d as [|c d IH]; cbn; [reflexivity|].
  intros H. apply andb_true_iff in H as [Hc Hd].
  now rewrite (is_digit_not_dollar c Hc), IH.
Qed.

Lemma strip_digits d : all_chars is_digit d = true -> strip d = d.
Proof.
  intros H. unfold strip.
  assert (Hl : lstrip d = d).
  { destruct d as [|c d]; [reflexivity|]. cbn in *.
    apply andb_true_iff in H as [Hc _].
    now rewrite (is_digit_not_space c Hc). }
  rewrite Hl. clear Hl. induction d as [|c d IH]; [reflexivity|].
  cbn in *. apply andb_true_iff in H as [Hc Hd]. rewrite (IH Hd).
  destruct d; [now rewrite (is_digit_not_space c Hc) | reflexivity].
Qed.

Lemma digitpart_rest_digits d :
  all_chars is_digit d = true -> digitpart_rest d = (chars d, EmptyString).
Proof.
  induction d as [|c d IH]; cbn; [reflexivity|].
  intros H. apply andb_true_iff in H as [Hc Hd].
  now rewrite Hc, (IH Hd).
Qed.

Lemma digits_value_nonneg ds : (0 <= digits_value ds)%Z.
Proof.
  unfold digits_value.
  assert (H : forall acc, (0 <= acc)%Z ->
            (0 <= fold_left (fun a c => a * 10 + digit_val c) ds acc)%Z).
  { induction ds as [|c ds IH]; intros acc Ha; cbn; [exact Ha|].
    apply IH. unfold digit_val. lia. }
  apply H. lia.
Qed.

Lemma float_digits c d :
  all_chars is_digit (String c d) = true ->
  Py.float (String c d)
  = Ret (inject_Z (digits_value (c :: chars d) * 10 ^ 0)).
Proof.
  intros H. unfold Py.float. rewrite (strip_digits _ H).
  cbn in H. apply andb_true_iff in H as [Hc Hd].
  unfold float_literal. rewrite (is_digit_sign c d Hc).
  cbn [digitpart]. rewrite Hc, (digitpart_rest_digits d Hd). reflexivity.
Qed.

Lemma parse_amount_digits_commas w :
  all_chars digit_or_comma w = true ->
  exists n : Z, (0 <= n)%Z /\ _parse_amount w = Ret (inject_Z n).
Proof.
  intros H. apply replace_comma_digits in H.
  unfold _parse_amount, _parse_amount_with, try_except.
  rewrite (replace_dollar_digits _ H), (strip_digits _ H).
  destruct (replace_char_empty "," w) as [|c d].
  - exists 0%Z. split; [lia | reflexivity].
  - rewrite (float_digits c d H). eexists. split; [|reflexivity].
    apply Z.mul_nonneg_nonneg; [apply digits_value_nonneg | lia].
Qed.

(** ** What the extraction yields *)

Lemma lien_of_match_spec line m :
  Re.search lien_pattern line = Some m ->
  exists l,
    lien_of_match m = Ret l /\ well_formed l
    /\ is_hoa l = None /\ priority_position l = None.
Proof.
  intros H. unfold lien_of_match.
  destruct (parse_amount_digits_commas _ (lien_pattern_amount _ _ H))
    as (n & Hn & ->).
  cbn [bind]. eexists. split; [reflexivity|]. cbn.
  repeat split.
  - exact (lien_pattern_type _ _ H).
  - exact (lien_pattern_date _ _ H).
  - now exists n.
Qed.

Lemma extract_liens_spec lines :
  exists extracted,
    extract_liens lines = Ret extracted
    /\ Forall well_formed extracted
    /\ List.length extracted = List.length (filter line_matches lines).
Proof.
  induction lines as [|line lines (ex & Hex & Hwf & Hlen)];
    cbn [extract_liens filter].
  - exists []. repeat split; constructor.
  - unfold line_matches at 1.
    destruct (Re.search lien_pattern line) as [m|] eqn:E.
    + destruct (lien_of_match_spec _ _ E) as (l & -> & Hl & _).
      cbn [bind]. rewrite Hex. cbn [bind].
      exists (l :: ex). split; [reflexivity|].
      split; [now constructor | cbn [List.length]; now rewrite Hlen].
    + now exists ex.
Qed.

Lemma detect_hoa_well_formed l : well_formed l -> well_formed (detect_hoa l).
Proof.
  unfold well_formed, detect_hoa. now destruct (hoa_match (grantor l)).
Qed.

Lemma sort_by_recorded_date_parses raw liens :
  sort_by_recorded_date raw = Ret liens ->
  Forall (fun l => exists d, strptime_mdY (recorded_date l) = Ret d) liens.
Proof.
  intros H. apply sort_by_spec in H as (kl & Hd & ->).
  apply decorate_spec in Hd as [_ Hk].
  apply Forall_map.
  eapply Permutation_Forall; [symmetry; apply sort_keyed_perm|].
  eapply Forall_impl; [|exact Hk]. intros p Hp. now exists (fst p).
Qed.

Lemma strptime_raises_ValueError s :
  match strptime_mdY s with
  | Ret _ => True
  | Raise e => is_ValueError e = true
  end.
Proof.
  unfold strptime_mdY. cbv zeta.
  repeat (match goal with
          | |- context [match ?x with _ => _ end] => is_var x; destruct x
          end; cbv beta iota);
    try reflexivity.
  match goal with
  | |- context [if ?b then _ else _] => destruct b
  end; [|reflexivity].
  match goal with
  | |- context [if ?b then _ else _] => destruct b
  end; [exact I | reflexivity].
Qed.

Lemma decorate_outcome {K A} (key : A -> result K) (l : list A) :
  (exists kl, decorate key l = Ret kl)
  \/ (exists x e, In x l /\ key x = Raise e /\ decorate key l = Raise e).
Proof.
  induction l as [|x l IH]; cbn.
  - left. now eexists.
  - destruct (key x) as [k|e] eqn:Ek; cbn.
    + fold (decorate key l).
      destruct IH as [(kl & ->) | (y & e & Hin & Hy & ->)]; cbn.
      * left. now eexists.
      * right. exists y, e. auto.
    + right. exists x, e. auto.
Qed.

Lemma extracted_without_position lines :
  forall ex l,
    extract_liens lines = Ret ex -> In l ex -> priority_position l = None.
Proof.
  induction lines as [|line lines IH]; cbn [extract_liens]; intros ex l.
  - intros [= <-] [].
  - destruct (Re.search lien_pattern line) as [m|] eqn:E; [|apply IH].
    destruct (lien_of_match_spec _ _ E) as (l' & -> & _ & _ & Hl).
    cbn [bind]. destruct (extract_liens lines) as [ex0|]; cbn [bind];
      [|discriminate].
    intros [= <-] [<- | Hin]; [exact Hl | now apply (IH ex0)].
Qed.

Lemma parsed_records markdown liens :
  _parse_liens markdown = Ret liens ->
  forall l, In l liens ->
    In (type l) ["MTG"; "LIEN"; "JUDG"]
    /\ date_shaped (recorded_date l)
    /\ (exists d, strptime_mdY (recorded_date l) = Ret d)
    /\ (exists n : Z, (0 <= n)%Z /\ amount l = inject_Z n)
    /\ is_hoa l = Some (hoa_match (grantor l))
    /\ priority_position l = None.
Proof.
  intros H l Hin.
  destruct (_parse_liens_spec _ _ H) as (ex & Hex & Hs).
  destruct (extract_liens_spec (split_lines markdown))
    as (ex' & Hex' & Hwf & _).
  rewrite Hex in Hex'. injection Hex' as <-.
  pose proof (sort_by_recorded_date_parses _ _ Hs) as Hd.
  apply sort_by_recorded_date_spec in Hs as (Hp & _).
  rewrite Forall_forall in Hd, Hwf.
  pose proof (Hd l Hin) as Hdl.
  pose proof (Permutation_in _ Hp Hin) as Hin'.
  apply in_map_iff in Hin' as (l0 & El & Hin0). subst l.
  destruct (detect_hoa_well_formed l0 (Hwf l0 Hin0)) as (Ht & Hsh & Ha).
  rewrite detect_hoa_is_hoa, detect_hoa_grantor.
  repeat split; try assumption.
  pose proof (extracted_without_position _ _ _ Hex Hin0) as Hn.
  unfold detect_hoa. now destruct (hoa_match (grantor l0)).
Qed.

Lemma parse_liens_raises_ValueError markdown e :
  _parse_liens markdown = Raise e -> is_ValueError e = true.
Proof.
  unfold _parse_liens.
  destruct (extract_liens_spec (split_lines markdown)) as (ex & -> & _).
  cbn [bind]. unfold sort_by_recorded_date, sort_by.
  destruct (decorate_outcome
              (fun x => strptime_mdY (recorded_date x)) (map detect_hoa ex))
    as [(kl & ->) | (x & e' & _ & Hx & ->)]; cbn [bind]; [discriminate|].
  intros [= <-].
  pose proof (strptime_raises_ValueError (recorded_date x)) as Hv.
  now rewrite Hx in Hv.
Qed.



(** X2. [_parse_liens] either returns, and then every extracted date is a
    calendar date, or raises a [ValueError], the one that
    [datetime.strptime] raises on the date of an extracted record: text of
    the shape dd/dd/dddd that is no calendar date.  Unmatched lines and
    unreadable amounts never make it raise. *)
Theorem parse_liens_fails_on_impossible_date_only :
  forall (markdown : string),
  exists extracted,
    extract_liens (split_lines markdown) = Ret extracted
    /\ ((exists liens,
            _parse_liens markdown = Ret liens
            /\ Forall (fun l => exists d,
                         strptime_mdY (recorded_date l) = Ret d) extracted)
        \/ (exists l e,
               In l extracted
               /\ date_shaped (recorded_date l)
               /\ strptime_mdY (recorded_date l) = Raise e
               /\ is_ValueError e = true
               /\ _parse_liens markdown = Raise e)).
Proof.
  intros markdown.
  destruct (extract_liens_spec (split_lines markdown))
    as (ex & Hex & Hwf & _).
  exists ex. split; [exact Hex|].
  unfold _parse_liens. rewrite Hex. cbn [bind].
  unfold sort_by_recorded_date, sort_by.
  destruct (decorate_outcome
              (fun x => strptime_mdY (recorded_date x)) (map detect_hoa ex))
    as [(kl & Hkl) | (x & e & Hin & Hx & Hr)].
  - left. rewrite Hkl. cbn [bind]. eexists. split; [reflexivity|].
    apply decorate_spec in Hkl as [Hm Hk].
    rewrite Forall_forall in *. intros l Hl.
    assert (Hin : In (detect_hoa l) (map snd kl))
      by (rewrite Hm; now apply in_map).
    apply in_map_iff in Hin as (p & Hp & Hpin).
    exists (fst p). rewrite <- (Hk p Hpin), Hp.
    unfold detect_hoa. now destruct (hoa_match (grantor l)).
  - right. apply in_map_iff in Hin as (l & <- & Hl).
    assert (Hd : recorded_date (detect_hoa l) = recorded_date l)
      by (unfold detect_hoa; now destruct (hoa_match (grantor l))).
    rewrite Hd in Hx. exists l, e. rewrite Forall_forall in Hwf.
    split; [exact Hl|]. split; [apply (Hwf l Hl)|]. split; [exact Hx|].
    split; [|now rewrite Hr].
    pose proof (strptime_raises_ValueError (recorded_date l)) as Hv.
    now rewrite Hx in Hv.
Qed.

Lemma parse_liens_fails_on_impossible_date_only_witness :
  exists e,
    _parse_liens bad_date_markdown = Raise e /\ is_ValueError e = true.
Proof.
  destruct (parse_liens_fails_on_impossible_date_only bad_date_markdown)
    as (ex & _ & [(liens & H & _) | (l & e & _ & _ & _ & He & H)]).
  - vm_compute in H. discriminate H.
  - now exists e.
Defined.

(** ** More on [analyze_lien_priority] *)

(** X3. [analyze_lien_priority] files every record in at most one bucket:
    a record of type MTG in [mortgages], one of type JUDG in [judgments],
    one of type LIEN with a true [is_hoa] in [hoa_liens].  A LIEN without
    the flag, and a record of any other type, is counted in [total_liens]
    and summed in [total_encumbrance] but filed in no bucket. *)
Theorem analysis_buckets_partition :
  forall (liens : list lien),
    let a := analyze_lien_priority liens in
    let ranked := liens_after_analysis liens in
    List.length (mortgages a) + List.length (hoa_liens a)
    + List.length (judgments a) + List.length (filter unbucketed ranked)
    = total_liens a
    /\ (forall l, In l (mortgages a) <-> In l ranked /\ type l = "MTG")
    /\ (forall l, In l (judgments a) <-> In l ranked /\ type l = "JUDG")
    /\ (forall l, In l (hoa_liens a)
                  <-> In l ranked /\ type l = "LIEN"
                      /\ is_hoa l = Some true)
    /\ (forall l, type l = "LIEN" -> is_hoa l <> Some true ->
          ~ In l (mortgages a) /\ ~ In l (hoa_liens a)
          /\ ~ In l (judgments a)).
Proof.
  intros liens a ranked. subst a ranked.
  rewrite mortgages_closed, hoa_liens_closed, judgments_closed,
    total_liens_closed, liens_after_analysis_ranked.
  assert (Hm : forall l, is_type "MTG" l = true <-> type l = "MTG")
    by (intros; apply String.eqb_eq).
  assert (Hj : forall l, is_type "JUDG" l = true <-> type l = "JUDG")
    by (intros; apply String.eqb_eq).
  split.
  { rewrite <- (rank_from_length 0 liens).
    induction (rank_from 0 liens) as [|l ls IH]; [reflexivity|].
    cbn [filter List.length]. unfold unbucketed at 1.
    destruct (is_type "MTG" l) eqn:Em.
    - unfold hoa_risk at 1.
      rewrite (type_mtg_not_lien l Em), (type_mtg_not_judg l Em). cbn. lia.
    - destruct (hoa_risk l) eqn:Eh.
      + apply andb_true_iff in Eh as [El _].
        rewrite (type_lien_not_judg l El). cbn. lia.
      + destruct (is_type "JUDG" l); cbn; lia. }
  split; [intros l; rewrite filter_In, Hm; tauto|].
  split; [intros l; rewrite filter_In, Hj; tauto|].
  split; [intros l; rewrite filter_In, hoa_risk_spec; tauto|].
  intros l Ht Hh. rewrite !filter_In, Hm, Hj, hoa_risk_spec.
  repeat split; intros H; [| tauto |]; destruct H as [_ E]; congruence.
Qed.

Lemma analysis_buckets_partition_witness :
  let a := analyze_lien_priority (test_liens ++ [irs_lien]) in
  total_liens a = 3
  /\ List.length (mortgages a) + List.length (hoa_liens a)
     + List.length (judgments a) = 2.
Proof.
  cbv zeta.
  destruct (analysis_buckets_partition (test_liens ++ [irs_lien]))
    as (H & _).
  cbv zeta in H. split; [reflexivity|].
  assert (E : List.length
                (filter unbucketed
                   (liens_after_analysis (test_liens ++ [irs_lien]))) = 1)
    by reflexivity.
  rewrite E in H.
  assert (T : total_liens (analyze_lien_priority (test_liens ++ [irs_lien]))
              = 3) by reflexivity.
  rewrite T in H. lia.
Defined.

Lemma categorize_ignores_position st i l k :
  categorize st (i, set_priority_position l k) = categorize st (i, l).
Proof. destruct st. reflexivity. Qed.

Lemma loop_from_ignores_positions liens :
  forall n m st, loop_from n (rank_from m liens) st = loop_from n liens st.
Proof.
  induction liens as [|l ls IH]; intros n m st; [reflexivity|].
  rewrite rank_from_cons, !loop_from_cons, categorize_ignores_position.
  apply IH.
Qed.

(** X5. Analysing a list changes nothing in its records but the priority
    position, and analysing the list again gives the same analysis and
    the same list: earlier positions are overwritten, not accumulated. *)
Theorem analysis_is_idempotent :
  forall (liens : list lien),
    map unranked (liens_after_analysis liens) = map unranked liens
    /\ analyze_lien_priority (liens_after_analysis liens)
       = analyze_lien_priority liens
    /\ liens_after_analysis (liens_after_analysis liens)
       = liens_after_analysis liens.
Proof.
  intros liens. rewrite liens_after_analysis_ranked.
  assert (Hu : forall n, map unranked (rank_from n liens) = map unranked liens).
  { induction liens as [|l ls IH]; intros n; [reflexivity|].
    rewrite rank_from_cons. cbn [map]. now rewrite IH. }
  split; [apply Hu|].
  assert (Hs : analyze_lien_priority_state (rank_from 0 liens)
               = analyze_lien_priority_state liens).
  { assert (Hi : initial_analysis (rank_from 0 liens)
                 = initial_analysis liens).
    { assert (Ha : forall n, map amount (rank_from n liens)
                             = map amount liens).
      { clear. induction liens as [|l ls IH]; intros n; [reflexivity|].
        rewrite rank_from_cons. cbn [map]. now rewrite IH. }
      unfold initial_analysis. now rewrite rank_from_length, Ha. }
    unfold analyze_lien_priority_state, enumerate.
    change (fold_left categorize
              (combine (seq 0 (List.length (rank_from 0 liens)))
                 (rank_from 0 liens))
              ([], initial_analysis (rank_from 0 liens)))
      with (loop_from 0 (rank_from 0 liens)
              ([], initial_analysis (rank_from 0 liens))).
    now rewrite loop_from_ignores_positions, Hi. }
  split.
  - unfold analyze_lien_priority. now rewrite Hs.
  - unfold liens_after_analysis. rewrite Hs.
    apply liens_after_analysis_ranked.
Qed.

(** X6. For the records that [_parse_liens] returns, every record is of a
    known type, so the records filed in no bucket are exactly the liens
    whose creditor text matches no HOA keyword, and every HOA warning is
    about a creditor that matches one. *)
Theorem parsed_liens_outside_buckets :
  forall (markdown : string) (liens : list lien),
    _parse_liens markdown = Ret liens ->
    let a := analyze_lien_priority liens in
    (forall l, In l (liens_after_analysis liens) ->
       (unbucketed l = true
        <-> type l = "LIEN" /\ hoa_match (grantor l) = false))
    /\ (forall l, In l (hoa_liens a) -> hoa_match (grantor l) = true)
    /\ List.length (warnings a)
       = List.length (hoa_liens a)
         + (if 2 <? List.length (mortgages a) then 1 else 0).
Proof.
  intros markdown liens H a. subst a.
  pose proof (parsed_records _ _ H) as Hall.
  rewrite liens_after_analysis_ranked.
  assert (Hr : forall l, In l (rank_from 0 liens) ->
            In (type l) ["MTG"; "LIEN"; "JUDG"]
            /\ is_hoa l = Some (hoa_match (grantor l))).
  { intros l Hl. apply rank_from_In in Hl as (l0 & k & Hin & _ & ->).
    destruct (Hall l0 Hin) as (Ht & _ & _ & _ & Hh & _). now split. }
  split; [|split].
  - intros l Hl. destruct (Hr l Hl) as (Ht & Hh).
    unfold unbucketed, hoa_risk, is_type, truthy, get. rewrite Hh.
    set (b := hoa_match (grantor l)). clearbody b.
    destruct Ht as [E | [E | [E | []]]]; rewrite <- E; cbn;
      destruct b; cbn; intuition congruence.
  - intros l Hl. rewrite hoa_liens_closed in Hl.
    apply filter_In in Hl as [Hl Hrisk].
    apply hoa_risk_spec in Hrisk as [_ Hf].
    destruct (Hr l Hl) as (_ & Hh). congruence.
  - rewrite warnings_closed, hoa_liens_closed, mortgages_closed,
      length_app, length_map.
    now destruct (2 <? _).
Qed.

Lemma parsed_liens_outside_buckets_witness :
  List.length (warnings (analyze_lien_priority tied_liens)) = 1.
Proof.
  assert (H : _parse_liens tied_markdown = Ret tied_liens)
    by (vm_compute; reflexivity).
  destruct (parsed_liens_outside_buckets tied_markdown tied_liens H)
    as (_ & _ & E).
  rewrite E. reflexivity.
Defined.

(** ** More on [search_liens] *)

Section SearchFacts.

Variable firecrawl_scrape :
  string -> list string -> list action -> result (option scrape_json).
Variables (utcnow address : string) (parcel_id : option string).
Variables (include_mortgages include_liens include_judgments : bool).

Let outcome :=
  firecrawl_scrape
    (acclaim_url ++ "/search/SearchTypeName?SearchType=Image")%string
    ["markdown"]
    (build_actions address parcel_id include_mortgages include_liens
       include_judgments).

Let searched :=
  search_liens firecrawl_scrape utcnow address parcel_id include_mortgages
    include_liens include_judgments.

Lemma search_liens_answered r :
  outcome = Ret (Some r) -> truthy (success r) = true ->
  searched
  = match read_markdown r with
    | Raise e => Ret (SearchFailed (str_of_exn e) address)
    | Ret md =>
        match read_screenshot r with
        | Raise e => Ret (SearchFailed (str_of_exn e) address)
        | Ret shot =>
            match _parse_liens md with
            | Raise e => Ret (SearchFailed (str_of_exn e) address)
            | Ret liens =>
                Ret (SearchFound address parcel_id liens (List.length liens)
                       shot md utcnow)
            end
        end
    end.
Proof.
  intros Ho Hs. subst searched.
  unfold search_liens, search_body, try_except. fold outcome.
  rewrite Ho. cbn [bind]. rewrite Hs.
  destruct (read_markdown r) as [md|e1]; cbn [bind]; [|reflexivity].
  destruct (read_screenshot r) as [shot|e2]; cbn [bind]; [|reflexivity].
  now destruct (_parse_liens md).
Qed.

Lemma search_liens_found_iff :
  forall d, searched = Ret d ->
    (search_success d = true
     <-> exists r md shot liens,
           outcome = Ret (Some r) /\ truthy (success r) = true
           /\ read_markdown r = Ret md /\ read_screenshot r = Ret shot
           /\ _parse_liens md = Ret liens
           /\ d = SearchFound address parcel_id liens (List.length liens)
                    shot md utcnow).
Proof.
  intros d Hd. split.
  - intros Hsucc. revert Hd. subst searched.
    unfold search_liens, search_body, try_except. fold outcome.
    destruct outcome as [[r|]|e] eqn:Ho; cbn [bind].
    + destruct (truthy (success r)) eqn:Es.
      * destruct (read_markdown r) as [md|e1] eqn:E1; cbn [bind].
        -- destruct (read_screenshot r) as [shot|e2] eqn:E2; cbn [bind].
           ++ destruct (_parse_liens md) as [liens|e3] eqn:E3; cbn [bind].
              ** intros [= <-]. now exists r, md, shot, liens.
              ** intros [= <-]. discriminate Hsucc.
           ++ intros [= <-]. discriminate Hsucc.
        -- intros [= <-]. discriminate Hsucc.
      * intros [= <-]. discriminate Hsucc.
    + intros [= <-]. discriminate Hsucc.
    + intros [= <-]. discriminate Hsucc.
  - now intros (r & md & shot & liens & _ & _ & _ & _ & _ & ->).
Qed.

End SearchFacts.

(** X7. [search_liens] reports success exactly when the scrape answers
    with a true [success], the answer holds a markdown and a screenshot
    can be read, and [_parse_liens] returns on the markdown; the dict then
    carries the address and parcel id of the call, the parsed records with
    their count, the screenshot, the markdown and the time stamp. *)
Theorem search_liens_succeeds_iff :
  forall (firecrawl_scrape :
            string -> list string -> list action
            -> result (option scrape_json))
         (utcnow address : string) (parcel_id : option string)
         (include_mortgages include_liens include_judgments : bool),
    let outcome :=
      firecrawl_scrape
        (acclaim_url ++ "/search/SearchTypeName?SearchType=Image")%string
        ["markdown"]
        (build_actions address parcel_id include_mortgages include_liens
           include_judgments) in
    exists d,
      search_liens firecrawl_scrape utcnow address parcel_id
        include_mortgages include_liens include_judgments = Ret d
      /\ (search_success d = true
          <-> exists r md shot liens,
                outcome = Ret (Some r) /\ truthy (success r) = true
                /\ read_markdown r = Ret md /\ read_screenshot r = Ret shot
                /\ _parse_liens md = Ret liens
                /\ d = SearchFound address parcel_id liens
                         (List.length liens) shot md utcnow).
Proof.
  intros scrape utcnow address parcel_id im il ij outcome.
  assert (Hd : exists d,
             search_liens scrape utcnow address parcel_id im il ij = Ret d).
  { unfold search_liens, try_except.
    destruct (search_body _ _ _ _ _) as [d|e]; eauto. }
  destruct Hd as (d & Hd). exists d. split; [exact Hd|].
  now apply search_liens_found_iff.
Qed.

(** X8. A scrape that succeeds but whose answer lists no screenshot (an
    empty [screenshots] list) makes [search_liens] report a failure,
    "list index out of range", whatever the markdown holds. *)
Theorem search_liens_fails_without_screenshot :
  forall (firecrawl_scrape :
            string -> list string -> list action
            -> result (option scrape_json))
         (utcnow address : string) (parcel_id : option string)
         (include_mortgages include_liens include_judgments : bool)
         (md : string),
    firecrawl_scrape
      (acclaim_url ++ "/search/SearchTypeName?SearchType=Image")%string
      ["markdown"]
      (build_actions address parcel_id include_mortgages include_liens
         include_judgments)
    = Ret (Some (answer md (Some []))) ->
    search_liens firecrawl_scrape utcnow address parcel_id
      include_mortgages include_liens include_judgments
    = Ret (SearchFailed "list index out of range" address).
Proof.
  intros scrape utcnow address parcel_id im il ij md Ho.
  now rewrite (search_liens_answered _ _ _ _ _ _ _ _ Ho eq_refl).
Qed.

Lemma search_liens_fails_without_screenshot_witness :
  search_liens (mock_scrape test_markdown []) "2025-01-07T12:00:00"
    "123 Main St" (Some "2517790") true true true
  = Ret (SearchFailed "list index out of range" "123 Main St").
Proof.
  apply (search_liens_fails_without_screenshot
           (mock_scrape test_markdown []) "2025-01-07T12:00:00"
           "123 Main St" (Some "2517790") true true true test_markdown).
  reflexivity.
Defined.

(** X9. When the scraped markdown makes [_parse_liens] raise, that is when
    one matched line has a date that is no calendar date, [search_liens]
    reports a failure with the text of that exception: the records of the
    other lines are not returned. *)
Theorem search_liens_fails_on_impossible_date :
  forall (firecrawl_scrape :
            string -> list string -> list action
            -> result (option scrape_json))
         (utcnow address : string) (parcel_id : option string)
         (include_mortgages include_liens include_judgments : bool)
         (md : string) (shots : option (list (option string))) (e : exn),
    firecrawl_scrape
      (acclaim_url ++ "/search/SearchTypeName?SearchType=Image")%string
      ["markdown"]
      (build_actions address parcel_id include_mortgages include_liens
         include_judgments)
    = Ret (Some (answer md shots)) ->
    _parse_liens md = Raise e ->
    exists msg,
      search_liens firecrawl_scrape utcnow address parcel_id
        include_mortgages include_liens include_judgments
      = Ret (SearchFailed msg address)
      /\ (shots <> Some [] -> msg = str_of_exn e /\ is_ValueError e = true).
Proof.
  intros scrape utcnow address parcel_id im il ij md shots e Ho He.
  rewrite (search_liens_answered _ _ _ _ _ _ _ _ Ho eq_refl).
  cbn [read_markdown answer data markdown].
  assert (Hv : is_ValueError e = true).
  { exact (parse_liens_raises_ValueError md e He). }
  unfold read_screenshot. cbn [answer data actions screenshots get].
  destruct shots as [[|x shots]|]; cbn; rewrite ?He;
    eexists; (split; [reflexivity|]); intros Hn;
    try contradiction; now split.
Qed.

Lemma search_liens_fails_on_impossible_date_witness :
  exists msg,
    search_liens
      (mock_scrape bad_date_markdown [Some "https://example.com/shot.png"])
      "2025-01-07T12:00:00" "123 Main St" None true true true
    = Ret (SearchFailed msg "123 Main St").
Proof.
  assert (H : exists e, _parse_liens bad_date_markdown = Raise e).
  { eexists. vm_compute. reflexivity. }
  destruct H as (e & He).
  destruct (search_liens_fails_on_impossible_date
              (mock_scrape bad_date_markdown
                 [Some "https://example.com/shot.png"])
              "2025-01-07T12:00:00" "123 Main St" None true true true
              bad_date_markdown
              (Some [Some "https://example.com/shot.png"]) e eq_refl He)
    as (msg & H & _).
  now exists msg.
Defined.

(** X10. Behind the real client, every HTTP answer with a status other
    than 200 ends in a failure report of [search_liens]: a status from 400
    to 599 through the [HTTPError] of [raise_for_status], any other status
    because [scrape] then returns nothing, which [search_liens] reports as
    the attribute error on [None]. *)
Theorem search_liens_fails_on_http_status :
  forall (post : string -> payload -> result http_response)
         (utcnow address : string) (parcel_id : option string)
         (include_mortgages include_liens include_judgments : bool),
    (forall u p, exists resp,
        post u p = Ret resp /\ status_code resp <> 200) ->
    exists msg,
      search_liens (scrape_method post) utcnow address parcel_id
        include_mortgages include_liens include_judgments
      = Ret (SearchFailed msg address)
      /\ ((forall u p resp, post u p = Ret resp ->
             status_code resp < 400 \/ 600 <= status_code resp) ->
          msg = "'NoneType' object has no attribute 'get'").
Proof.
  intros post utcnow address parcel_id im il ij Hpost.
  unfold search_liens, search_body, try_except, scrape_method, scrape.
  match goal with
  | |- context [post ?u ?p] =>
      destruct (Hpost u p) as (resp & Hr & Hs); rewrite Hr
  end.
  cbn [bind]. apply Nat.eqb_neq in Hs. rewrite Hs.
  unfold raise_for_status.
  destruct ((400 <=? status_code resp) && (status_code resp <? 500)) eqn:E4;
    [|destruct ((500 <=? status_code resp) && (status_code resp <? 600))
        eqn:E5]; cbn [bind];
    (eexists; split; [reflexivity|]); intros Hrange.
  - apply andb_true_iff in E4 as [Ha Hb].
    apply Nat.leb_le in Ha. apply Nat.ltb_lt in Hb.
    destruct (Hrange _ _ _ Hr); lia.
  - apply andb_true_iff in E5 as [Ha Hb].
    apply Nat.leb_le in Ha. apply Nat.ltb_lt in Hb.
    destruct (Hrange _ _ _ Hr); lia.
  - reflexivity.
Qed.

Lemma search_liens_fails_on_http_status_witness :
  search_liens (scrape_method no_content) "2025-01-07T12:00:00"
    "4127 ARLINGTON AVE" None true true true
  = Ret (SearchFailed "'NoneType' object has no attribute 'get'"
           "4127 ARLINGTON AVE").
Proof.
  destruct (search_liens_fails_on_http_status no_content
              "2025-01-07T12:00:00" "4127 ARLINGTON AVE" None true true true)
    as (msg & H & Hmsg).
  - intros u p. eexists. split; [reflexivity|]. cbn. discriminate.
  - rewrite H. f_equal. f_equal. apply Hmsg.
    intros u p resp [= <-]. cbn. lia.
Defined.

(** X11. The browser actions of a search hold exactly one text entry; it
    carries the parcel id when one is given and is not empty, and the
    address otherwise.  One checkbox is clicked for each selected document
    type, and the sequence ends with the screenshot. *)
Theorem search_actions_carry_one_query :
  forall (address : string) (parcel_id : option string)
         (include_mortgages include_liens include_judgments : bool),
    let acts :=
      build_actions address parcel_id include_mortgages include_liens
        include_judgments in
    filter is_write acts
    = [ActWrite "input[name='NameSearchModel.SearchCriteria']"
         (match parcel_id with
          | Some p => if String.eqb p "" then address else p
          | None => address
          end)]
    /\ List.length (filter is_type_click acts)
       = count_true [include_mortgages; include_liens; include_judgments]
    /\ List.length acts
       = 6 + 2 * count_true
                 [include_mortgages; include_liens; include_judgments]
    /\ last acts (ActWait 0) = ActScreenshot.
Proof.
  intros address parcel_id im il ij acts. subst acts.
  assert (Hq : search_text address parcel_id
               = match parcel_id with
                 | Some p => if String.eqb p "" then address else p
                 | None => address
                 end).
  { destruct parcel_id as [[|c p]|]; reflexivity. }
  rewrite <- Hq. clear Hq.
  destruct im, il, ij; repeat split; reflexivity.
Qed.

(** ** More on [_combine_results] *)

Lemma recommend_warnings flagged mtgs equity :
  let rec := fst (Workflow.recommend flagged mtgs equity) in
  let ws := Workflow.build_warnings flagged mtgs equity in
  (rec = "BID" <-> ws = [])
  /\ (rec = "REVIEW"
      <-> exists msg, ws = [Workflow.COMPLEX_TITLE "MEDIUM" msg])
  /\ (rec = "SKIP" <-> existsb is_skip_warning ws = true)
  /\ (rec = "BID" \/ rec = "REVIEW" \/ rec = "SKIP").
Proof.
  unfold Workflow.recommend, Workflow.build_warnings, Workflow.when.
  destruct (Workflow.nonempty flagged), (Qltb equity 10000),
    (2 <? List.length mtgs); cbn;
    (split; [split; [discriminate || reflexivity
                    | discriminate || reflexivity]|]);
    (split; [split; [discriminate || (intros _; eexists; reflexivity)
                    | intros (msg & E); discriminate E || reflexivity]|]);
    (split; [split; [discriminate || reflexivity
                    | discriminate || reflexivity]|]);
    auto.
Qed.

(** X12. On a successful search the recommendation and the warnings of
    [_combine_results] always agree: BID goes with no warning at all,
    REVIEW with the complex-title warning alone, and SKIP with an HOA or an
    insufficient-equity warning; there is no fourth recommendation. *)
Theorem recommendation_agrees_with_warnings :
  forall (utcnow : string) (bcpao : Workflow.bcpao_data)
         (acclaimweb : Workflow.acclaimweb_result),
    Workflow.success acclaimweb = true ->
    exists r,
      Workflow._combine_results utcnow bcpao acclaimweb = Workflow.Combined r
      /\ let ia := Workflow.r_investment_analysis r in
         (Workflow.recommendation ia = "BID" <-> Workflow.warnings ia = [])
         /\ (Workflow.recommendation ia = "REVIEW"
             <-> exists msg,
                   Workflow.warnings ia
                   = [Workflow.COMPLEX_TITLE "MEDIUM" msg])
         /\ (Workflow.recommendation ia = "SKIP"
             <-> existsb is_skip_warning (Workflow.warnings ia) = true)
         /\ (Workflow.recommendation ia = "BID"
             \/ Workflow.recommendation ia = "REVIEW"
             \/ Workflow.recommendation ia = "SKIP").
Proof.
  intros utcnow bcpao acclaimweb Hs.
  destruct (combine_results_report utcnow bcpao acclaimweb Hs)
    as (r & Hr & _ & _ & _ & _ & _ & _ & _ & _ & _ & _ & Hrec & _ & Hw).
  exists r. split; [exact Hr|]. cbv zeta. rewrite Hrec, Hw.
  apply recommend_warnings.
Qed.

Lemma recommendation_agrees_with_warnings_witness :
  exists r,
    Workflow._combine_results "2025-01-07T12:00:00"
      (a_valuation (Some 300000%Q) (Some 280000%Q))
      (agent_found [a_document "MTG" 100000 false])
    = Workflow.Combined r
    /\ Workflow.warnings (Workflow.r_investment_analysis r) = [].
Proof.
  destruct (recommendation_agrees_with_warnings "2025-01-07T12:00:00"
              (a_valuation (Some 300000%Q) (Some 280000%Q))
              (agent_found [a_document "MTG" 100000 false]) eq_refl)
    as (r & Hr & Hbid & _).
  exists r. split; [exact Hr|]. apply Hbid.
  injection Hr as <-. reflexivity.
Defined.

Lemma Qsum_app xs ys : (Qsum (xs ++ ys) == Qsum xs + Qsum ys)%Q.
Proof.
  unfold Qsum. induction xs as [|x xs IH]; cbn [app fold_right].
  - ring.
  - rewrite IH. ring.
Qed.

Lemma Qsum_nonneg xs : Forall (fun x => (0 <= x)%Q) xs -> (0 <= Qsum xs)%Q.
Proof.
  induction 1 as [|x xs Hx _ IH]; cbn [Qsum fold_right]; [apply Qle_refl|].
  fold (Qsum xs). rewrite <- (Qplus_0_r 0). now apply Qplus_le_compat.
Qed.

Lemma standing_recommend flagged mtgs equity flagged' mtgs' equity' :
  (Workflow.nonempty flagged = true -> Workflow.nonempty flagged' = true) ->
  List.length mtgs <= List.length mtgs' ->
  (equity' <= equity)%Q ->
  standing (fst (Workflow.recommend flagged' mtgs' equity'))
  <= standing (fst (Workflow.recommend flagged mtgs equity)).
Proof.
  intros Hf Hm He. unfold Workflow.recommend.
  destruct (Workflow.nonempty flagged) eqn:Ef.
  - rewrite (Hf eq_refl). cbn. lia.
  - destruct (Qltb equity 10000) eqn:El.
    + apply Qltb_true_iff in El.
      assert (El' : Qltb equity' 10000 = true).
      { apply Qltb_true_iff. eapply Qle_lt_trans; eassumption. }
      rewrite El'. destruct (Workflow.nonempty flagged'); cbn; lia.
    + destruct (2 <? List.length mtgs) eqn:E2.
      * apply Nat.ltb_lt in E2.
        assert (E2' : (2 <? List.length mtgs') = true)
          by (apply Nat.ltb_lt; lia).
        rewrite E2'.
        destruct (Workflow.nonempty flagged'), (Qltb equity' 10000);
          cbn; lia.
      * destruct (Workflow.nonempty flagged'), (Qltb equity' 10000),
          (2 <? List.length mtgs'); cbn; lia.
Qed.

(** X13. Further documents never improve the outcome: with the same
    valuation, documents added to the list (amounts not negative) leave
    the equity the same or lower and the recommendation the same or less
    favourable, in the order SKIP, REVIEW, BID. *)
Theorem more_documents_never_improve :
  forall (utcnow : string) (bcpao : Workflow.bcpao_data)
         (docs extra : list Workflow.document),
    Forall (fun d => (0 <= amount_or_zero d)%Q) extra ->
    exists r r',
      Workflow._combine_results utcnow bcpao (agent_found docs)
      = Workflow.Combined r
      /\ Workflow._combine_results utcnow bcpao (agent_found (docs ++ extra))
         = Workflow.Combined r'
      /\ (Workflow.max_bid_equity_70pct (Workflow.r_investment_analysis r')
          <= Workflow.max_bid_equity_70pct (Workflow.r_investment_analysis r))%Q
      /\ standing (Workflow.recommendation (Workflow.r_investment_analysis r'))
         <= standing (Workflow.recommendation
                        (Workflow.r_investment_analysis r)).
Proof.
  intros utcnow bcpao docs extra Hx.
  destruct (combine_results_report utcnow bcpao (agent_found docs) eq_refl)
    as (r & Hr & _ & _ & _ & _ & _ & _ & _ & _ & _ & Heq & Hrec & _).
  destruct (combine_results_report utcnow bcpao (agent_found (docs ++ extra))
              eq_refl)
    as (r' & Hr' & _ & _ & _ & _ & _ & _ & _ & _ & _ & Heq' & Hrec' & _).
  exists r, r'. split; [exact Hr|]. split; [exact Hr'|].
  rewrite Heq, Heq', Hrec, Hrec'.
  change (Workflow.documents_of (agent_found docs)) with docs.
  change (Workflow.documents_of (agent_found (docs ++ extra)))
    with (docs ++ extra).
  assert (He : (max2 (get (Workflow.assessed_value bcpao) 0)
                  (get (Workflow.just_value bcpao) 0) * (7 # 10)
                - sum (map (fun d => get (Workflow.amount d) 0%Q)
                         (docs ++ extra)) - 10000
                <= max2 (get (Workflow.assessed_value bcpao) 0)
                     (get (Workflow.just_value bcpao) 0) * (7 # 10)
                   - sum (map (fun d => get (Workflow.amount d) 0%Q) docs)
                   - 10000)%Q).
  { rewrite !sum_Qsum, map_app, Qsum_app.
    assert (H0 : (0 <= Qsum (map (fun d => get (Workflow.amount d) 0%Q)
                               extra))%Q).
    { apply Qsum_nonneg, Forall_map. exact Hx. }
    set (x := Qsum (map _ extra)) in *. clearbody x.
    set (v := (max2 _ _ * (7 # 10))%Q). clearbody v.
    set (t := Qsum (map _ docs)). clearbody t.
    apply Qle_minus_iff. ring_simplify. exact H0. }
  split; [exact He|].
  apply standing_recommend; [| |exact He].
  - rewrite filter_app.
    destruct (filter _ docs); [discriminate | reflexivity].
  - unfold Workflow.of_type. rewrite filter_app, length_app. lia.
Qed.

Lemma more_documents_never_improve_witness :
  exists r r',
    Workflow._combine_results "2025-01-07T12:00:00"
      (a_valuation (Some 300000%Q) None)
      (agent_found [a_document "MTG" 100000 false])
    = Workflow.Combined r
    /\ Workflow._combine_results "2025-01-07T12:00:00"
         (a_valuation (Some 300000%Q) None)
         (agent_found ([a_document "MTG" 100000 false] ++ [flagged_document]))
       = Workflow.Combined r'
    /\ standing (Workflow.recommendation (Workflow.r_investment_analysis r'))
       <= standing (Workflow.recommendation
                      (Workflow.r_investment_analysis r)).
Proof.
  destruct (more_documents_never_improve "2025-01-07T12:00:00"
              (a_valuation (Some 300000%Q) None)
              [a_document "MTG" 100000 false] [flagged_document])
    as (r & r' & Hr & Hr' & _ & H).
  - repeat constructor. discriminate.
  - now exists r, r'.
Defined.

Lemma typed_counts (docs : list Workflow.document) :
  List.length (Workflow.of_type "MTG" docs)
  + List.length (Workflow.of_type "LIEN" docs)
  + List.length (Workflow.of_type "JUDG" docs)
  + List.length (filter untyped_document docs)
  = List.length docs.
Proof.
  unfold Workflow.of_type, untyped_document.
  induction docs as [|d docs IH]; [reflexivity|].
  cbn [filter List.length].
  destruct (String.eqb_spec (Workflow.document_type d) "MTG") as [E|_].
  - rewrite E. cbn. lia.
  - destruct (String.eqb_spec (Workflow.document_type d) "LIEN") as [E|_].
    + rewrite E. cbn. lia.
    + destruct (String.eqb (Workflow.document_type d) "JUDG"); cbn; lia.
Qed.

(** X14. In the report of [_combine_results] the counts of mortgages,
    other liens and judgments add up to the number of documents less those
    of an unknown type, the HOA count cannot exceed the number of
    documents, and a first position is reported exactly when the mortgage
    count is not zero. *)
Theorem report_counts_are_consistent :
  forall (utcnow : string) (bcpao : Workflow.bcpao_data)
         (acclaimweb : Workflow.acclaimweb_result),
    Workflow.success acclaimweb = true ->
    exists r,
      Workflow._combine_results utcnow bcpao acclaimweb = Workflow.Combined r
      /\ let la := Workflow.r_lien_analysis r in
         Workflow.mortgages la + Workflow.other_liens la
         + Workflow.judgments la
         + List.length (filter untyped_document (Workflow.liens r))
         = Workflow.total_liens la
         /\ Workflow.total_liens la = List.length (Workflow.liens r)
         /\ Workflow.hoa_liens la <= Workflow.total_liens la
         /\ (Workflow.first_position la <> None
             <-> 0 < Workflow.mortgages la).
Proof.
  intros utcnow bcpao acclaimweb Hs.
  destruct (combine_results_report utcnow bcpao acclaimweb Hs)
    as (r & Hr & Hl & Htl & _ & Hm & Ho & Hj & Hh & Hfp & _).
  exists r. split; [exact Hr|]. cbv zeta.
  rewrite Hl, Htl, Hm, Ho, Hj, Hh, Hfp.
  split; [apply typed_counts|]. split; [reflexivity|].
  split; [apply filter_length_le|].
  destruct (Workflow.of_type "MTG" (Workflow.documents_of acclaimweb));
    cbn; split; (congruence || lia || discriminate).
Qed.

Lemma report_counts_are_consistent_witness :
  exists r,
    Workflow._combine_results "2025-01-07T12:00:00"
      (a_valuation None (Some 200000%Q))
      (agent_found [a_document "MTG" 100000 false;
                    a_document "UCC" 2000 false])
    = Workflow.Combined r
    /\ Workflow.mortgages (Workflow.r_lien_analysis r)
       + Workflow.other_liens (Workflow.r_lien_analysis r)
       + Workflow.judgments (Workflow.r_lien_analysis r) + 1
       = Workflow.total_liens (Workflow.r_lien_analysis r).
Proof.
  destruct (report_counts_are_consistent "2025-01-07T12:00:00"
              (a_valuation None (Some 200000%Q))
              (agent_found [a_document "MTG" 100000 false;
                            a_document "UCC" 2000 false]) eq_refl)
    as (r & Hr & H & _).
  exists r. split; [exact Hr|].
  injection Hr as <-. exact H.
Defined.

(** X15. When the agent answer holds no documents, the report shows no
    lien and the recommendation rests on the valuation alone: BID when
    seven tenths of the value reach 20000, that is from a value of
    200000/7 on, and SKIP for insufficient equity below; REVIEW cannot
    occur. *)
Theorem no_documents_recommendation :
  forall (utcnow : string) (bcpao : Workflow.bcpao_data)
         (acclaimweb : Workflow.acclaimweb_result),
    Workflow.success acclaimweb = true ->
    Workflow.documents_of acclaimweb = [] ->
    exists r,
      Workflow._combine_results utcnow bcpao acclaimweb = Workflow.Combined r
      /\ let la := Workflow.r_lien_analysis r in
         let ia := Workflow.r_investment_analysis r in
         Workflow.total_liens la = 0
         /\ Workflow.total_encumbrance la = 0%Q
         /\ ((200000 # 7 <= valuation_arv bcpao)%Q ->
             Workflow.recommendation ia = "BID"
             /\ Workflow.warnings ia = [])
         /\ ((valuation_arv bcpao < 200000 # 7)%Q ->
             Workflow.recommendation ia = "SKIP"
             /\ Workflow.reason ia = "Insufficient equity after liens").
Proof.
  intros utcnow bcpao acclaimweb Hs Hd.
  destruct (combine_results_report utcnow bcpao acclaimweb Hs)
    as (r & Hr & _ & Htl & Hte & _ & _ & _ & _ & _ & _ & _ & Hrec & Hrsn
        & Hw).
  exists r. split; [exact Hr|]. cbv zeta.
  rewrite Htl, Hte, Hrec, Hrsn, Hw, Hd.
  fold (valuation_arv bcpao). set (v := valuation_arv bcpao).
  cbn [List.length map filter Workflow.of_type].
  change (sum []) with 0%Q.
  unfold Workflow.recommend, Workflow.build_warnings, Workflow.when.
  cbn [Workflow.nonempty List.length Nat.ltb Nat.leb app].
  split; [reflexivity|]. split; [reflexivity|]. split; intros Hv.
  - assert (E : Qltb (v * (7 # 10) - 0 - 10000) 10000 = false).
    { apply Qltb_false_iff.
      apply (Qmult_le_compat_r _ _ (7 # 10)) in Hv; [|discriminate].
      apply Qle_minus_iff. apply Qle_minus_iff in Hv.
      setoid_replace (v * (7 # 10) - 0 - 10000 + - (10000))%Q
        with (v * (7 # 10) + - ((200000 # 7) * (7 # 10)))%Q by ring.
      exact Hv. }
    rewrite E. now split.
  - assert (E : Qltb (v * (7 # 10) - 0 - 10000) 10000 = true).
    { apply Qltb_true_iff.
      apply (Qmult_lt_compat_r _ _ (7 # 10)) in Hv; [|reflexivity].
      apply Qlt_minus_iff. apply Qlt_minus_iff in Hv.
      setoid_replace (10000 + - (v * (7 # 10) - 0 - 10000))%Q
        with ((200000 # 7) * (7 # 10) + - (v * (7 # 10)))%Q by ring.
      exact Hv. }
    rewrite E. now split.
Qed.

Lemma no_documents_recommendation_witness :
  exists r,
    Workflow._combine_results "2025-01-07T12:00:00"
      (a_valuation (Some 28000%Q) None) agent_silent
    = Workflow.Combined r
    /\ Workflow.recommendation (Workflow.r_investment_analysis r) = "SKIP".
Proof.
  destruct (no_documents_recommendation "2025-01-07T12:00:00"
              (a_valuation (Some 28000%Q) None) agent_silent
              eq_refl eq_refl)
    as (r & Hr & _ & _ & _ & H).
  exists r. split; [exact Hr|]. apply H. reflexivity.
Defined.

(** ** [discover_liens] *)

Section DiscoverFacts.

Variable requests_get : string -> string -> result Discovery.bcpao_response.
Variable requests_post :
  string -> Discovery.agent_request -> result Discovery.agent_response.
Variable utcnow : string.
Variable parcel_id : string.
Variables (include_mortgages include_liens include_judgments : bool).

Let lookup := requests_get Discovery.bcpao_base_url parcel_id.
Let discovered :=
  Discovery.discover_liens requests_get requests_post utcnow parcel_id
    include_mortgages include_liens include_judgments.

Lemma get_owner_outcome :
  Discovery._get_owner_from_bcpao requests_get parcel_id
  = match lookup with
    | Raise e =>
        if Discovery.is_RequestException e then
          Ret (Discovery.OwnerFailed
                 ("BCPAO API request failed: " ++ str_of_exn e))
        else Raise e
    | Ret response =>
        if negb (Discovery.b_status_code response =? 200) then
          Ret (Discovery.OwnerFailed
                 ("BCPAO API returned status "
                  ++ str_of_nat (Discovery.b_status_code response)))
        else
          match Discovery.b_json response with
          | Raise e =>
              if Discovery.is_RequestException e then
                Ret (Discovery.OwnerFailed
                       ("BCPAO API request failed: " ++ str_of_exn e))
              else Raise e
          | Ret data =>
              if String.eqb (strip (get (Discovery.ownerName data) "")) ""
              then Ret (Discovery.OwnerFailed
                          "Owner name not found in BCPAO data")
              else
                Ret (Discovery.OwnerFound
                       {| Workflow.parcel_id := parcel_id;
                          Workflow.owner_name :=
                            strip (get (Discovery.ownerName data) "");
                          Workflow.address :=
                            strip (get (Discovery.propertyAddress data) "");
                          Workflow.assessed_value :=
                            Some (get (Discovery.assessedValue data) 0%Q);
                          Workflow.just_value :=
                            Some (get (Discovery.justValue data) 0%Q);
                          Workflow.living_area :=
                            Some (get (Discovery.livingArea data) 0%Q);
                          Workflow.year_built :=
                            Some (get (Discovery.yearBuilt data) 0%Q) |}
                       data)
          end
    end.
Proof.
  unfold Discovery._get_owner_from_bcpao, try_except. fold lookup.
  destruct lookup as [response|e]; cbn [bind]; [|reflexivity].
  destruct (negb (Discovery.b_status_code response =? 200)); [reflexivity|].
  destruct (Discovery.b_json response) as [data|e]; cbn [bind];
    [|reflexivity].
  now destruct (String.eqb _ "").
Qed.

Lemma search_acclaimweb_outcome owner_name address :
  Discovery._search_acclaimweb requests_post owner_name address
    include_mortgages include_liens include_judgments
  = match requests_post (Discovery.firecrawl_base_url ++ "/agent")
            (Discovery.agent_request_for owner_name address
               include_mortgages include_liens include_judgments) with
    | Raise e =>
        if Discovery.is_RequestException e then
          Ret (Discovery.failed_search
                 ("Firecrawl Agent request failed: " ++ str_of_exn e))
        else Raise e
    | Ret response =>
        if negb (Discovery.a_status_code response =? 200) then
          Ret (Discovery.failed_search
                 ("Firecrawl Agent returned status "
                  ++ str_of_nat (Discovery.a_status_code response)))
        else
          match Discovery.a_json response with
          | Raise e =>
              if Discovery.is_RequestException e then
                Ret (Discovery.failed_search
                       ("Firecrawl Agent request failed: "
                        ++ str_of_exn e))
              else Raise e
          | Ret result =>
              Ret {| Workflow.success := true; Workflow.error := None;
                     Workflow.agent_result :=
                       Some (Discovery.agent_output_of result);
                     Workflow.credits_used :=
                       Some (Discovery.credits_of result) |}
          end
    end.
Proof.
  unfold Discovery._search_acclaimweb, try_except.
  destruct (requests_post _ _) as [response|e]; cbn [bind]; [|reflexivity].
  destruct (negb (Discovery.a_status_code response =? 200)); [reflexivity|].
  now destruct (Discovery.a_json response).
Qed.

End DiscoverFacts.

(** X16. [discover_liens] stops at a failed owner lookup, with the error
    "Failed to get property owner from BCPAO" and the cause as details: a
    status other than 200, an owner name that is missing or blank once
    stripped, or a [RequestException] of the request.  The result is then
    the same whatever the agent would answer. *)
Theorem discover_liens_stops_at_failed_lookup :
  forall (requests_get :
            string -> string -> result Discovery.bcpao_response)
         (requests_post :
            string -> Discovery.agent_request
            -> result Discovery.agent_response)
         (utcnow parcel_id : string)
         (include_mortgages include_liens include_judgments : bool),
    let lookup := requests_get Discovery.bcpao_base_url parcel_id in
    let discovered :=
      Discovery.discover_liens requests_get requests_post utcnow parcel_id
        include_mortgages include_liens include_judgments in
    let failed details :=
      Ret (Discovery.DiscoveryFailed
             "Failed to get property owner from BCPAO" details) in
    (forall response,
        lookup = Ret response -> Discovery.b_status_code response <> 200 ->
        discovered
        = failed ("BCPAO API returned status "
                  ++ str_of_nat (Discovery.b_status_code response))%string)
    /\ (forall response data,
           lookup = Ret response -> Discovery.b_status_code response = 200 ->
           Discovery.b_json response = Ret data ->
           strip (get (Discovery.ownerName data) "") = "" ->
           discovered = failed "Owner name not found in BCPAO data")
    /\ (forall e,
           lookup = Raise e -> Discovery.is_RequestException e = true ->
           discovered
           = failed ("BCPAO API request failed: " ++ str_of_exn e)%string).
Proof.
  intros get post utcnow parcel_id im il ij lookup discovered failed.
  subst discovered failed. unfold Discovery.discover_liens.
  rewrite get_owner_outcome. fold lookup.
  split; [|split].
  - intros response -> Hs. apply Nat.eqb_neq in Hs. now rewrite Hs.
  - intros response data -> Hs Hj Ho. rewrite Hs, Hj, Ho. reflexivity.
  - intros e -> He. now rewrite He.
Qed.

Lemma discover_liens_stops_at_failed_lookup_witness :
  Discovery.discover_liens bcpao_not_found (agent_ok []) "2025-01-07T12:00:00"
    "2517790" true true true
  = Ret (Discovery.DiscoveryFailed "Failed to get property owner from BCPAO"
           "BCPAO API returned status 404").
Proof.
  refine (proj1 (discover_liens_stops_at_failed_lookup bcpao_not_found
                   (agent_ok []) "2025-01-07T12:00:00" "2517790"
                   true true true) _ eq_refl _).
  cbn. discriminate.
Defined.

(** X17. [discover_liens] lets through what is no [RequestException]: an
    exception of another class raised by the owner lookup, or by the
    decoding of its answer, is raised by [discover_liens] itself, and
    [discover_liens] never raises a [RequestException]. *)
Theorem discover_liens_raises_other_exceptions :
  forall (requests_get :
            string -> string -> result Discovery.bcpao_response)
         (requests_post :
            string -> Discovery.agent_request
            -> result Discovery.agent_response)
         (utcnow parcel_id : string)
         (include_mortgages include_liens include_judgments : bool),
    let lookup := requests_get Discovery.bcpao_base_url parcel_id in
    let discovered :=
      Discovery.discover_liens requests_get requests_post utcnow parcel_id
        include_mortgages include_liens include_judgments in
    (forall e, lookup = Raise e -> Discovery.is_RequestException e = false ->
               discovered = Raise e)
    /\ (forall response e,
           lookup = Ret response -> Discovery.b_status_code response = 200 ->
           Discovery.b_json response = Raise e ->
           Discovery.is_RequestException e = false ->
           discovered = Raise e)
    /\ (forall e, discovered = Raise e ->
                  Discovery.is_RequestException e = false).
Proof.
  intros get post utcnow parcel_id im il ij lookup discovered.
  subst discovered. unfold Discovery.discover_liens.
  rewrite get_owner_outcome. fold lookup.
  split; [|split].
  - intros e -> He. now rewrite He.
  - intros response e -> Hs Hj He. now rewrite Hs, Hj, He.
  - intros e.
    assert (Hpost : forall d e0,
              bind (Discovery._search_acclaimweb post (Workflow.owner_name d)
                      (Workflow.address d) im il ij)
                (fun a => Ret (Discovery.Discovered
                                 (Workflow._combine_results utcnow d a)))
              = Raise e0 -> Discovery.is_RequestException e0 = false).
    { intros d e0. rewrite search_acclaimweb_outcome.
      destruct (post _ _) as [response|e1].
      - destruct (negb (Discovery.a_status_code response =? 200));
          [discriminate|].
        destruct (Discovery.a_json response) as [aj|e1]; [discriminate|].
        destruct (Discovery.is_RequestException e1) eqn:E1; [discriminate|].
        now intros [= <-].
      - destruct (Discovery.is_RequestException e1) eqn:E1; [discriminate|].
        now intros [= <-]. }
    destruct lookup as [response|e1].
    + destruct (negb (Discovery.b_status_code response =? 200));
        [discriminate|].
      destruct (Discovery.b_json response) as [data|e1].
      * destruct (String.eqb _ ""); [discriminate|]. cbn [bind].
        apply Hpost.
      * destruct (Discovery.is_RequestException e1) eqn:E1; [discriminate|].
        now intros [= <-].
    + destruct (Discovery.is_RequestException e1) eqn:E1; [discriminate|].
      now intros [= <-].
Qed.

Lemma discover_liens_raises_other_exceptions_witness :
  Discovery.discover_liens bcpao_garbled (agent_ok []) "2025-01-07T12:00:00"
    "2517790" true true true
  = Raise (ValueError "Expecting value").
Proof.
  refine (proj1 (proj2 (discover_liens_raises_other_exceptions bcpao_garbled
                          (agent_ok []) "2025-01-07T12:00:00" "2517790"
                          true true true)) _ _ eq_refl eq_refl eq_refl
            eq_refl).
Defined.

(** X18. After a successful owner lookup, an agent that answers with a
    status other than 200, or whose request raises a [RequestException],
    makes [discover_liens] return the failure dict of [_combine_results]:
    "AcclaimWeb search failed", with the property data found and the cause
    as [acclaimweb_error]. *)
Theorem discover_liens_reports_agent_failure :
  forall (requests_get :
            string -> string -> result Discovery.bcpao_response)
         (requests_post :
            string -> Discovery.agent_request
            -> result Discovery.agent_response)
         (utcnow parcel_id : string)
         (include_mortgages include_liens include_judgments : bool)
         (d : Workflow.bcpao_data) (raw : Discovery.bcpao_json),
    Discovery._get_owner_from_bcpao requests_get parcel_id
    = Ret (Discovery.OwnerFound d raw) ->
    let asked :=
      requests_post (Discovery.firecrawl_base_url ++ "/agent")%string
        (Discovery.agent_request_for (Workflow.owner_name d)
           (Workflow.address d) include_mortgages include_liens
           include_judgments) in
    let discovered :=
      Discovery.discover_liens requests_get requests_post utcnow parcel_id
        include_mortgages include_liens include_judgments in
    let failed cause :=
      Ret (Discovery.Discovered
             (Workflow.CombineFailed "AcclaimWeb search failed" d
                (Some cause))) in
    (forall response,
        asked = Ret response -> Discovery.a_status_code response <> 200 ->
        discovered
        = failed ("Firecrawl Agent returned status "
                  ++ str_of_nat (Discovery.a_status_code response))%string)
    /\ (forall e,
           asked = Raise e -> Discovery.is_RequestException e = true ->
           discovered
           = failed ("Firecrawl Agent request failed: "
                     ++ str_of_exn e)%string).
Proof.
  intros get post utcnow parcel_id im il ij d raw Hd asked discovered failed.
  subst discovered failed. unfold Discovery.discover_liens.
  rewrite Hd. cbn [bind]. rewrite search_acclaimweb_outcome. fold asked.
  split.
  - intros response -> Hs. apply Nat.eqb_neq in Hs. now rewrite Hs.
  - intros e -> He. now rewrite He.
Qed.

Lemma discover_liens_reports_agent_failure_witness :
  exists d,
    Discovery.discover_liens bcpao_ok agent_down "2025-01-07T12:00:00"
      "2517790" true true true
    = Ret (Discovery.Discovered
             (Workflow.CombineFailed "AcclaimWeb search failed" d
                (Some "Firecrawl Agent request failed: Connection refused")))
    /\ Workflow.owner_name d = "JOHN DOE".
Proof.
  eexists. split.
  - refine (proj2 (discover_liens_reports_agent_failure bcpao_ok agent_down
                     "2025-01-07T12:00:00" "2517790" true true true _ _ _)
              (RequestException "Connection refused") eq_refl eq_refl).
    reflexivity.
  - reflexivity.
Defined.

(** X19. When the owner lookup answers 200 with an owner name that is not
    blank and the agent answers 200, [discover_liens] returns the report
    of [_combine_results]: the agent was asked about the stripped owner
    name and address, the report shows them with the parcel id and the
    values of the lookup (0 for a missing one), its liens are the
    documents of the agent output, and its recommendation is the one of
    the decision table. *)
Theorem discover_liens_reports :
  forall (requests_get :
            string -> string -> result Discovery.bcpao_response)
         (requests_post :
            string -> Discovery.agent_request
            -> result Discovery.agent_response)
         (utcnow parcel_id : string)
         (include_mortgages include_liens include_judgments : bool)
         (response : Discovery.bcpao_response) (data : Discovery.bcpao_json)
         (answered : Discovery.agent_response) (result : Discovery.agent_json),
    let owner := strip (get (Discovery.ownerName data) "") in
    let address := strip (get (Discovery.propertyAddress data) "") in
    requests_get Discovery.bcpao_base_url parcel_id = Ret response ->
    Discovery.b_status_code response = 200 ->
    Discovery.b_json response = Ret data ->
    owner <> "" ->
    requests_post (Discovery.firecrawl_base_url ++ "/agent")%string
      (Discovery.agent_request_for owner address include_mortgages
         include_liens include_judgments) = Ret answered ->
    Discovery.a_status_code answered = 200 ->
    Discovery.a_json answered = Ret result ->
    exists r,
      Discovery.discover_liens requests_get requests_post utcnow parcel_id
        include_mortgages include_liens include_judgments
      = Ret (Discovery.Discovered (Workflow.Combined r))
      /\ Workflow.p_parcel_id (Workflow.r_property r) = parcel_id
      /\ Workflow.p_owner_name (Workflow.r_property r) = owner
      /\ Workflow.p_address (Workflow.r_property r) = address
      /\ Workflow.p_assessed_value (Workflow.r_property r)
         = get (Discovery.assessedValue data) 0%Q
      /\ Workflow.p_just_value (Workflow.r_property r)
         = get (Discovery.justValue data) 0%Q
      /\ Workflow.liens r
         = get (Workflow.documents (Discovery.agent_output_of result)) []
      /\ Workflow.recommendation (Workflow.r_investment_analysis r)
         = label (Spec.decision_table
                    (Workflow.hoa_liens (Workflow.r_lien_analysis r))
                    (Workflow.max_bid_equity_70pct
                       (Workflow.r_investment_analysis r))
                    (Workflow.mortgages (Workflow.r_lien_analysis r))).
Proof.
  intros rget post utcnow parcel_id im il ij response data answered result
    owner address Hg Hs Hj Ho Hp Has Haj.
  unfold Discovery.discover_liens. rewrite get_owner_outcome, Hg, Hs, Hj.
  fold owner. fold address.
  destruct (String.eqb_spec owner "") as [E|_]; [contradiction|].
  cbn [negb Nat.eqb bind Workflow.owner_name Workflow.address].
  rewrite search_acclaimweb_outcome, Hp, Has, Haj. cbn [negb Nat.eqb bind].
  unfold Workflow._combine_results. cbn [Workflow.success negb].
  destruct (Workflow.recommend _ _ _) as [rec rsn] eqn:Erec.
  eexists. split; [reflexivity|].
  cbn [Workflow.r_property Workflow.p_parcel_id Workflow.p_owner_name
       Workflow.p_address Workflow.p_assessed_value Workflow.p_just_value
       Workflow.liens Workflow.r_investment_analysis Workflow.recommendation
       Workflow.r_lien_analysis Workflow.hoa_liens
       Workflow.max_bid_equity_70pct Workflow.mortgages
       Workflow.parcel_id Workflow.owner_name Workflow.address
       Workflow.assessed_value Workflow.just_value get].
  do 6 (split; [reflexivity|]).
  change rec with (fst (rec, rsn)). rewrite <- Erec.
  apply recommend_decision_table.
Qed.

Lemma discover_liens_reports_witness :
  exists r,
    Discovery.discover_liens bcpao_ok
      (agent_ok [a_document "MTG" 100000 false]) "2025-01-07T12:00:00"
      "2517790" true true false
    = Ret (Discovery.Discovered (Workflow.Combined r))
    /\ Workflow.p_owner_name (Workflow.r_property r) = "JOHN DOE"
    /\ Workflow.liens r = [a_document "MTG" 100000 false].
Proof.
  destruct (discover_liens_reports bcpao_ok
              (agent_ok [a_document "MTG" 100000 false])
              "2025-01-07T12:00:00" "2517790" true true false
              {| Discovery.b_status_code := 200;
                 Discovery.b_json := Ret bcpao_answer |}
              bcpao_answer
              {| Discovery.a_status_code := 200; Discovery.a_text := "";
                 Discovery.a_json :=
                   Ret (agent_answer [a_document "MTG" 100000 false]) |}
              (agent_answer [a_document "MTG" 100000 false]))
    as (r & Hr & _ & Ho & _ & _ & _ & Hl & _); try reflexivity.
  - intros H. vm_compute in H. discriminate H.
  - exists r. split; [exact Hr|]. split; [exact Ho | exact Hl].
Defined.

(** * Properties of the amounts as binary64 values *)

(** ** Whole numbers below 2^53 are added and subtracted exactly *)

Section Binary64Facts.

Local Open Scope Z_scope.

Lemma iter_xO_value (w n : positive) :
  Zpos (Pos.iter xO w n) = Zpos w * 2 ^ Zpos n.
Proof.
  induction n as [|n IH] using Pos.peano_ind.
  - cbn [Pos.iter]. rewrite Z.pow_1_r. lia.
  - rewrite Pos.iter_succ, Pos2Z.inj_succ, Z.pow_succ_r by lia.
    rewrite Pos2Z.inj_xO, IH. ring.
Qed.

Lemma shiftl_value (w : positive) (k : N) :
  Zpos (Pos.shiftl w k) = Zpos w * 2 ^ Z.of_N k.
Proof.
  destruct k as [|n]; cbn [Pos.shiftl Z.of_N].
  - rewrite Z.pow_0_r. lia.
  - apply iter_xO_value.
Qed.

Lemma digits_iter_xO (w n : positive) :
  Zpos (digits2_pos (Pos.iter xO w n)) = Zpos (digits2_pos w) + Zpos n.
Proof.
  induction n as [|n IH] using Pos.peano_ind.
  - cbn [Pos.iter digits2_pos]. lia.
  - rewrite Pos.iter_succ. cbn [digits2_pos]. lia.
Qed.

Lemma digits_shiftl (w : positive) (k : N) :
  Zpos (digits2_pos (Pos.shiftl w k)) = Zpos (digits2_pos w) + Z.of_N k.
Proof.
  destruct k as [|n]; cbn [Pos.shiftl Z.of_N]; [lia|].
  apply digits_iter_xO.
Qed.

Lemma digits_size (p : positive) : digits2_pos p = Pos.size p.
Proof. induction p; cbn; congruence. Qed.

Lemma digits_bound (p : positive) :
  Zpos p < 2 ^ 53 -> Zpos (digits2_pos p) <= 53.
Proof.
  intros H. rewrite digits_size.
  pose proof (Pos.size_le p) as Hs.
  destruct (Z.le_gt_cases (Zpos (Pos.size p)) 53) as [|Hgt]; [assumption|].
  exfalso.
  assert (H54 : 2 ^ 54 <= 2 ^ Zpos (Pos.size p))
    by (apply Z.pow_le_mono_r; lia).
  assert (Hp : 2 ^ Zpos (Pos.size p) <= 2 * Zpos p).
  { change 2 with (Zpos 2) at 1. rewrite <- Pos2Z.inj_pow.
    change (2 * Zpos p) with (Zpos (p~0)). apply Pos2Z.pos_le_pos, Hs. }
  change (2 ^ 54) with (2 * 2 ^ 53) in H54. lia.
Qed.

(** shifting out bits that are zero loses nothing *)
Lemma shr_zero_bits (n w : positive) :
  iter_pos shr_1 n (Build_shr_record (Zpos (Pos.iter xO w n)) false false)
  = Build_shr_record (Zpos w) false false.
Proof.
  revert w. induction n as [n IH|n IH|]; intros w; cbn [iter_pos Pos.iter].
  - cbn [shr_1 orb]. now rewrite !IH.
  - now rewrite !IH.
  - reflexivity.
Qed.

Lemma fexp_digits (d : Z) :
  1 <= d -> fexp Binary64.prec Binary64.emax d = d - 53.
Proof. intros H. unfold fexp, emin, Binary64.prec, Binary64.emax. lia. Qed.

(** a mantissa of exactly 53 bits is kept as it is *)
Lemma binary_round_aux_53 (m : positive) (e : Z) :
  Zpos (digits2_pos m) = 53 -> -1074 <= e <= 971 ->
  binary_round_aux Binary64.prec Binary64.emax false (Zpos m) e loc_Exact
  = S754_finite false m e.
Proof.
  intros Hd He.
  assert (Hf : fexp Binary64.prec Binary64.emax (Zdigits2 (Zpos m) + e) - e
               = 0).
  { cbn [Zdigits2]. rewrite Hd.
    unfold fexp, emin, Binary64.prec, Binary64.emax. lia. }
  unfold binary_round_aux, shr_fexp.
  rewrite Hf. cbn [shr shr_record_of_loc shr_m loc_of_shr_record
                     round_nearest_even].
  rewrite Hf. cbn [shr shr_record_of_loc shr_m].
  unfold Binary64.emax, Binary64.prec.
  destruct (Z.leb_spec e (1024 - 53)); [reflexivity | lia].
Qed.

(** rounding [v * 2^k / 2^k] gives the float of [v] *)
Lemma binary_round_exact (M v : positive) (k : Z) :
  0 <= k <= 52 ->
  Zpos M = Zpos v * 2 ^ k ->
  Zpos (digits2_pos v) <= 53 ->
  binary_round Binary64.prec Binary64.emax false M (- k) = canon v.
Proof.
  intros Hk HM Hv.
  assert (EM : M = Pos.shiftl v (Z.to_N k)).
  { apply Pos2Z.inj. rewrite HM, shiftl_value, Z2N.id by lia. reflexivity. }
  pose proof (Pos2Z.is_pos (digits2_pos v)) as Hpos.
  assert (HdM : Zpos (digits2_pos M) = Zpos (digits2_pos v) + k).
  { rewrite EM, digits_shiftl, Z2N.id by lia. reflexivity. }
  unfold binary_round.
  rewrite HdM.
  replace (Zpos (digits2_pos v) + k + - k) with (Zpos (digits2_pos v)) by lia.
  rewrite fexp_digits by lia.
  unfold shl_align.
  destruct (Zpos (digits2_pos v) - 53 - - k) as [|t|t] eqn:Et.
  - (* the mantissa has 53 bits already *)
    rewrite binary_round_aux_53 by lia.
    unfold canon. f_equal; [|lia].
    rewrite EM. f_equal. lia.
  - (* more than 53 bits: the low bits are zeros *)
    unfold binary_round_aux, shr_fexp.
    cbn [Zdigits2]. rewrite HdM.
    replace (Zpos (digits2_pos v) + k + - k) with (Zpos (digits2_pos v))
      by lia.
    rewrite fexp_digits by lia. rewrite Et.
    cbn [shr shr_record_of_loc].
    assert (EM' : M = Pos.iter xO
                        (Pos.shiftl v (Z.to_N (53 - Zpos (digits2_pos v)))) t).
    { apply Pos2Z.inj. rewrite HM, iter_xO_value, shiftl_value.
      rewrite Z2N.id by lia. rewrite <- Z.mul_assoc, <- Z.pow_add_r by lia.
      do 2 f_equal. lia. }
    set (w := Pos.shiftl v (Z.to_N (53 - Zpos (digits2_pos v)))) in *.
    assert (Hs : iter_pos shr_1 t (Build_shr_record (Zpos M) false false)
                 = Build_shr_record (Zpos w) false false)
      by (rewrite EM'; apply shr_zero_bits).
    rewrite !Hs.
    cbn [shr_m loc_of_shr_record round_nearest_even].
    assert (Hw : Zpos (digits2_pos w) = 53).
    { unfold w. rewrite digits_shiftl, Z2N.id by lia. lia. }
    cbn [Zdigits2]. rewrite Hw.
    replace (fexp Binary64.prec Binary64.emax (53 + (- k + Zpos t))
             - (- k + Zpos t)) with 0
      by (unfold fexp, emin, Binary64.prec, Binary64.emax; lia).
    cbn [shr shr_m]. unfold Binary64.emax, Binary64.prec.
    destruct (Z.leb_spec (- k + Zpos t) (1024 - 53)); [|lia].
    unfold canon. fold w. f_equal. lia.
  - (* fewer than 53 bits: shifted to the left *)
    assert (Hd : Zpos (digits2_pos (Pos.iter xO M t)) = 53).
    { rewrite digits_iter_xO, HdM. lia. }
    rewrite binary_round_aux_53 by (rewrite ?Hd; lia).
    unfold canon. f_equal.
    apply Pos2Z.inj. rewrite iter_xO_value, HM, shiftl_value.
    rewrite Z2N.id by lia. rewrite <- Z.mul_assoc, <- Z.pow_add_r by lia.
    do 2 f_equal. lia.
Qed.

Lemma of_Z_pos (v : positive) :
  Zpos v < 2 ^ 53 -> Binary64.of_Z (Zpos v) = canon v.
Proof.
  intros H. unfold Binary64.of_Z, binary_normalize.
  apply (binary_round_exact v v 0); [lia | rewrite Z.pow_0_r; lia |].
  now apply digits_bound.
Qed.

Lemma shl_align_value (m : positive) (e e' : Z) :
  e' <= e ->
  Zpos (fst (shl_align m e e')) = Zpos m * 2 ^ (e - e').
Proof.
  intros H. unfold shl_align.
  destruct (e' - e) as [|t|t] eqn:Et; cbn [fst].
  - replace (e - e') with 0 by lia. rewrite Z.pow_0_r. lia.
  - lia.
  - rewrite iter_xO_value. do 2 f_equal. lia.
Qed.

Lemma canon_value (v : positive) :
  Zpos (digits2_pos v) <= 53 ->
  exists m e, canon v = S754_finite false m e
              /\ e = Zpos (digits2_pos v) - 53
              /\ Zpos m = Zpos v * 2 ^ (- e).
Proof.
  intros H. eexists _, _. split; [reflexivity|]. split; [reflexivity|].
  pose proof (Pos2Z.is_pos (digits2_pos v)).
  rewrite shiftl_value, Z2N.id by lia. do 2 f_equal. lia.
Qed.

Lemma add_canon (a b : positive) :
  Zpos a + Zpos b < 2 ^ 53 ->
  Binary64.add (canon a) (canon b) = canon (a + b).
Proof.
  intros H.
  assert (Ha : Zpos (digits2_pos a) <= 53) by (apply digits_bound; lia).
  assert (Hb : Zpos (digits2_pos b) <= 53) by (apply digits_bound; lia).
  assert (Hab : Zpos (digits2_pos (a + b)) <= 53)
    by (apply digits_bound; lia).
  destruct (canon_value a Ha) as (ma & ea & -> & Hea & Hma).
  destruct (canon_value b Hb) as (mb & eb & -> & Heb & Hmb).
  pose proof (Pos2Z.is_pos (digits2_pos a)).
  pose proof (Pos2Z.is_pos (digits2_pos b)).
  unfold Binary64.add, SFadd. cbn [cond_Zopp].
  set (ez := Z.min ea eb).
  assert (Hez : -52 <= ez <= 0) by (unfold ez; lia).
  rewrite <- Pos2Z.inj_add. cbn [binary_normalize].
  replace ez with (- (- ez)) at 3 by lia.
  apply binary_round_exact; [lia | | assumption].
  rewrite Pos2Z.inj_add, !shl_align_value by (unfold ez; lia).
  rewrite Hma, Hmb, <- !Z.mul_assoc, <- !Z.pow_add_r by (unfold ez; lia).
  replace (- ea + (ea - ez)) with (- ez) by lia.
  replace (- eb + (eb - ez)) with (- ez) by lia.
  rewrite Pos2Z.inj_add. ring.
Qed.

Lemma of_Z_zero_or_canon (z : Z) :
  0 <= z < 2 ^ 53 ->
  (z = 0 /\ Binary64.of_Z z = Binary64.zero)
  \/ (exists v, z = Zpos v /\ Binary64.of_Z z = canon v).
Proof.
  intros H. destruct z as [|v|v]; [now left | right | lia].
  exists v. split; [reflexivity|]. apply of_Z_pos. lia.
Qed.

(** the sum of two whole numbers is exact while it stays below 2^53 *)
Lemma add_of_Z (a b : Z) :
  0 <= a -> 0 <= b -> a + b < 2 ^ 53 ->
  Binary64.add (Binary64.of_Z a) (Binary64.of_Z b) = Binary64.of_Z (a + b).
Proof.
  intros Ha Hb H.
  destruct (of_Z_zero_or_canon a) as [[-> Ea] | (va & -> & Ea)]; [lia| |];
    destruct (of_Z_zero_or_canon b) as [[-> Eb] | (vb & -> & Eb)];
    try lia; rewrite ?Ea, ?Eb.
  - reflexivity.
  - cbn [Z.add]. rewrite of_Z_pos by lia. reflexivity.
  - rewrite Z.add_0_r, of_Z_pos by lia. reflexivity.
  - rewrite <- Pos2Z.inj_add, of_Z_pos by lia. apply add_canon. lia.
Qed.

Lemma sub_canon (a b : positive) :
  Zpos b < Zpos a < 2 ^ 53 ->
  Binary64.sub (canon a) (canon b) = canon (a - b).
Proof.
  intros H.
  assert (Ha : Zpos (digits2_pos a) <= 53) by (apply digits_bound; lia).
  assert (Hb : Zpos (digits2_pos b) <= 53) by (apply digits_bound; lia).
  assert (Hab : Zpos (digits2_pos (a - b)) <= 53)
    by (apply digits_bound; lia).
  destruct (canon_value a Ha) as (ma & ea & -> & Hea & Hma).
  destruct (canon_value b Hb) as (mb & eb & -> & Heb & Hmb).
  pose proof (Pos2Z.is_pos (digits2_pos a)).
  pose proof (Pos2Z.is_pos (digits2_pos b)).
  unfold Binary64.sub, SFsub. cbn [cond_Zopp].
  set (ez := Z.min ea eb).
  assert (Hez : -52 <= ez <= 0) by (unfold ez; lia).
  assert (Hv : Zpos (fst (shl_align ma ea ez))
               - Zpos (fst (shl_align mb eb ez))
               = Zpos (a - b) * 2 ^ (- ez)).
  { rewrite !shl_align_value by (unfold ez; lia).
    rewrite Hma, Hmb, <- !Z.mul_assoc, <- !Z.pow_add_r by (unfold ez; lia).
    replace (- ea + (ea - ez)) with (- ez) by lia.
    replace (- eb + (eb - ez)) with (- ez) by lia.
    rewrite Pos2Z.inj_sub by lia. ring. }
  assert (Hp : 0 < 2 ^ (- ez)) by (apply Z.pow_pos_nonneg; lia).
  destruct (Zpos (fst (shl_align ma ea ez))
            - Zpos (fst (shl_align mb eb ez))) as [|M|M] eqn:EM.
  - exfalso. pose proof (Pos2Z.is_pos (a - b)). nia.
  - cbn [binary_normalize].
    replace ez with (- (- ez)) at 1 by lia.
    apply binary_round_exact; [lia | exact Hv | assumption].
  - exfalso. pose proof (Pos2Z.is_pos (a - b)).
    pose proof (Pos2Z.neg_is_neg M). nia.
Qed.

(** so is the difference of two whole numbers *)
Lemma sub_of_Z (a b : Z) :
  0 <= b <= a -> a < 2 ^ 53 ->
  Binary64.sub (Binary64.of_Z a) (Binary64.of_Z b) = Binary64.of_Z (a - b).
Proof.
  intros Hb Ha.
  destruct (Z.eq_dec a b) as [<- | Hne].
  - rewrite Z.sub_diag.
    destruct (of_Z_zero_or_canon a) as [[-> Ea] | (va & -> & Ea)]; [lia| |].
    + reflexivity.
    + rewrite Ea. unfold canon, Binary64.sub, SFsub. cbn [cond_Zopp].
      rewrite Z.sub_diag. reflexivity.
  - destruct (of_Z_zero_or_canon a) as [[-> Ea] | (va & -> & Ea)]; [lia| |];
      destruct (of_Z_zero_or_canon b) as [[-> Eb] | (vb & -> & Eb)];
      try lia; rewrite ?Ea, ?Eb.
    + rewrite Z.sub_0_r, of_Z_pos by lia. reflexivity.
    + rewrite <- Pos2Z.inj_sub, of_Z_pos by lia. apply sub_canon. lia.
Qed.

Lemma Zsum_nonneg (ns : list Z) :
  Forall (fun n => 0 <= n) ns -> 0 <= Zsum ns.
Proof.
  induction 1 as [|n ns Hn _ IH]; cbn [Zsum fold_right]; [lia|].
  fold (Zsum ns). lia.
Qed.


Lemma fold_add_of_Z (ns : list Z) :
  forall acc,
    0 <= acc -> Forall (fun n => 0 <= n) ns -> acc + Zsum ns < 2 ^ 53 ->
    fold_left Binary64.add (map Binary64.of_Z ns) (Binary64.of_Z acc)
    = Binary64.of_Z (acc + Zsum ns).
Proof.
  induction ns as [|n ns IH]; intros acc Hacc Hns Hlt;
    cbn [map fold_left Zsum fold_right] in *.
  - now rewrite Z.add_0_r.
  - fold (Zsum ns) in *. inversion Hns as [|? ? Hn Hns']; subst.
    pose proof (Zsum_nonneg ns Hns').
    rewrite add_of_Z by lia. rewrite IH by (auto; lia).
    f_equal. lia.
Qed.

(** a left-to-right sum of whole amounts is their exact total while that
    stays below 2^53 *)
Lemma sum_of_Z (ns : list Z) :
  Forall (fun n => 0 <= n) ns -> Zsum ns < 2 ^ 53 ->
  Binary64.sum (map Binary64.of_Z ns) = Binary64.of_Z (Zsum ns).
Proof.
  intros Hns Hlt. unfold Binary64.sum.
  change Binary64.zero with (Binary64.of_Z 0).
  now rewrite fold_add_of_Z.
Qed.


End Binary64Facts.

(** ** [analyze_lien_priority] on binary64 amounts in closed form *)

Lemma categorize64_keeps st item :
  Firecrawl64.total_encumbrance (snd (Firecrawl64.categorize st item))
  = Firecrawl64.total_encumbrance (snd st)
  /\ Firecrawl64.encumbrance_summary (snd (Firecrawl64.categorize st item))
     = Firecrawl64.encumbrance_summary (snd st).
Proof.
  destruct st as [seen a], item as [idx l].
  unfold Firecrawl64.categorize. cbv beta iota zeta. cbn [snd].
  repeat match goal with
         | |- context [if ?c then _ else _] => destruct c
         end; split; reflexivity.
Qed.

Lemma categorize64_first_position st idx l :
  Firecrawl64.first_position (snd (Firecrawl64.categorize st (idx, l)))
  = if String.eqb (Firecrawl64.type l) "MTG" && (idx =? 0)%nat
    then Some (Firecrawl64.set_priority_position l (idx + 1))
    else Firecrawl64.first_position (snd st).
Proof.
  destruct st as [seen a].
  unfold Firecrawl64.categorize. cbv beta iota zeta.
  cbn [snd Firecrawl64.type Firecrawl64.set_priority_position
       Firecrawl64.is_hoa].
  destruct (String.eqb (Firecrawl64.type l) "MTG"); cbn [andb].
  - now destruct (idx =? 0)%nat.
  - repeat match goal with
           | |- context [if ?c then _ else _] => destruct c
           end; reflexivity.
Qed.

Lemma loop64_keeps items :
  forall st,
    Firecrawl64.total_encumbrance
      (snd (fold_left Firecrawl64.categorize items st))
    = Firecrawl64.total_encumbrance (snd st)
    /\ Firecrawl64.encumbrance_summary
         (snd (fold_left Firecrawl64.categorize items st))
       = Firecrawl64.encumbrance_summary (snd st).
Proof.
  induction items as [|item items IH]; intros st; cbn [fold_left];
    [now split|].
  destruct (IH (Firecrawl64.categorize st item)) as [-> ->].
  apply categorize64_keeps.
Qed.

Lemma loop64_first_position items :
  forall st,
    Forall (fun item : nat * Firecrawl64.lien => fst item <> 0) items ->
    Firecrawl64.first_position
      (snd (fold_left Firecrawl64.categorize items st))
    = Firecrawl64.first_position (snd st).
Proof.
  induction items as [|[idx l] items IH]; intros st H; cbn [fold_left];
    [reflexivity|].
  inversion H as [|? ? Hi Hrest]; subst. cbn [fst] in Hi.
  rewrite IH by assumption. rewrite categorize64_first_position.
  apply Nat.eqb_neq in Hi. rewrite Hi, andb_false_r. reflexivity.
Qed.

Lemma later_indices {A} (ls : list A) :
  Forall (fun item : nat * A => fst item <> 0)
    (combine (seq 1 (List.length ls)) ls).
Proof.
  apply Forall_forall. intros [idx l] Hin. cbn [fst].
  apply in_combine_l, in_seq in Hin. lia.
Qed.

Lemma analyze64_closed liens :
  let a := Firecrawl64.analyze_lien_priority liens in
  let t := Binary64.sum (map Firecrawl64.amount liens) in
  Firecrawl64.total_encumbrance a = t
  /\ Firecrawl64.encumbrance_summary a
     = if Binary64.ltb Binary64.zero t then
         Some {| Firecrawl64.total := t;
                 Firecrawl64.first_mortgage := leading_mortgage_amount64 liens;
                 Firecrawl64.other_liens :=
                   Binary64.sub t (leading_mortgage_amount64 liens) |}
       else None.
Proof.
  cbv zeta.
  unfold Firecrawl64.analyze_lien_priority,
    Firecrawl64.analyze_lien_priority_state.
  pose proof (loop64_keeps (Firecrawl.enumerate liens)
                ([], Firecrawl64.initial_analysis liens)) as [Ht Hs].
  assert (Hf : Firecrawl64.first_position_amount
                 (snd (fold_left Firecrawl64.categorize
                         (Firecrawl.enumerate liens)
                         ([], Firecrawl64.initial_analysis liens)))
               = leading_mortgage_amount64 liens).
  { unfold Firecrawl64.first_position_amount, Firecrawl.enumerate.
    destruct liens as [|l ls]; [reflexivity|].
    cbn [List.length seq combine fold_left].
    rewrite loop64_first_position by apply later_indices.
    rewrite categorize64_first_position.
    cbn [Nat.eqb andb_true_r leading_mortgage_amount64].
    rewrite andb_true_r.
    now destruct (String.eqb (Firecrawl64.type l) "MTG"). }
  destruct (fold_left Firecrawl64.categorize (Firecrawl.enumerate liens)
              ([], Firecrawl64.initial_analysis liens)) as [seen a0].
  cbn [snd Firecrawl64.initial_analysis Firecrawl64.total_encumbrance
       Firecrawl64.encumbrance_summary] in Ht, Hs, Hf.
  assert (Hw : forall w,
             Firecrawl64.total_encumbrance (Firecrawl64.append_warning a0 w)
             = Firecrawl64.total_encumbrance a0
             /\ Firecrawl64.encumbrance_summary
                  (Firecrawl64.append_warning a0 w)
                = Firecrawl64.encumbrance_summary a0
             /\ Firecrawl64.first_position_amount
                  (Firecrawl64.append_warning a0 w)
                = Firecrawl64.first_position_amount a0)
    by (intros w; repeat split; reflexivity).
  set (a1 := if 2 <? List.length (Firecrawl64.mortgages a0)
             then Firecrawl64.append_warning a0 _ else a0).
  assert (H1 : Firecrawl64.total_encumbrance a1
               = Binary64.sum (map Firecrawl64.amount liens)
               /\ Firecrawl64.encumbrance_summary a1 = None
               /\ Firecrawl64.first_position_amount a1
                  = leading_mortgage_amount64 liens).
  { unfold a1. destruct (2 <? List.length (Firecrawl64.mortgages a0)).
    - destruct (Hw (Firecrawl64.multiple_mortgages_warning
                      (List.length (Firecrawl64.mortgages a0))))
        as (-> & -> & ->). auto.
    - auto. }
  clearbody a1. destruct H1 as (H1t & H1s & H1f).
  cbn [snd]. rewrite H1t, H1f.
  destruct (Binary64.ltb Binary64.zero
              (Binary64.sum (map Firecrawl64.amount liens)));
    cbn [Firecrawl64.set_encumbrance_summary Firecrawl64.total_encumbrance
         Firecrawl64.encumbrance_summary]; auto.
Qed.

(** ** [_combine_results] on binary64 amounts: the report *)

Section Combined64.

Variable utcnow : string.
Variable bcpao : Workflow64.bcpao_data.
Variable acclaimweb : Workflow64.acclaimweb_result.
Hypothesis found : Workflow64.success acclaimweb = true.

Let docs := Workflow64.documents_of acclaimweb.
Let flagged := filter (fun d => truthy (Workflow64.hoa_lien d)) docs.
Let mtgs := Workflow64.of_type "MTG" docs.
Let encumbrance := Binary64.sum (map amount_or_zero64 docs).
Let value :=
  Binary64.max (get (Workflow64.assessed_value bcpao) Binary64.zero)
    (get (Workflow64.just_value bcpao) Binary64.zero).
Let equity := equity_estimate_binary64 value encumbrance.

Lemma combine_results64_report :
  exists r,
    Workflow64._combine_results utcnow bcpao acclaimweb
    = Workflow64.Combined r
    /\ Workflow64.liens r = docs
    /\ Workflow64.total_encumbrance (Workflow64.r_lien_analysis r)
       = encumbrance
    /\ Workflow64.mortgages (Workflow64.r_lien_analysis r) = List.length mtgs
    /\ Workflow64.hoa_liens (Workflow64.r_lien_analysis r)
       = List.length flagged
    /\ Workflow64.arv (Workflow64.r_investment_analysis r) = value
    /\ Workflow64.max_bid_equity_70pct (Workflow64.r_investment_analysis r)
       = equity
    /\ Workflow64.recommendation (Workflow64.r_investment_analysis r)
       = fst (Workflow64.recommend flagged mtgs equity)
    /\ Workflow64.reason (Workflow64.r_investment_analysis r)
       = snd (Workflow64.recommend flagged mtgs equity).
Proof.
  unfold Workflow64._combine_results. rewrite found. cbn [negb].
  fold docs. fold flagged. fold mtgs.
  change (fun lien => get (Workflow64.amount lien) Binary64.zero)
    with amount_or_zero64.
  fold encumbrance. fold value.
  change (Binary64.sub
            (Binary64.sub (Binary64.mul value Binary64.seven_tenths)
               encumbrance) (Binary64.of_Z 10000)) with equity.
  destruct (Workflow64.recommend flagged mtgs equity) as [rec rsn].
  eexists. split; [reflexivity|]. cbn. repeat split; reflexivity.
Qed.

End Combined64.

Lemma recommend64_decision_table flagged mtgs equity :
  fst (Workflow64.recommend flagged mtgs equity)
  = label (decision_table_binary64 (List.length flagged) equity
             (List.length mtgs)).
Proof.
  unfold Workflow64.recommend, decision_table_binary64.
  rewrite nonempty_length.
  destruct (0 <? List.length flagged); [reflexivity|].
  destruct (Binary64.ltb equity (Binary64.of_Z 10000)); [reflexivity|].
  now destruct (2 <? List.length mtgs).
Qed.

(** ** The recommendation *)

(** The literal [0.70] is the rounded quotient of 7 by 10, and it lies
    below 7/10. *)
Example seven_tenths_is_rounded :
  Binary64.seven_tenths = Binary64.div (Binary64.of_Z 7) (Binary64.of_Z 10)
  /\ exists q, Binary64.exact Binary64.seven_tenths = Some q
               /\ (q < 7 # 10)%Q.
Proof.
  split; [reflexivity|]. eexists. split; [reflexivity|]. reflexivity.
Qed.

(** C1, as the claim states it.  With a value of 41000 and one mortgage of
    8700 the equity of the claim's formula is 10000, which is not below
    10000, so that the decision table gives Bid; the code computes
    [41000 * 0.70] as 28699.999999999996, reports an equity below 10000
    and recommends SKIP for insufficient equity. *)
Lemma equity_rounding_counterexample :
  exists r equity,
    Workflow64._combine_results "2025-01-07T12:00:00"
      (a_valuation64 (Some (Binary64.of_Z 35000))
         (Some (Binary64.of_Z 41000)))
      (agent_found64 [a_document64 "MTG" (Binary64.of_Z 8700)])
    = Workflow64.Combined r
    /\ Binary64.exact (Workflow64.arv (Workflow64.r_investment_analysis r))
       = Some (41000 # 1)%Q
    /\ Binary64.exact
         (Workflow64.total_encumbrance (Workflow64.r_lien_analysis r))
       = Some (8700 # 1)%Q
    /\ Workflow64.hoa_liens (Workflow64.r_lien_analysis r) = 0
    /\ Workflow64.mortgages (Workflow64.r_lien_analysis r) = 1
    /\ (Spec.equity_estimate 41000 8700 == 10000)%Q
    /\ Spec.decision_table 0 (Spec.equity_estimate 41000 8700) 1 = Spec.Bid
    /\ Binary64.exact
         (Workflow64.max_bid_equity_70pct (Workflow64.r_investment_analysis r))
       = Some equity
    /\ (equity < Spec.equity_estimate 41000 8700)%Q
    /\ Workflow64.recommendation (Workflow64.r_investment_analysis r) = "SKIP"
    /\ Workflow64.reason (Workflow64.r_investment_analysis r)
       = "Insufficient equity after liens"
    /\ Workflow64.recommendation (Workflow64.r_investment_analysis r)
       <> label (Spec.decision_table 0 (Spec.equity_estimate 41000 8700) 1).
Proof.
  eexists. exists (2748779069439999 # 274877906944)%Q.
  split; [reflexivity|].
  repeat (split; [vm_compute; reflexivity|]).
  vm_compute. discriminate.
Qed.

(** C1, amended.  On a successful search [_combine_results] takes
    [arv = max(assessed_value, just_value)] and the equity
    [arv * 0.70 - total_encumbrance - 10000] in binary64 arithmetic, each
    operation rounded, and its recommendation is the one of the decision
    table read top to bottom on that rounded equity: Skip when an HOA lien
    is present, else Skip for insufficient equity when the equity is below
    10000, else Review with more than two mortgages, else Bid. *)
Theorem recommendation_follows_rounded_equity :
  forall (utcnow : string) (bcpao : Workflow64.bcpao_data)
         (acclaimweb : Workflow64.acclaimweb_result),
    Workflow64.success acclaimweb = true ->
    exists r,
      Workflow64._combine_results utcnow bcpao acclaimweb
      = Workflow64.Combined r
      /\ let la := Workflow64.r_lien_analysis r in
         let ia := Workflow64.r_investment_analysis r in
         Workflow64.arv ia
         = Binary64.max (get (Workflow64.assessed_value bcpao) Binary64.zero)
             (get (Workflow64.just_value bcpao) Binary64.zero)
         /\ Workflow64.max_bid_equity_70pct ia
            = equity_estimate_binary64 (Workflow64.arv ia)
                (Workflow64.total_encumbrance la)
         /\ Workflow64.recommendation ia
            = label (decision_table_binary64 (Workflow64.hoa_liens la)
                       (Workflow64.max_bid_equity_70pct ia)
                       (Workflow64.mortgages la))
         /\ (Workflow64.hoa_liens la = 0 ->
             Binary64.ltb (Workflow64.max_bid_equity_70pct ia)
               (Binary64.of_Z 10000) = true ->
             Workflow64.recommendation ia = "SKIP"
             /\ Workflow64.reason ia = "Insufficient equity after liens").
Proof.
  intros utcnow bcpao acclaimweb Hs.
  destruct (combine_results64_report utcnow bcpao acclaimweb Hs)
    as (r & Hr & _ & Hte & Hm & Hh & Harv & Heq & Hrec & Hrsn).
  exists r. split; [exact Hr|]. cbv zeta.
  rewrite Hrec, Hrsn, Heq, Hh, Hm, Harv, Hte.
  split; [reflexivity|]. split; [reflexivity|].
  split; [apply recommend64_decision_table|].
  intros H0 Hlt. unfold Workflow64.recommend.
  rewrite nonempty_length, H0, Hlt. now split.
Qed.

Lemma recommendation_follows_rounded_equity_witness :
  exists r,
    Workflow64._combine_results "2025-01-07T12:00:00"
      (a_valuation64 (Some (Binary64.of_Z 35000))
         (Some (Binary64.of_Z 41000)))
      (agent_found64 [a_document64 "MTG" (Binary64.of_Z 8700)])
    = Workflow64.Combined r
    /\ Workflow64.recommendation (Workflow64.r_investment_analysis r) = "SKIP"
    /\ Workflow64.reason (Workflow64.r_investment_analysis r)
       = "Insufficient equity after liens".
Proof.
  destruct (recommendation_follows_rounded_equity "2025-01-07T12:00:00"
              (a_valuation64 (Some (Binary64.of_Z 35000))
                 (Some (Binary64.of_Z 41000)))
              (agent_found64 [a_document64 "MTG" (Binary64.of_Z 8700)])
              eq_refl)
    as (r & Hr & _ & _ & _ & H).
  exists r. split; [exact Hr|].
  vm_compute in Hr. injection Hr as <-. apply H; reflexivity.
Defined.

(** ** The total encumbrance *)




(** ** The encumbrance summary *)

(** With cents the two parts of the summary need not add up to its total:
    for 152364.4 (a mortgage, first), 273064.5 and 57035.93 the total is
    482464.83, the rest 330100.43000000005, and their sum
    482464.8300000001. *)
Example encumbrance_summary_rounds_with_cents :
  exists s,
    Firecrawl64.encumbrance_summary
      (Firecrawl64.analyze_lien_priority cents_liens) = Some s
    /\ Binary64.ltb (Firecrawl64.total s)
         (Binary64.add (Firecrawl64.first_mortgage s)
            (Firecrawl64.other_liens s)) = true.
Proof.
  destruct (analyze64_closed cents_liens) as [_ Hs].
  assert (E : Binary64.ltb Binary64.zero
                (Binary64.sum (map Firecrawl64.amount cents_liens)) = true)
    by (vm_compute; reflexivity).
  rewrite E in Hs. eexists. split; [exact Hs|].
  vm_compute. reflexivity.
Qed.

(** X4. The analysis carries an [encumbrance_summary] exactly when the
    total encumbrance compares above 0.  The summary holds the total, the
    amount of the first record when that record is a mortgage and 0
    otherwise, and the rounded difference of the two.  When the amounts
    are whole and not negative and their total stays below 2^53, the two
    parts add up to the total exactly. *)
Theorem encumbrance_summary_splits_total :
  forall (liens : list Firecrawl64.lien),
    let a := Firecrawl64.analyze_lien_priority liens in
    (Firecrawl64.encumbrance_summary a = None
     <-> Binary64.ltb Binary64.zero (Firecrawl64.total_encumbrance a) = false)
    /\ forall s, Firecrawl64.encumbrance_summary a = Some s ->
         Firecrawl64.total s = Firecrawl64.total_encumbrance a
         /\ Firecrawl64.first_mortgage s = leading_mortgage_amount64 liens
         /\ Firecrawl64.other_liens s
            = Binary64.sub (Firecrawl64.total s) (Firecrawl64.first_mortgage s)
         /\ forall ns,
              whole_amounts (map Firecrawl64.amount liens) ns ->
              (Zsum ns < 2 ^ 53)%Z ->
              Firecrawl64.total s = Binary64.of_Z (Zsum ns)
              /\ Binary64.add (Firecrawl64.first_mortgage s)
                   (Firecrawl64.other_liens s)
                 = Firecrawl64.total s.
Proof.
  intros liens a. subst a.
  destruct (analyze64_closed liens) as [Ht Hs]. rewrite Ht, Hs.
  destruct (Binary64.ltb Binary64.zero
              (Binary64.sum (map Firecrawl64.amount liens))) eqn:E.
  - split; [split; discriminate|].
    intros s [= <-].
    cbn [Firecrawl64.total Firecrawl64.first_mortgage
         Firecrawl64.other_liens].
    repeat split.
    + destruct H as [Hm Hns]. rewrite Hm. now apply sum_of_Z.
    + destruct H as [Hm Hns]. rewrite Hm, sum_of_Z by assumption.
      pose proof (Zsum_nonneg ns Hns) as Hnn.
      assert (Hl : exists f, (0 <= f <= Zsum ns)%Z
                             /\ leading_mortgage_amount64 liens
                                = Binary64.of_Z f).
      { destruct liens as [|l ls]; [exists 0%Z; split; [lia | reflexivity]|].
        destruct ns as [|n ns']; [discriminate|].
        injection Hm as Hl Hls. inversion Hns as [|? ? Hn Hns']; subst.
        pose proof (Zsum_nonneg ns' Hns').
        cbn [leading_mortgage_amount64 Zsum fold_right] in *.
        fold (Zsum ns') in *.
        destruct (String.eqb (Firecrawl64.type l) "MTG").
        - exists n. split; [lia | exact Hl].
        - exists 0%Z. split; [lia | reflexivity]. }
      destruct Hl as (f & Hf & ->).
      rewrite sub_of_Z by lia. rewrite add_of_Z by lia.
      f_equal. lia.
  - split; [split; reflexivity | discriminate].
Qed.

Lemma encumbrance_summary_splits_total_witness :
  exists s,
    Firecrawl64.encumbrance_summary
      (Firecrawl64.analyze_lien_priority whole_liens) = Some s
    /\ Firecrawl64.total s = Binary64.of_Z 272500
    /\ Binary64.add (Firecrawl64.first_mortgage s) (Firecrawl64.other_liens s)
       = Firecrawl64.total s.
Proof.
  destruct (encumbrance_summary_splits_total whole_liens) as [_ H].
  destruct (Firecrawl64.encumbrance_summary
              (Firecrawl64.analyze_lien_priority whole_liens)) as [s|] eqn:E;
    [|vm_compute in E; discriminate E].
  exists s. split; [reflexivity|].
  destruct (H s eq_refl) as (_ & _ & _ & Hw).
  apply (Hw [250000; 15000; 7500]%Z).
  - split; [reflexivity|]. repeat constructor; discriminate.
  - reflexivity.
Defined.
